(** * Pm.py: portfolio metrics, optimisation and Monte Carlo VaR

    A shallow embedding of [Pm.py] and the properties its specification
    states about it.

    Numbers.  The program computes on NumPy [float64] values.  They are
    modelled as the real numbers extended with the three IEEE special
    values the program can produce and test for ([inf], [-inf], [nan]).
    Arithmetic on finite values is exact: rounding, overflow, underflow
    and the sign of zero are outside this model (a zero divisor is read as
    [+0.0]).  The properties of computed values proved below are of the
    kind rounding preserves (an order, a sign, which entries are selected),
    for values of moderate magnitude where an overflow would matter.  Where
    the rounding itself decides, the lines concerned are evaluated on
    IEEE 754 binary64 values, in [Binary64].

    Libraries.  NumPy and pandas reductions are written out from their
    documented definitions.  The SciPy statistics and solver, yfinance, the
    Streamlit widgets and the [user_data] module are collaborators the
    program calls but does not define: they are Section variables, grouped
    in one record per library. *)

From Stdlib Require Import Floats.
From Stdlib Require Import Reals Lra Lia String Bool Arith List.
From Stdlib Require Import Permutation Sorted DecimalString.
Import ListNotations.

Local Open Scope string_scope.
Local Open Scope list_scope.
Local Open Scope R_scope.

(** ** float64 values *)

Inductive float64 : Type :=
| Finite (x : R)
| PosInf
| NegInf
| NaN.

Declare Scope float64_scope.
Delimit Scope float64_scope with f64.
Bind Scope float64_scope with float64.

(** The sign of a real, as a [comparison] with zero. *)
Definition Rsign (x : R) : comparison :=
  if Rlt_dec 0 x then Gt else if Rlt_dec x 0 then Lt else Eq.

(** The sign of a value; [None] for [nan]. *)
Definition fsign (a : float64) : option comparison :=
  match a with
  | Finite x => Some (Rsign x)
  | PosInf => Some Gt
  | NegInf => Some Lt
  | NaN => None
  end.

Definition sign_mul (s t : comparison) : comparison :=
  match s, t with
  | Eq, _ | _, Eq => Eq
  | Gt, Gt | Lt, Lt => Gt
  | _, _ => Lt
  end.

(** The infinity of a given sign; a zero sign stands for [inf * 0],
    [0 / 0]: [nan]. *)
Definition signed_inf (s : comparison) : float64 :=
  match s with
  | Gt => PosInf
  | Lt => NegInf
  | Eq => NaN
  end.

Definition fneg (a : float64) : float64 :=
  match a with
  | Finite x => Finite (- x)
  | PosInf => NegInf
  | NegInf => PosInf
  | NaN => NaN
  end.

Definition fadd (a b : float64) : float64 :=
  match a, b with
  | NaN, _ | _, NaN => NaN
  | Finite x, Finite y => Finite (x + y)
  | PosInf, NegInf | NegInf, PosInf => NaN
  | PosInf, _ | _, PosInf => PosInf
  | NegInf, _ | _, NegInf => NegInf
  end.

Definition fsub (a b : float64) : float64 := fadd a (fneg b).

Definition fmul (a b : float64) : float64 :=
  match a, b with
  | Finite x, Finite y => Finite (x * y)
  | _, _ =>
      match fsign a, fsign b with
      | Some s, Some t => signed_inf (sign_mul s t)
      | _, _ => NaN
      end
  end.

(** Division never raises in NumPy: a zero divisor gives an infinity of
    the dividend's sign, or [nan] for [0 / 0]. *)
Definition fdiv (a b : float64) : float64 :=
  match a, b with
  | NaN, _ | _, NaN => NaN
  | Finite x, Finite y =>
      if Req_EM_T y 0 then signed_inf (Rsign x) else Finite (x / y)
  | Finite _, _ => Finite 0
  | _, Finite y =>
      match fsign a with
      | Some s => signed_inf (sign_mul s (if Req_EM_T y 0 then Gt else Rsign y))
      | None => NaN
      end
  | _, _ => NaN
  end.

(** [np.sqrt]: [nan] on a negative argument. *)
Definition np_sqrt (a : float64) : float64 :=
  match a with
  | Finite x => if Rlt_dec x 0 then NaN else Finite (sqrt x)
  | PosInf => PosInf
  | NegInf | NaN => NaN
  end.

(** [np.exp], without the rounding: on a number its value is positive,
    where the float64 result is 0 below about -745 and [inf] above about
    709. *)
Definition np_exp (a : float64) : float64 :=
  match a with
  | Finite x => Finite (exp x)
  | PosInf => PosInf
  | NegInf => Finite 0
  | NaN => NaN
  end.

(** [a <= b]: false as soon as one side is [nan]. *)
Definition fleb (a b : float64) : bool :=
  match a, b with
  | NaN, _ | _, NaN => false
  | Finite x, Finite y => if Rle_dec x y then true else false
  | NegInf, _ | _, PosInf => true
  | _, _ => false
  end.

(** [a < b]. *)
Definition fltb (a b : float64) : bool :=
  match a, b with
  | NaN, _ | _, NaN => false
  | Finite x, Finite y => if Rlt_dec x y then true else false
  | PosInf, _ | _, NegInf => false
  | _, _ => true
  end.

Definition np_isnan (a : float64) : bool :=
  match a with NaN => true | _ => false end.

Notation "a + b" := (fadd a b) : float64_scope.
Notation "a - b" := (fsub a b) : float64_scope.
Notation "a * b" := (fmul a b) : float64_scope.
Notation "a / b" := (fdiv a b) : float64_scope.
Notation "- a" := (fneg a) : float64_scope.

(** A Python [int] count read as a float64 value. *)
Definition of_nat (n : nat) : float64 := Finite (INR n).

(** ** NumPy and pandas on one-dimensional data *)

(** A one-dimensional [ndarray] or the values of a pandas [Series]. *)
Definition ndarray : Type := list float64.

Definition np_sum (a : ndarray) : float64 := fold_left fadd a (Finite 0).

(** [np.mean], [Series.mean]: [nan] on empty data ([0 / 0]). *)
Definition np_mean (a : ndarray) : float64 :=
  (np_sum a / of_nat (length a))%f64.

(** [np.std] with its default [ddof = 0]: the root of the mean squared
    deviation. *)
Definition np_std (a : ndarray) : float64 :=
  let m := np_mean a in
  np_sqrt (np_mean (map (fun x => (x - m) * (x - m))%f64 a)).

Definition np_prod (a : ndarray) : float64 := fold_left fmul a (Finite 1).

(** pandas reductions skip [nan] entries ([skipna=True]): [Series.sum],
    [Series.mean], [Series.std(ddof=0)] (what [np.mean] and [np.std] call
    on a pandas object) and [Series.prod]. *)
Definition skipna (a : ndarray) : ndarray :=
  filter (fun x => negb (np_isnan x)) a.

Definition pd_sum (a : ndarray) : float64 := np_sum (skipna a).
Definition pd_mean (a : ndarray) : float64 := np_mean (skipna a).
Definition pd_std (a : ndarray) : float64 := np_std (skipna a).
Definition pd_prod (a : ndarray) : float64 := np_prod (skipna a).

(** [ndarray.cumsum]: running sums. *)
Fixpoint cumsum_from (acc : float64) (a : ndarray) : ndarray :=
  match a with
  | [] => []
  | x :: a' => let s := (acc + x)%f64 in s :: cumsum_from s a'
  end.

Definition np_cumsum (a : ndarray) : ndarray :=
  match a with
  | [] => []
  | x :: a' => x :: cumsum_from x a'
  end.

(** [np.sort]: ascending, [nan] last. *)
Definition sort_leb (a b : float64) : bool := np_isnan b || fleb a b.

Fixpoint insert_sorted (x : float64) (a : ndarray) : ndarray :=
  match a with
  | [] => [x]
  | y :: a' => if sort_leb x y then x :: y :: a' else y :: insert_sorted x a'
  end.

Definition np_sort (a : ndarray) : ndarray := fold_right insert_sorted [] a.

(** NumPy's linear interpolation between two neighbouring order statistics
    ([_lerp]): from the left value below [t = 0.5], from the right value
    from there on. *)
Definition lerp (a b : float64) (t : R) : float64 :=
  let diff_b_a := (b - a)%f64 in
  if Rle_dec (1 / 2) t
  then (b - diff_b_a * Finite (1 - t))%f64
  else (a + diff_b_a * Finite t)%f64.

(** [np.percentile(a, q)] for a whole percent [q], default (linear) method:
    the virtual index [(n - 1) * q / 100] is split in its floor and its
    fractional part.  [nan] when the data holds a [nan] or is empty. *)
Definition np_percentile (a : ndarray) (q : nat) : float64 :=
  let n := length a in
  if (n =? 0)%nat || existsb np_isnan a then NaN
  else
    let arr := np_sort a in
    let virtual_index := ((n - 1) * q)%nat in
    let previous := (virtual_index / 100)%nat in
    let next := Nat.min (previous + 1) (n - 1) in
    let gamma := INR (virtual_index mod 100) / 100 in
    lerp (nth previous arr NaN) (nth next arr NaN) gamma.

(** Boolean indexing [a[mask]]: the entries whose mask bit is set. *)
Fixpoint boolean_index {A : Type} (a : list A) (mask : list bool) : list A :=
  match a, mask with
  | x :: a', b :: mask' =>
      if b then x :: boolean_index a' mask' else boolean_index a' mask'
  | _, _ => []
  end.

(** The mask [a <= v]. *)
Definition le_mask (a : ndarray) (v : float64) : list bool :=
  map (fun x => fleb x v) a.

(** The sum of the products of two vectors, entry by entry. *)
Fixpoint inner_product (a b : ndarray) : float64 :=
  match a, b with
  | x :: a', y :: b' => (x * y + inner_product a' b')%f64
  | _, _ => Finite 0
  end.

(** ** pandas objects *)

(** A [DataFrame] of float64 values, row by row (one row per date, one
    entry per column).  The date index is carried by position. *)
Record DataFrame : Type := {
  columns : list string;
  rows : list ndarray
}.

Inductive pandas_obj : Type :=
| Series (values : ndarray)
| Frame (df : DataFrame).

(** Python's [len]: the number of entries of a series, of rows of a
    frame. *)
Definition len (o : pandas_obj) : nat :=
  match o with
  | Series v => length v
  | Frame df => length (rows df)
  end.

Definition column (df : DataFrame) (j : nat) : ndarray :=
  map (fun row => nth j row NaN) (rows df).

(** [DataFrame.mean()]: the mean of each column. *)
Definition df_mean (df : DataFrame) : ndarray :=
  map (fun j => pd_mean (column df j)) (seq 0 (length (columns df))).

(** [DataFrame.cov()]: the sample covariance (divisor [nobs - 1]) of every
    pair of columns, over the rows in which neither column has a [nan];
    [nan] on fewer than two such rows. *)
Definition covariance (a b : ndarray) : float64 :=
  let observed :=
    filter (fun xy => negb (np_isnan (fst xy)) && negb (np_isnan (snd xy)))
           (combine a b) in
  let nobs := length observed in
  if (nobs <? 2)%nat then NaN else
  let ma := np_mean (map fst observed) in
  let mb := np_mean (map snd observed) in
  (np_sum (map (fun xy => (fst xy - ma) * (snd xy - mb))%f64 observed)
   / Finite (INR nobs - 1))%f64.

Definition df_cov (df : DataFrame) : list ndarray :=
  let js := seq 0 (length (columns df)) in
  map (fun i => map (fun j => covariance (column df i) (column df j)) js) js.

(** pandas [cumsum], of a series and of a frame (down each column): the
    running sums pass over [nan] entries, which stay [nan] (the values are
    summed with zeros in their place). *)
Definition fill_zero (a : ndarray) : ndarray :=
  map (fun x => if np_isnan x then Finite 0 else x) a.

Definition restore_nan (a sums : ndarray) : ndarray :=
  map (fun p => if np_isnan (fst p) then NaN else snd p) (combine a sums).

Fixpoint rows_cumsum_from (acc : ndarray) (rs : list ndarray) : list ndarray :=
  match rs with
  | [] => []
  | r :: rs' =>
      let s := map (fun p => (fst p + snd p)%f64) (combine acc r) in
      s :: rows_cumsum_from s rs'
  end.

Definition pd_cumsum (o : pandas_obj) : pandas_obj :=
  match o with
  | Series v => Series (restore_nan v (np_cumsum (fill_zero v)))
  | Frame df =>
      let sums := match map fill_zero (rows df) with
                  | [] => []
                  | r :: rs => r :: rows_cumsum_from r rs
                  end in
      Frame {| columns := columns df;
               rows := map (fun p => restore_nan (fst p) (snd p))
                           (combine (rows df) sums) |}
  end.

(** ** Python control flow: results, exceptions, effects *)

(** An exception (an instance of [Exception]): its class and its message
    ([str(e)]). *)
Record exn : Type := {
  exn_class : string;
  exn_msg : string
}.

(** How a call ends. *)
Inductive outcome (A : Type) : Type :=
| Return (a : A)
| Raise (e : exn).

Arguments Return {A} a.
Arguments Raise {A} e.

(** One call after another, when each may raise. *)
Definition and_then {A B : Type} (o : outcome A) (k : A -> outcome B)
  : outcome B :=
  match o with
  | Return a => k a
  | Raise e => Raise e
  end.

(** Python's [str] of a count. *)
Definition str_nat (n : nat) : string := NilZero.string_of_uint (Nat.to_uint n).

(** [np.dot] of two vectors: their lengths must agree. *)
Definition np_dot (a b : ndarray) : outcome float64 :=
  if (length a =? length b)%nat then Return (inner_product a b)
  else Raise {| exn_class := "ValueError";
                exn_msg := ("shapes (" ++ str_nat (length a) ++ ",) and ("
                            ++ str_nat (length b) ++ ",) not aligned: "
                            ++ str_nat (length a) ++ " (dim 0) != "
                            ++ str_nat (length b) ++ " (dim 0)")%string |}.

(** The shape of a two-dimensional array given by its rows. *)
Definition shape (a : list ndarray) : nat * nat :=
  (length a, match a with [] => 0%nat | row :: _ => length row end).

(** [np.dot] of a two-dimensional array and a vector: the array must be as
    wide as the vector is long. *)
Definition np_dot_matrix (a : list ndarray) (v : ndarray) : outcome ndarray :=
  if (snd (shape a) =? length v)%nat
  then Return (map (fun row => inner_product row v) a)
  else Raise {| exn_class := "ValueError";
                exn_msg := ("shapes (" ++ str_nat (fst (shape a)) ++ ","
                            ++ str_nat (snd (shape a)) ++ ") and ("
                            ++ str_nat (length v) ++ ",) not aligned: "
                            ++ str_nat (snd (shape a)) ++ " (dim 1) != "
                            ++ str_nat (length v) ++ " (dim 0)")%string |}.

(** An f-string: literal text and formatted values. *)
Inductive piece : Type :=
| Text (s : string)
| Value (v : float64) (format_spec : string).

Definition fstring : Type := list piece.

(** A Plotly trace and figure. *)
Inductive trace : Type :=
| Pie (labels : list string) (values : ndarray) (hole : R)
| Scatter (y : pandas_obj) (mode name : string)
| Histogram (x : ndarray) (nbinsx : nat).

Record figure : Type := {
  fig_data : list trace;
  fig_title : string
}.

(** One row of the allocation table: Stock, Quantity, Value, Percentage. *)
Record allocation_row : Type := {
  Stock : string;
  Quantity : float64;
  Value_ : float64;
  Percentage : float64
}.

(** What the program asks Streamlit to show.  Layout calls ([st.columns],
    [st.expander]) show nothing themselves and are left out. *)
Inductive st_call : Type :=
| st_title (body : string)
| st_header (body : string)
| st_subheader (body : string)
| st_error (body : fstring)
| st_warning (body : string)
| st_info (body : string)
| st_success (body : fstring)
| st_metric (label : string) (value : fstring)
| st_plotly_chart (fig : figure)
| st_dataframe (data : list allocation_row)
| st_write (body : string)
| st_sidebar_title (body : string).

(** The holdings: a Python [dict] from ticker to quantity, in insertion
    order. *)
Definition holdings : Type := list (string * float64).

(** A user's stored data: the entry under the key ["portfolio"], when
    there is one, and the other entries. *)
Record user_data : Type := {
  portfolio_entry : option holdings;
  other_entries : list (string * string)
}.

(** The state the program acts on: what Streamlit has been asked to show
    (latest last), the standard normal variates NumPy's global generator
    will yield next, and the stored user data. *)
Record world : Type := {
  st_calls : list st_call;
  np_random : nat -> R;
  user_files : list (string * user_data)
}.

(** A Python computation: it changes the world and returns or raises. *)
Definition py (A : Type) : Type := world -> outcome A * world.

Definition ret {A : Type} (a : A) : py A := fun w => (Return a, w).

Definition raise {A : Type} (e : exn) : py A := fun w => (Raise e, w).

Definition bind {A B : Type} (c : py A) (k : A -> py B) : py B :=
  fun w =>
    match c w with
    | (Return a, w') => k a w'
    | (Raise e, w') => (Raise e, w')
    end.

(** [try: c except Exception as e: handler e]. *)
Definition try_except {A : Type} (c : py A) (handler : exn -> py A) : py A :=
  fun w =>
    match c w with
    | (Return a, w') => (Return a, w')
    | (Raise e, w') => handler e w'
    end.

(** A pure call that may raise. *)
Definition lift {A : Type} (o : outcome A) : py A := fun w => (o, w).

(** A Streamlit display call. *)
Definition st (c : st_call) : py unit :=
  fun w =>
    (Return tt,
     {| st_calls := st_calls w ++ [c];
        np_random := np_random w;
        user_files := user_files w |}).

Declare Scope py_scope.
Delimit Scope py_scope with py.
Bind Scope py_scope with py.

Notation "x <- c ;; k" := (bind c (fun x => k))
  (at level 61, c at next level, right associativity) : py_scope.
Notation "c ;; k" := (bind c (fun _ => k))
  (at level 61, right associativity) : py_scope.

(** A loop over a list, left to right. *)
Fixpoint for_each {A B : Type} (f : A -> py B) (l : list A) : py (list B) :=
  match l with
  | [] => ret []
  | x :: l' => (y <- f x ;; ys <- for_each f l' ;; ret (y :: ys))%py
  end.

(** Python [dict] operations on the holdings. *)
Fixpoint dict_get (d : holdings) (k : string) : option float64 :=
  match d with
  | [] => None
  | (k', v) :: d' => if String.eqb k k' then Some v else dict_get d' k
  end.

(** [d[k] = v]: an existing key keeps its place, a new one goes last. *)
Fixpoint dict_set (d : holdings) (k : string) (v : float64) : holdings :=
  match d with
  | [] => [(k, v)]
  | (k', v') :: d' =>
      if String.eqb k k' then (k, v) :: d' else (k', v') :: dict_set d' k v
  end.

Definition keys (d : holdings) : list string := map fst d.

(** ** The collaborators *)

(** [scipy.optimize.minimize]'s result: the last iterate [x], and whether
    the solver converged. *)
Module OptimizeResult.
Record t : Type := {
  x : ndarray;
  success : bool;
  message : string
}.
End OptimizeResult.

(** A constraint as given to the solver: [{'type': ..., 'fun': ...}]. *)
Record constraint : Type := {
  type_ : string;
  fun_ : ndarray -> float64
}.

(** SciPy: [stats.skew], [stats.kurtosis], [stats.shapiro] (statistic and
    p-value; it may refuse short data), and
    [minimize(fun, x0, method=, bounds=, constraints=)]. *)
Record scipy_lib : Type := {
  stats_skew : ndarray -> float64;
  stats_kurtosis : ndarray -> float64;
  stats_shapiro : ndarray -> outcome (float64 * float64);
  minimize :
    (ndarray -> outcome float64) -> ndarray -> option string ->
    list (R * R) -> constraint -> outcome OptimizeResult.t
}.

(** yfinance and the pandas calls on the price table it returns:
    [yf.Ticker(t).info.get('regularMarketPrice')],
    [yf.Ticker(t).history(period="1d")['Close'].iloc[-1]],
    [yf.download(tickers, start=now - 365 days, end=now)['Adj Close']],
    [.to_frame()], [.fillna(method='pad')], [.pct_change().dropna()]. *)
Record market_data (price_table : Type) : Type := {
  info_regularMarketPrice : string -> py (option float64);
  history_last_close : string -> py float64;
  download_adj_close : list string -> py price_table;
  to_frame : price_table -> outcome price_table;
  fillna_pad : price_table -> outcome price_table;
  pct_change_dropna : price_table -> outcome DataFrame
}.

Arguments info_regularMarketPrice {price_table} _ _.
Arguments history_last_close {price_table} _ _.
Arguments download_adj_close {price_table} _ _.
Arguments to_frame {price_table} _ _.
Arguments fillna_pad {price_table} _ _.
Arguments pct_change_dropna {price_table} _ _.

(** The Streamlit input widgets, each read by its label. *)
Record widgets : Type := {
  text_input : string -> string;
  number_input : string -> float64;
  button : string -> bool;
  slider : string -> nat;
  sidebar_radio : string -> list string -> string
}.

(** The repository's [user_data] module. *)
Record user_data_module : Type := {
  load_user_data : string -> py user_data;
  save_user_data : string -> user_data -> py unit
}.

(** The nine statistics of [calculate_portfolio_metrics], by their keys
    (['return'] is [return_]). *)
Record MetricsResult : Type := {
  return_ : float64;
  volatility : float64;
  sharpe_ratio : float64;
  skewness : float64;
  kurtosis : float64;
  shapiro_p_value : float64;
  cumulative_return : float64;
  var_95 : float64;
  cvar_95 : float64
}.

(** The [n] by [t] array [loc + scale * z] of the variates [z] taken
    row by row. *)
Definition normal_matrix (z : nat -> R) (loc scale : float64) (n t : nat)
  : list ndarray :=
  map (fun i =>
         map (fun j => (loc + scale * Finite (z (i * t + j)%nat))%f64) (seq 0 t))
      (seq 0 n).

(** [np.random.normal(loc, scale, (n, t))]: [n * t] variates taken from
    the global generator, which moves on by as many; it refuses a negative
    scale. *)
Definition np_random_normal (loc scale : float64) (n t : nat)
  : py (list ndarray) :=
  fun w =>
    if fltb scale (Finite 0)
    then (Raise {| exn_class := "ValueError"; exn_msg := "scale < 0" |}, w)
    else
      (Return (normal_matrix (np_random w) loc scale n t),
       {| st_calls := st_calls w;
          np_random := fun k => np_random w (n * t + k)%nat;
          user_files := user_files w |}).

(** [a[:, -1]] on a two-dimensional array of [t] columns: the last entry
    of every row; an error when there is no column. *)
Definition last_column (a : list ndarray) (t : nat) : outcome ndarray :=
  if (t =? 0)%nat
  then Raise {| exn_class := "IndexError";
                exn_msg := "index -1 is out of bounds for axis 1 with size 0" |}
  else Return (map (fun row => last row NaN) a).

(** ** The program *)

Section Pm.

Variable scipy : scipy_lib.
Variable price_table : Type.
Variable yf : market_data price_table.
Variable widget : widgets.
Variable user_data_py : user_data_module.
Variable frame_metrics : DataFrame -> outcome MetricsResult.

Local Open Scope py_scope.

(** [get_stock_value] (lines 12-21). *)
Definition get_stock_value (ticker : string) (quantity : float64) : py float64 :=
  try_except
    (current_price <- info_regularMarketPrice yf ticker ;;
     current_price <- match current_price with
                      | None => history_last_close yf ticker
                      | Some p => ret p
                      end ;;
     ret (current_price * quantity)%f64)
    (fun e =>
       st (st_error [Text "Error fetching stock value for "; Text ticker;
                     Text ": "; Text (exn_msg e)]) ;;
       ret (Finite 0)).

(** [display_current_portfolio] (lines 40-53). *)
Definition display_current_portfolio (portfolio : holdings) : py unit :=
  match portfolio with
  | _ :: _ =>
      values <- for_each (fun row => get_stock_value (fst row) (snd row))
                         portfolio ;;
      let total_value := pd_sum values in
      let percentage :=
        if fltb (Finite 0) total_value
        then map (fun v => (v / total_value * Finite 100)%f64) values
        else map (fun _ => Finite 0) values in
      st (st_plotly_chart
            {| fig_data := [Pie (keys portfolio) values (3 / 10)];
               fig_title := "Portfolio Composition" |}) ;;
      st (st_dataframe
            (map (fun r =>
                    {| Stock := fst (fst (fst r));
                       Quantity := snd (fst (fst r));
                       Value_ := snd (fst r);
                       Percentage := snd r |})
                 (combine (combine portfolio values) percentage)))
  | [] => st (st_info "Your portfolio is empty. Add some stocks to get started!")
  end.

(** [add_stock_to_portfolio] (lines 55-71).  The dict it is given is
    changed in place: the changed dict is returned. *)
Definition add_stock_to_portfolio (user_id : string) (portfolio : holdings)
  : py holdings :=
  st (st_header "Add Stock to Portfolio") ;;
  let new_stock := text_input widget "Enter stock ticker:" in
  let new_quantity := number_input widget "Enter quantity:" in
  if button widget "Add to Portfolio" then
    let portfolio :=
      match dict_get portfolio new_stock with
      | Some q => dict_set portfolio new_stock (q + new_quantity)%f64
      | None => dict_set portfolio new_stock new_quantity
      end in
    user_data <- load_user_data user_data_py user_id ;;
    let user_data := {| portfolio_entry := Some portfolio;
                        other_entries := other_entries user_data |} in
    save_user_data user_data_py user_id user_data ;;
    st (st_success [Text "Added "; Value new_quantity ""; Text " shares of ";
                    Text new_stock; Text " to your portfolio."]) ;;
    ret portfolio
  else ret portfolio.

(** The result of the short-series branch (lines 86-96): [np.nan] under
    every key. *)
Definition undefined_metrics : MetricsResult :=
  {| return_ := NaN; volatility := NaN; sharpe_ratio := NaN;
     skewness := NaN; kurtosis := NaN; shapiro_p_value := NaN;
     cumulative_return := NaN; var_95 := NaN; cvar_95 := NaN |}.

(** [calculate_portfolio_metrics] (lines 84-118).  It is called with a
    return series and, on the single-asset path, with a one-column frame:
    what lines 98-118 make of a frame (reductions column by column) is the
    collaborator [frame_metrics]. *)
Definition calculate_portfolio_metrics (returns : pandas_obj)
  : outcome MetricsResult :=
  if (len returns <? 2)%nat then Return undefined_metrics
  else
    match returns with
    | Frame df => frame_metrics df
    | Series returns =>
        let portfolio_return := (pd_mean returns * Finite 252)%f64 in
        let portfolio_volatility :=
          (pd_std returns * np_sqrt (Finite 252))%f64 in
        let sharpe_ratio := (portfolio_return / portfolio_volatility)%f64 in
        let skewness := stats_skew scipy returns in
        let kurtosis := stats_kurtosis scipy returns in
        match stats_shapiro scipy returns with
        | Raise e => Raise e
        | Return (_, p_value) =>
            let cumulative_return :=
              (pd_prod (map (fun r => Finite 1 + r) returns) - Finite 1)%f64 in
            let var_95 := np_percentile returns 5 in
            let cvar_95 :=
              pd_mean (boolean_index returns (le_mask returns var_95)) in
            Return {| return_ := portfolio_return;
                      volatility := portfolio_volatility;
                      sharpe_ratio := sharpe_ratio;
                      skewness := skewness;
                      kurtosis := kurtosis;
                      shapiro_p_value := p_value;
                      cumulative_return := cumulative_return;
                      var_95 := var_95;
                      cvar_95 := cvar_95 |}
        end
    end.

(** A metric's text: [f"{v:spec}" if not np.isnan(v) else "N/A"]. *)
Definition metric_text (v : float64) (format_spec : string) : fstring :=
  if negb (np_isnan v) then [Value v format_spec] else [Text "N/A"].

Definition metrics_explanation : string :=
  "
        - **Annual Return**: The expected yearly return of the portfolio.
        - **Annual Volatility**: The amount of risk or fluctuation in the portfolio returns.
        - **Sharpe Ratio**: Measures the risk-adjusted return. Higher is better.
        - **Skewness**: Measures the asymmetry of returns. Positive skewness is generally preferred.
        - **Kurtosis**: Measures the tailedness of the return distribution. Higher kurtosis indicates more extreme outcomes.
        - **Shapiro-Wilk p-value**: Tests for normality of returns. A p-value > 0.05 suggests normally distributed returns.
        - **Cumulative Return**: The total return over the period.
        - **Value at Risk (95%)**: The maximum loss expected with 95% confidence over a day.
        - **Conditional VaR (95%)**: The expected loss when the loss exceeds the VaR.
        ".

(** [display_portfolio_metrics] (lines 120-146). *)
Definition display_portfolio_metrics (metrics : MetricsResult) : py unit :=
  st (st_subheader "Portfolio Metrics") ;;
  st (st_metric "Annual Return" (metric_text (return_ metrics) ".2%")) ;;
  st (st_metric "Annual Volatility" (metric_text (volatility metrics) ".2%")) ;;
  st (st_metric "Sharpe Ratio" (metric_text (sharpe_ratio metrics) ".2f")) ;;
  st (st_metric "Skewness" (metric_text (skewness metrics) ".2f")) ;;
  st (st_metric "Kurtosis" (metric_text (kurtosis metrics) ".2f")) ;;
  st (st_metric "Shapiro-Wilk p-value"
        (metric_text (shapiro_p_value metrics) ".4f")) ;;
  st (st_metric "Cumulative Return"
        (metric_text (cumulative_return metrics) ".2%")) ;;
  st (st_metric "Value at Risk (95%)" (metric_text (var_95 metrics) ".2%")) ;;
  st (st_metric "Conditional VaR (95%)" (metric_text (cvar_95 metrics) ".2%")) ;;
  st (st_write metrics_explanation).

(** [plot_portfolio_returns] (lines 148-153). *)
Definition plot_portfolio_returns (returns : pandas_obj) : py unit :=
  st (st_plotly_chart
        {| fig_data := [Scatter returns "lines" "Daily Returns";
                        Scatter (pd_cumsum returns) "lines" "Cumulative Returns"];
           fig_title := "Portfolio Returns Over Time" |}).

(** [perform_portfolio_overview] (lines 23-38). *)
Definition perform_portfolio_overview
  (portfolio_returns : pandas_obj) (returns : DataFrame) (portfolio : holdings)
  : py unit :=
  st (st_header "Portfolio Overview") ;;
  st (st_subheader "Current Allocation") ;;
  display_current_portfolio portfolio ;;
  st (st_subheader "Key Metrics") ;;
  metrics <- lift (calculate_portfolio_metrics portfolio_returns) ;;
  display_portfolio_metrics metrics ;;
  st (st_subheader "Portfolio Returns Over Time") ;;
  plot_portfolio_returns portfolio_returns.

(** [perform_portfolio_analysis] (lines 73-82). *)
Definition perform_portfolio_analysis (portfolio_returns : pandas_obj)
  : py unit :=
  st (st_header "Portfolio Analysis") ;;
  metrics <- lift (calculate_portfolio_metrics portfolio_returns) ;;
  display_portfolio_metrics metrics ;;
  plot_portfolio_returns portfolio_returns.

(** [portfolio_return] (lines 155-156).  The product of the series of
    the columns' means and the weights is taken entry by entry, a single
    weight being broadcast; other lengths are refused, by pandas when the
    frame has one column, by NumPy otherwise.  The product is a pandas
    series, which [np.sum] sums the pandas way. *)
Definition portfolio_return (weights : ndarray) (returns : DataFrame)
  : outcome float64 :=
  let means := df_mean returns in
  let n := length means in
  let m := length weights in
  if (m =? n)%nat then
    Return (pd_sum (map (fun p => fst p * snd p) (combine means weights))
            * Finite 252)%f64
  else if (m =? 1)%nat then
    Return (pd_sum (map (fun x => x * nth 0 weights NaN) means)
            * Finite 252)%f64
  else if (n =? 1)%nat then
    Raise {| exn_class := "ValueError";
             exn_msg := ("Length of values (" ++ str_nat m
                         ++ ") does not match length of index (1)")%string |}
  else
    Raise {| exn_class := "ValueError";
             exn_msg := ("operands could not be broadcast together with shapes ("
                         ++ str_nat n ++ ",) (" ++ str_nat m ++ ",) ")%string |}.

(** [portfolio_volatility] (lines 158-159). *)
Definition portfolio_volatility (weights : ndarray) (cov_matrix : list ndarray)
  : outcome float64 :=
  and_then (np_dot_matrix cov_matrix weights) (fun v =>
  and_then (np_dot weights v) (fun variance =>
  Return (np_sqrt variance * np_sqrt (Finite 252))%f64)).

(** [negative_sharpe_ratio] (lines 161-164). *)
Definition negative_sharpe_ratio
  (weights : ndarray) (returns : DataFrame) (cov_matrix : list ndarray)
  (risk_free_rate : float64) : outcome float64 :=
  and_then (portfolio_return weights returns) (fun p_return =>
  and_then (portfolio_volatility weights cov_matrix) (fun p_volatility =>
  Return (- (p_return - risk_free_rate) / p_volatility)%f64)).

(** [num_stocks * [1. / num_stocks, ]]: Python's float division raises on
    a zero divisor. *)
Definition initial_guess (num_stocks : nat) : outcome ndarray :=
  if (num_stocks =? 0)%nat
  then Raise {| exn_class := "ZeroDivisionError";
                exn_msg := "float division by zero" |}
  else Return (repeat (Finite (1 / INR num_stocks)) num_stocks).

(** [tuple((0, 1) for _ in range(num_stocks))]. *)
Definition bounds (num_stocks : nat) : list (R * R) := repeat (0, 1) num_stocks.

(** [{'type': 'eq', 'fun': lambda weights: np.sum(weights) - 1}]. *)
Definition constraints : constraint :=
  {| type_ := "eq"; fun_ := fun weights => (np_sum weights - Finite 1)%f64 |}.

(** [maximize_sharpe_ratio] (lines 193-201). *)
Definition maximize_sharpe_ratio
  (returns : DataFrame) (cov_matrix : list ndarray) (risk_free_rate : float64)
  : outcome ndarray :=
  let num_stocks := length (columns returns) in
  match initial_guess num_stocks with
  | Raise e => Raise e
  | Return x0 =>
      match minimize scipy
              (fun w => negative_sharpe_ratio w returns cov_matrix risk_free_rate)
              x0 (Some "SLSQP") (bounds num_stocks) constraints with
      | Raise e => Raise e
      | Return result => Return (OptimizeResult.x result)
      end
  end.

(** [global_minimum_variance] (lines 203-213). *)
Definition global_minimum_variance (cov_matrix : list ndarray) : outcome ndarray :=
  let num_stocks := length cov_matrix in
  match initial_guess num_stocks with
  | Raise e => Raise e
  | Return x0 =>
      let portfolio_vol := fun weights => portfolio_volatility weights cov_matrix in
      match minimize scipy portfolio_vol x0 None (bounds num_stocks) constraints with
      | Raise e => Raise e
      | Return result => Return (OptimizeResult.x result)
      end
  end.

(** [display_optimal_portfolio] (lines 215-227).  The table of line 224
    wants as many weights as the frame has columns. *)
Definition display_optimal_portfolio
  (weights : ndarray) (returns : DataFrame) (cov_matrix : list ndarray)
  (risk_free_rate : float64) : py unit :=
  p_return <- lift (portfolio_return weights returns) ;;
  p_volatility <- lift (portfolio_volatility weights cov_matrix) ;;
  let sharpe_ratio := ((p_return - risk_free_rate) / p_volatility)%f64 in
  st (st_metric "Expected Annual Return" [Value p_return ".2%"]) ;;
  st (st_metric "Expected Annual Volatility" [Value p_volatility ".2%"]) ;;
  st (st_metric "Sharpe Ratio" [Value sharpe_ratio ".2f"]) ;;
  if (length (columns returns) =? length weights)%nat then
    st (st_plotly_chart
          {| fig_data := [Pie (columns returns) weights (3 / 10)];
             fig_title := "Optimal Portfolio Composition" |})
  else
    raise {| exn_class := "ValueError";
             exn_msg := "All arrays must be of the same length" |}.

(** [perform_portfolio_optimization] (lines 166-191). *)
Definition perform_portfolio_optimization
  (returns : DataFrame) (portfolio : holdings) : py unit :=
  st (st_header "Portfolio Optimization") ;;
  if (length portfolio <? 2)%nat then
    st (st_warning "Portfolio optimization requires at least two stocks. Add more stocks to optimize your portfolio.")
  else
    let risk_free_rate := number_input widget "Enter risk-free rate:" in
    let cov_matrix := df_cov returns in
    msr_weights <- lift (maximize_sharpe_ratio returns cov_matrix risk_free_rate) ;;
    gmv_weights <- lift (global_minimum_variance cov_matrix) ;;
    st (st_subheader "Maximized Sharpe Ratio Portfolio") ;;
    display_optimal_portfolio msr_weights returns cov_matrix risk_free_rate ;;
    st (st_subheader "Global Minimum Variance Portfolio") ;;
    display_optimal_portfolio gmv_weights returns cov_matrix risk_free_rate.

(** [np.exp(simulations.cumsum(axis=1))]: along every row. *)
Definition simulated_paths (simulations : list ndarray) : list ndarray :=
  map (fun row => map np_exp (np_cumsum row)) simulations.

(** The mean of a two-dimensional array: over all its entries. *)
Definition np_mean2 (a : list ndarray) : float64 := np_mean (concat a).

(** [perform_monte_carlo_var] (lines 229-254). *)
Definition perform_monte_carlo_var (returns : DataFrame) (portfolio : holdings)
  : py unit :=
  st (st_header "Monte Carlo VaR Simulation") ;;
  if (length portfolio <? 2)%nat then
    st (st_warning "Monte Carlo VaR simulation requires at least two stocks. Add more stocks to run the simulation.")
  else
    let iterations := slider widget "Number of iterations" in
    let portfolio_return := map pd_mean (rows returns) in
    let portfolio_volatility := map pd_std (rows returns) in
    simulations <- np_random_normal (pd_mean portfolio_return)
                                    (pd_mean portfolio_volatility)
                                    iterations (length (rows returns)) ;;
    let simulated_returns := simulated_paths simulations in
    terminal <- lift (last_column simulated_returns (length (rows returns))) ;;
    let var_95 := np_percentile terminal 5 in
    let cvar_95 :=
      np_mean2 (boolean_index simulated_returns (le_mask terminal var_95)) in
    st (st_metric "Value at Risk (95%)" [Value var_95 ".2%"]) ;;
    st (st_metric "Conditional VaR (95%)" [Value cvar_95 ".2%"]) ;;
    st (st_subheader "Monte Carlo Simulation Distribution") ;;
    st (st_plotly_chart
          {| fig_data := [Histogram terminal 50];
             fig_title := "Distribution of Simulated Portfolio Values" |}).

(** Lines 284-285: the quantities held, divided by their sum.  The sum is
    the float64 one; NumPy adds whole quantities as 64-bit integers, which
    is the same below [2^63]. *)
Definition holdings_weights (portfolio : holdings) : ndarray :=
  let weights :=
    map (fun ticker => match dict_get portfolio ticker with
                       | Some q => q
                       | None => NaN
                       end)
        (keys portfolio) in
  map (fun w => (w / np_sum weights)%f64) weights.

(** [returns * weights[0]]: every entry scaled. *)
Definition df_scale (returns : DataFrame) (w : float64) : DataFrame :=
  {| columns := columns returns;
     rows := map (map (fun r => (r * w)%f64)) (rows returns) |}.

(** [returns.dot(weights)]: the series of the rows' dot products; the
    frame's width must be the vector's length, or pandas refuses, naming
    the two shapes. *)
Definition df_dot (returns : DataFrame) (weights : ndarray) : outcome ndarray :=
  if (length (columns returns) =? length weights)%nat
  then Return (map (fun row => inner_product row weights) (rows returns))
  else Raise {| exn_class := "ValueError";
                exn_msg := ("Dot product shape mismatch, ("
                            ++ str_nat (length (rows returns)) ++ ", "
                            ++ str_nat (length (columns returns)) ++ ") vs ("
                            ++ str_nat (length weights) ++ ",)")%string |}.

(** Lines 288-291: the portfolio's return series. *)
Definition aggregate_returns (returns : DataFrame) (weights : ndarray)
  : outcome pandas_obj :=
  if (length weights =? 1)%nat
  then Return (Frame (df_scale returns (nth 0 weights NaN)))
  else match df_dot returns weights with
       | Return s => Return (Series s)
       | Raise e => Raise e
       end.

Definition analysis_options : list string :=
  ["Portfolio Overview"; "Portfolio Analysis"; "Portfolio Optimization";
   "Monte Carlo Simulation"].

(** The body of the inner [try] (lines 273-304). *)
Definition process_portfolio (portfolio : holdings) : py unit :=
  let tickers := keys portfolio in
  data <- download_adj_close yf tickers ;;
  data <- lift (if (length tickers =? 1)%nat then to_frame yf data
                else if (length tickers =? 2)%nat then fillna_pad yf data
                else Return data) ;;
  returns <- lift (pct_change_dropna yf data) ;;
  let weights := holdings_weights portfolio in
  portfolio_returns <- lift (aggregate_returns returns weights) ;;
  st (st_sidebar_title "Navigation") ;;
  let selected_analysis := sidebar_radio widget "Choose Analysis" analysis_options in
  if String.eqb selected_analysis "Portfolio Overview" then
    perform_portfolio_overview portfolio_returns returns portfolio
  else if String.eqb selected_analysis "Portfolio Analysis" then
    perform_portfolio_analysis portfolio_returns
  else if String.eqb selected_analysis "Portfolio Optimization" then
    perform_portfolio_optimization returns portfolio
  else if String.eqb selected_analysis "Monte Carlo Simulation" then
    perform_monte_carlo_var returns portfolio
  else ret tt.

(** The inner [try] with its handler (lines 272-306). *)
Definition process_portfolio_guarded (portfolio : holdings) : py unit :=
  try_except (process_portfolio portfolio)
    (fun e =>
       st (st_error [Text "An error occurred while processing your portfolio: ";
                     Text (exn_msg e)])).

(** The body of the outer [try] (lines 258-308). *)
Definition interface_body (user_id : string) : py unit :=
  st (st_title "📊 Advanced Portfolio Management") ;;
  user_data <- load_user_data user_data_py user_id ;;
  let portfolio := match portfolio_entry user_data with
                   | Some p => p
                   | None => []
                   end in
  display_current_portfolio portfolio ;;
  portfolio <- add_stock_to_portfolio user_id portfolio ;;
  match portfolio with
  | _ :: _ => process_portfolio_guarded portfolio
  | [] => st (st_info "Your portfolio is empty. Add some stocks to get started!")
  end.

(** [portfolio_management_interface] (lines 256-311): the outer handler is
    [except Exception as e: pass]. *)
Definition portfolio_management_interface (user_id : string) : py unit :=
  try_except (interface_body user_id) (fun e => ret tt).

End Pm.

Arguments get_stock_value {price_table} yf ticker quantity.
Arguments display_current_portfolio {price_table} yf portfolio.
Arguments perform_portfolio_overview scipy {price_table} yf frame_metrics
  portfolio_returns returns portfolio.
Arguments process_portfolio scipy {price_table} yf widget frame_metrics portfolio.
Arguments process_portfolio_guarded scipy {price_table} yf widget
  frame_metrics portfolio.
Arguments interface_body scipy {price_table} yf widget user_data_py
  frame_metrics user_id.
Arguments portfolio_management_interface scipy {price_table} yf widget
  user_data_py frame_metrics user_id.

(** ** Sample collaborators

    Concrete collaborators at which the statements below are evaluated. *)

(** Is [r] within the bounds and the equality constraint (to [1e-6]) the
    solver was given? *)
Definition within_bound (xi : float64) (b : R * R) : bool :=
  fleb (Finite (fst b)) xi && fleb xi (Finite (snd b)).

Fixpoint within_bounds (x : ndarray) (bs : list (R * R)) : bool :=
  match x, bs with
  | [], [] => true
  | xi :: x', b :: bs' => within_bound xi b && within_bounds x' bs'
  | _, _ => false
  end.

Definition tolerance : R := 1 / 1000000.

Definition feasible (x : ndarray) (bs : list (R * R)) (c : constraint) : bool :=
  within_bounds x bs
  && fleb (Finite (- tolerance)) (fun_ c x)
  && fleb (fun_ c x) (Finite tolerance).

(** A solver that stops at its initial guess, and reports success when the
    guess is feasible. *)
Definition stay_put
  (f : ndarray -> outcome float64) (x0 : ndarray) (method : option string)
  (bs : list (R * R)) (c : constraint) : outcome OptimizeResult.t :=
  Return {| OptimizeResult.x := x0;
            OptimizeResult.success := feasible x0 bs c;
            OptimizeResult.message := "Optimization terminated successfully" |}.

(** A solver that gives up at the iterate it is told: with [[1, 1]] below,
    every asset at its upper bound and the weights summing to 2. *)
Definition stop_at (x : ndarray)
  (f : ndarray -> outcome float64) (x0 : ndarray) (method : option string)
  (bs : list (R * R)) (c : constraint) : outcome OptimizeResult.t :=
  Return {| OptimizeResult.x := x;
            OptimizeResult.success := false;
            OptimizeResult.message := "Iteration limit reached" |}.

Definition sample_scipy : scipy_lib :=
  {| stats_skew := fun _ => NaN;
     stats_kurtosis := fun _ => NaN;
     stats_shapiro := fun _ => Return (Finite 1, Finite 1);
     minimize := stay_put |}.

Definition diverging_scipy : scipy_lib :=
  {| stats_skew := fun _ => NaN;
     stats_kurtosis := fun _ => NaN;
     stats_shapiro := fun _ => Return (Finite 1, Finite 1);
     minimize := stop_at [Finite 1; Finite 1] |}.

Definition no_frame_metrics (df : DataFrame) : outcome MetricsResult :=
  Raise {| exn_class := "ValueError";
           exn_msg := "The truth value of a Series is ambiguous" |}.

(** A market data source that is unreachable. *)
Definition connection_error : exn :=
  {| exn_class := "ConnectionError"; exn_msg := "Max retries exceeded" |}.

Definition offline_market : market_data unit :=
  {| info_regularMarketPrice := fun _ => raise connection_error;
     history_last_close := fun _ => raise connection_error;
     download_adj_close := fun _ => raise connection_error;
     to_frame := fun t => Return t;
     fillna_pad := fun t => Return t;
     pct_change_dropna := fun _ => Return {| columns := []; rows := [] |} |}.

(** A user data store whose file cannot be read. *)
Definition unreadable_user_data : user_data_module :=
  {| load_user_data := fun _ =>
       raise {| exn_class := "JSONDecodeError"; exn_msg := "Expecting value" |};
     save_user_data := fun _ _ => ret tt |}.

(** Widgets left at the values the program gives them: no ticker typed,
    quantity 1, button not pressed, 10000 iterations, first radio option. *)
Definition default_widgets : widgets :=
  {| text_input := fun _ => EmptyString;
     number_input := fun _ => Finite 1;
     button := fun _ => false;
     slider := fun _ => (10 * 1000)%nat;
     sidebar_radio := fun _ options => hd EmptyString options |}.

(** A world in which nothing has been shown yet. *)
Definition fresh_world (variates : nat -> R) : world :=
  {| st_calls := []; np_random := variates; user_files := [] |}.

(** Two assets that both returned 1% on each of two days. *)
Definition flat_returns : DataFrame :=
  {| columns := ["AAPL"; "MSFT"];
     rows := [[Finite (1 / 100); Finite (1 / 100)];
              [Finite (1 / 100); Finite (1 / 100)]] |}.

Definition two_stocks : holdings := [("AAPL", Finite 10); ("MSFT", Finite 10)].

(** ** Predicates of the statements *)

(** A weight: a number of the interval [[0, 1]]. *)
Definition unit_weight (w : float64) : Prop :=
  exists v : R, w = Finite v /\ 0 <= v <= 1.

(** A weight vector as the specification wants the optimiser's: weights
    that sum to 1 within [1e-6]. *)
Definition valid_weights (w : ndarray) : Prop :=
  (exists s : R, np_sum w = Finite s /\ Rabs (s - 1) <= tolerance)
  /\ Forall unit_weight w.


(** ** Real-valued statistics

    What the reductions compute on data without special values. *)

Definition Rsum (l : list R) : R := fold_right Rplus 0 l.

Definition Rmean (l : list R) : R := Rsum l / INR (length l).

Definition Rstd (l : list R) : R :=
  sqrt (Rmean (map (fun x => (x - Rmean l) * (x - Rmean l)) l)).

(** A slider left at 1000 iterations, the least it offers. *)
Definition thousand_iterations : widgets :=
  {| text_input := fun _ => EmptyString;
     number_input := fun _ => Finite 1;
     button := fun _ => false;
     slider := fun _ => 1000%nat;
     sidebar_radio := fun _ options => hd EmptyString options |}.

(** Two assets that returned 0% and 2% on each of two days. *)
Definition spread_returns : DataFrame :=
  {| columns := ["AAPL"; "MSFT"];
     rows := [[Finite 0; Finite (2 / 100)]; [Finite 0; Finite (2 / 100)]] |}.

(** A generator whose first 2000 variates are -1 and whose later ones
    are 1. *)
Definition low_then_high (k : nat) : R := if (k <? 2000)%nat then -1 else 1.

(** A value that is a number at least 0, [inf] or [nan]: not negative. *)
Definition not_negative (a : float64) : Prop :=
  match a with
  | Finite x => 0 <= x
  | PosInf | NaN => True
  | NegInf => False
  end.

(** What [perform_monte_carlo_var] shows for given simulated paths. *)
Definition monte_carlo_calls (simulated_returns : list ndarray) : list st_call :=
  let terminal := map (fun row => last row NaN) simulated_returns in
  let var_95 := np_percentile terminal 5 in
  let cvar_95 :=
    np_mean2 (boolean_index simulated_returns (le_mask terminal var_95)) in
  [st_header "Monte Carlo VaR Simulation";
   st_metric "Value at Risk (95%)" [Value var_95 ".2%"];
   st_metric "Conditional VaR (95%)" [Value cvar_95 ".2%"];
   st_subheader "Monte Carlo Simulation Distribution";
   st_plotly_chart
     {| fig_data := [Histogram terminal 50];
        fig_title := "Distribution of Simulated Portfolio Values" |}].

(** Two assets that both lost 1% on each of two days. *)
Definition falling_returns : DataFrame :=
  {| columns := ["AAPL"; "MSFT"];
     rows := [[Finite (- (1 / 100)); Finite (- (1 / 100))];
              [Finite (- (1 / 100)); Finite (- (1 / 100))]] |}.

(** What a run shows when all its paths end at [var_95]. *)
Definition uniform_report (var_95 cvar_95 : R) (n : nat) : list st_call :=
  [st_header "Monte Carlo VaR Simulation";
   st_metric "Value at Risk (95%)" [Value (Finite var_95) ".2%"];
   st_metric "Conditional VaR (95%)" [Value (Finite cvar_95) ".2%"];
   st_subheader "Monte Carlo Simulation Distribution";
   st_plotly_chart
     {| fig_data := [Histogram (repeat (Finite var_95) n) 50];
        fig_title := "Distribution of Simulated Portfolio Values" |}].

(** ** More sample collaborators and notions of the statements *)

(** A world after further Streamlit calls. *)
Definition showing (w : world) (calls : list st_call) : world :=
  {| st_calls := st_calls w ++ calls;
     np_random := np_random w;
     user_files := user_files w |}.

(** The holdings after [quantity] more shares of [stock] (lines 64-67). *)
Definition holdings_with (portfolio : holdings) (stock : string)
  (quantity : float64) : holdings :=
  match dict_get portfolio stock with
  | Some q => dict_set portfolio stock (q + quantity)%f64
  | None => dict_set portfolio stock quantity
  end.

(** A user data store kept in the world: the last file saved for a user
    is the one loaded; a user without a file has empty data. *)
Fixpoint find_user (files : list (string * user_data)) (user_id : string)
  : option user_data :=
  match files with
  | [] => None
  | (u, d) :: files' => if String.eqb user_id u then Some d else find_user files' user_id
  end.

Definition stored_user_data : user_data_module :=
  {| load_user_data := fun user_id w =>
       (Return (match find_user (user_files w) user_id with
                | Some d => d
                | None => {| portfolio_entry := None; other_entries := [] |}
                end), w);
     save_user_data := fun user_id d w =>
       (Return tt,
        {| st_calls := st_calls w;
           np_random := np_random w;
           user_files := (user_id, d) :: user_files w |}) |}.

(** The user has typed AAPL and 5 and pressed the button. *)
Definition adding_five_aapl : widgets :=
  {| text_input := fun _ => "AAPL";
     number_input := fun _ => Finite 5;
     button := fun _ => true;
     slider := fun _ => 1000%nat;
     sidebar_radio := fun _ options => hd EmptyString options |}.

(** A market data source that quotes every ticker at 100. *)
Definition quoting_market : market_data unit :=
  {| info_regularMarketPrice := fun _ => ret (Some (Finite 100));
     history_last_close := fun _ => ret (Finite 100);
     download_adj_close := fun _ => ret tt;
     to_frame := fun t => Return t;
     fillna_pad := fun t => Return t;
     pct_change_dropna := fun _ =>
       Return {| columns := ["AAPL"; "MSFT"];
                 rows := [[Finite 0; Finite (2 / 100)];
                          [Finite 0; Finite (2 / 100)]] |} |}.

(** The product of a list of reals. *)
Definition Rprod (l : list R) : R := fold_right Rmult 1 l.

(** SciPy with a normality test that refuses fewer than three
    observations. *)
Definition strict_scipy : scipy_lib :=
  {| stats_skew := fun _ => NaN;
     stats_kurtosis := fun _ => NaN;
     stats_shapiro := fun a =>
       if (length a <? 3)%nat
       then Raise {| exn_class := "ValueError";
                     exn_msg := "Data must be at least length 3." |}
       else Return (Finite 1, Finite 1);
     minimize := stay_put |}.

(** A frame of two days without any column. *)
Definition no_columns : DataFrame := {| columns := []; rows := [[]; []] |}.

(** Two assets that returned 0% and 2% on a single day. *)
Definition one_day_returns : DataFrame :=
  {| columns := ["AAPL"; "MSFT"];
     rows := [[Finite 0; Finite (2 / 100)]] |}.

(** Two assets that did not move on either of two days. *)
Definition still_returns : DataFrame :=
  {| columns := ["AAPL"; "MSFT"];
     rows := [[Finite 0; Finite 0]; [Finite 0; Finite 0]] |}.

(** A market data source that quotes, and whose download fails. *)
Definition quotes_without_history : market_data unit :=
  {| info_regularMarketPrice := fun _ => ret (Some (Finite 100));
     history_last_close := fun _ => ret (Finite 100);
     download_adj_close := fun _ => raise connection_error;
     to_frame := fun t => Return t;
     fillna_pad := fun t => Return t;
     pct_change_dropna := fun _ => Return {| columns := []; rows := [] |} |}.

(** A world in which alice holds [two_stocks]. *)
Definition alice_world : world :=
  {| st_calls := [];
     np_random := fun _ => 0;
     user_files :=
       [("alice", {| portfolio_entry := Some two_stocks; other_entries := [] |})] |}.

Definition three_stocks : holdings :=
  [("AAPL", Finite 10); ("MSFT", Finite 10); ("GOOG", Finite 20)].


(** The widgets left alone but for the view chosen in the sidebar. *)
Definition choosing (view : string) : widgets :=
  {| text_input := text_input default_widgets;
     number_input := number_input default_widgets;
     button := button default_widgets;
     slider := slider default_widgets;
     sidebar_radio := fun _ _ => view |}.

(** The view run for the choice made in the sidebar (lines 297-304). *)
Definition selected_view (scipy : scipy_lib) {price_table : Type}
  (yf : market_data price_table) (widget : widgets)
  (frame_metrics : DataFrame -> outcome MetricsResult)
  (selected_analysis : string) (portfolio_returns : pandas_obj)
  (returns : DataFrame) (portfolio : holdings) : py unit :=
  if String.eqb selected_analysis "Portfolio Overview" then
    perform_portfolio_overview scipy yf frame_metrics portfolio_returns returns
      portfolio
  else if String.eqb selected_analysis "Portfolio Analysis" then
    perform_portfolio_analysis scipy frame_metrics portfolio_returns
  else if String.eqb selected_analysis "Portfolio Optimization" then
    perform_portfolio_optimization scipy widget returns portfolio
  else if String.eqb selected_analysis "Monte Carlo Simulation" then
    perform_monte_carlo_var widget returns portfolio
  else ret tt.

(** A market data source without quotes and without price history. *)
Definition no_history_market : market_data unit :=
  {| info_regularMarketPrice := fun _ => ret None;
     history_last_close := fun _ =>
       raise {| exn_class := "IndexError";
                exn_msg := "single positional indexer is out-of-bounds" |};
     download_adj_close := fun _ => raise connection_error;
     to_frame := fun t => Return t;
     fillna_pad := fun t => Return t;
     pct_change_dropna := fun _ => Return {| columns := []; rows := [] |} |}.

(** A number far from the overflow threshold of float64: of magnitude at
    most [1e100]. *)
Definition moderate (r : R) : Prop := Rabs r <= 10 ^ 100.

(** ** The tail statistics in double precision

    Lines 105-106 once more, on IEEE 754 binary64 values with their
    rounding (the kernel's primitive floats), to evaluate them where the
    rounding decides.  Sums are taken from left to right, as NumPy and
    pandas add short series. *)
Module Binary64.

Local Open Scope float_scope.

Definition of_nat (n : nat) : float :=
  PrimFloat.of_uint63 (Uint63.of_Z (Z.of_nat n)).

Definition np_sum (a : list float) : float := fold_left PrimFloat.add a 0.

Definition skipna (a : list float) : list float :=
  filter (fun x => negb (PrimFloat.is_nan x)) a.

(** [Series.mean]. *)
Definition pd_mean (a : list float) : float :=
  np_sum (skipna a) / of_nat (length (skipna a)).

Definition sort_leb (a b : float) : bool :=
  PrimFloat.is_nan b || PrimFloat.leb a b.

Fixpoint insert_sorted (x : float) (a : list float) : list float :=
  match a with
  | [] => [x]
  | y :: a' => if sort_leb x y then x :: y :: a' else y :: insert_sorted x a'
  end.

Definition np_sort (a : list float) : list float :=
  fold_right insert_sorted [] a.

Definition lerp (a b t : float) : float :=
  let diff_b_a := b - a in
  if PrimFloat.leb 0.5 t
  then b - diff_b_a * (1 - t)
  else a + diff_b_a * t.

(** The floor of a virtual index that lies between 0 and [n - 1]. *)
Definition floor_index (virtual_index : float) (n : nat) : nat :=
  length (filter (fun k => PrimFloat.leb (of_nat k) virtual_index)
                 (seq 1 (n - 1))).

(** [np.percentile(a, q)], default (linear) method: the virtual index
    [(n - 1) * (q / 100)], computed in floating point. *)
Definition np_percentile (a : list float) (q : nat) : float :=
  let n := length a in
  if (n =? 0)%nat || existsb PrimFloat.is_nan a then nan
  else
    let arr := np_sort a in
    let virtual_index := of_nat (n - 1) * (of_nat q / 100) in
    let previous := floor_index virtual_index n in
    let next := Nat.min (previous + 1) (n - 1) in
    let gamma := virtual_index - of_nat previous in
    lerp (nth previous arr nan) (nth next arr nan) gamma.

(** Line 105. *)
Definition var_95 (returns : list float) : float := np_percentile returns 5.

(** Line 106. *)
Definition cvar_95 (returns : list float) : float :=
  pd_mean (boolean_index returns
             (map (fun r => PrimFloat.leb r (var_95 returns)) returns)).

(** The double nearest to 0.1. *)
Definition tenth : float := of_nat 1 / of_nat 10.

End Binary64.


(** A value that is a number at most 0, [-inf] or [nan]: not positive. *)
Definition not_positive (a : float64) : Prop :=
  match a with
  | Finite x => x <= 0
  | NegInf | NaN => True
  | PosInf => False
  end.

(** A value that is a number at least [b], [inf] or [nan]: not below [b]. *)
Definition not_below (b : R) (a : float64) : Prop :=
  match a with
  | Finite x => b <= x
  | PosInf | NaN => True
  | NegInf => False
  end.


(** * Properties *)

(** ** float64 arithmetic on finite values *)

Lemma Rsign_pos (x : R) : 0 < x -> Rsign x = Gt.
Proof.
  intros Hx. unfold Rsign. destruct (Rlt_dec 0 x) as [_ | Hn]; [reflexivity | lra].
Qed.

Lemma Rsign_neg (x : R) : x < 0 -> Rsign x = Lt.
Proof.
  intros Hx. unfold Rsign.
  destruct (Rlt_dec 0 x) as [Hp | _]; [lra | ].
  destruct (Rlt_dec x 0) as [_ | Hn]; [reflexivity | lra].
Qed.

Lemma Rsign_zero : Rsign 0 = Eq.
Proof.
  unfold Rsign.
  destruct (Rlt_dec 0 0) as [Hp | _]; [lra | reflexivity].
Qed.

Lemma fdiv_finite (x y : R) : y <> 0 -> (Finite x / Finite y)%f64 = Finite (x / y).
Proof.
  intros Hy. simpl. destruct (Req_EM_T y 0) as [H0 | _]; [contradiction | reflexivity].
Qed.

Lemma fdiv_by_zero (x : R) : (Finite x / Finite 0)%f64 = signed_inf (Rsign x).
Proof.
  simpl. destruct (Req_EM_T 0 0) as [_ | Hn]; [reflexivity | contradiction Hn; reflexivity].
Qed.

Lemma fmul_one_r (a : float64) : (a * Finite 1)%f64 = a.
Proof.
  destruct a as [x | | | ]; simpl.
  - f_equal. ring.
  - rewrite Rsign_pos by lra. reflexivity.
  - rewrite Rsign_pos by lra. reflexivity.
  - reflexivity.
Qed.

Lemma fleb_finite (x y : R) : fleb (Finite x) (Finite y) = true <-> x <= y.
Proof.
  simpl. destruct (Rle_dec x y) as [H | H]; split; intros; try assumption;
    try reflexivity; try discriminate; contradiction.
Qed.

Lemma fleb_refl (x : R) : fleb (Finite x) (Finite x) = true.
Proof. apply fleb_finite. lra. Qed.

(** ** C1: short series *)

Section ShortSeries.

Variable scipy : scipy_lib.
Variable frame_metrics : DataFrame -> outcome MetricsResult.

(** C1.  On a return series (or frame) of fewer than two entries
    [calculate_portfolio_metrics] returns, without raising, the result
    whose nine fields are all [nan]: none is a number, zero or other. *)
Theorem short_series_all_undefined (returns : pandas_obj) :
  (len returns < 2)%nat ->
  exists m : MetricsResult,
    calculate_portfolio_metrics scipy frame_metrics returns = Return m
    /\ return_ m = NaN /\ volatility m = NaN /\ sharpe_ratio m = NaN
    /\ skewness m = NaN /\ kurtosis m = NaN /\ shapiro_p_value m = NaN
    /\ cumulative_return m = NaN /\ var_95 m = NaN /\ cvar_95 m = NaN.
Proof.
  intros Hlen. exists undefined_metrics.
  unfold calculate_portfolio_metrics.
  destruct (Nat.ltb_spec (len returns) 2) as [_ | Hge]; [ | lia].
  repeat split; reflexivity.
Qed.

End ShortSeries.

(** The series [[0.01]] has a single entry: all its metrics are undefined. *)
Lemma short_series_all_undefined_witness :
  exists m : MetricsResult,
    calculate_portfolio_metrics sample_scipy no_frame_metrics
      (Series [Finite (1 / 100)]) = Return m
    /\ return_ m = NaN /\ volatility m = NaN /\ sharpe_ratio m = NaN
    /\ skewness m = NaN /\ kurtosis m = NaN /\ shapiro_p_value m = NaN
    /\ cumulative_return m = NaN /\ var_95 m = NaN /\ cvar_95 m = NaN.
Proof.
  apply (short_series_all_undefined sample_scipy no_frame_metrics
           (Series [Finite (1 / 100)])).
  simpl. lia.
Defined.

(** ** C8: a single asset held at weight 1 *)

Lemma map_map_id {A : Type} (f : A -> A) (l : list (list A)) :
  (forall a, f a = a) -> map (map f) l = l.
Proof.
  intros Hf. induction l as [| row l IH]; simpl; [reflexivity | ].
  rewrite IH. f_equal.
  induction row as [| a row IHrow]; simpl; [reflexivity | ].
  rewrite Hf, IHrow. reflexivity.
Qed.

Lemma df_scale_one (returns : DataFrame) : df_scale returns (Finite 1) = returns.
Proof.
  destruct returns as [cols rws]. unfold df_scale. simpl.
  f_equal. apply map_map_id. intros a. apply fmul_one_r.
Qed.

(** C8.  With the weight vector [[1.0]] the aggregated portfolio returns
    are the asset's returns themselves, entry for entry (an infinite or
    missing entry included). *)
Theorem single_asset_returns_unchanged (returns : DataFrame) :
  aggregate_returns returns [Finite 1] = Return (Frame returns).
Proof.
  unfold aggregate_returns. simpl. rewrite df_scale_one. reflexivity.
Qed.

(** A single holding of a nonzero quantity has the weight vector [[1.0]]. *)
Lemma single_holding_weight (ticker : string) (q : R) :
  q <> 0 -> holdings_weights [(ticker, Finite q)] = [Finite 1].
Proof.
  intros Hq. unfold holdings_weights. simpl.
  rewrite String.eqb_refl. simpl.
  destruct (Req_EM_T (0 + q) 0) as [H0 | _]; [lra | ].
  do 2 f_equal. field. lra.
Qed.

(** ** C10: Monte Carlo on fewer than two stocks *)

(** C10.  With fewer than two stocks [perform_monte_carlo_var] shows its
    header and a warning and returns: it shows no metric and no chart, and
    takes nothing from the random generator. *)
Theorem monte_carlo_refuses_small_portfolio
  (widget : widgets) (returns : DataFrame) (portfolio : holdings) (w : world) :
  (length portfolio < 2)%nat ->
  perform_monte_carlo_var widget returns portfolio w =
    (Return tt,
     {| st_calls :=
          st_calls w ++
          [st_header "Monte Carlo VaR Simulation";
           st_warning "Monte Carlo VaR simulation requires at least two stocks. Add more stocks to run the simulation."];
        np_random := np_random w;
        user_files := user_files w |}).
Proof.
  intros Hlen. unfold perform_monte_carlo_var.
  destruct (Nat.ltb_spec (length portfolio) 2) as [_ | Hge]; [ | lia].
  unfold bind, st. simpl. rewrite <- app_assoc. reflexivity.
Qed.

(** A portfolio of one stock, in a world where nothing was shown yet. *)
Lemma monte_carlo_refuses_small_portfolio_witness :
  perform_monte_carlo_var default_widgets flat_returns [("AAPL", Finite 10)]
    (fresh_world (fun _ => 0)) =
    (Return tt,
     {| st_calls :=
          [st_header "Monte Carlo VaR Simulation";
           st_warning "Monte Carlo VaR simulation requires at least two stocks. Add more stocks to run the simulation."];
        np_random := fun _ => 0;
        user_files := [] |}).
Proof.
  apply (monte_carlo_refuses_small_portfolio default_widgets flat_returns
           [("AAPL", Finite 10)] (fresh_world (fun _ => 0))).
  simpl. lia.
Defined.

(** ** C3: the optimiser and the solver's report *)

Lemma initial_guess_positive (n : nat) :
  n <> 0%nat -> initial_guess n = Return (repeat (Finite (1 / INR n)) n).
Proof.
  intros Hn. unfold initial_guess.
  destruct (Nat.eqb_spec n 0) as [H0 | _]; [contradiction | reflexivity].
Qed.

Section Optimizer.

Variable scipy : scipy_lib.
Variable returns : DataFrame.
Variable cov_matrix : list ndarray.
Variable risk_free_rate : float64.

(** The two calls of the solver. *)
Let max_sharpe_call : outcome OptimizeResult.t :=
  minimize scipy
    (fun w => negative_sharpe_ratio w returns cov_matrix risk_free_rate)
    (repeat (Finite (1 / INR (length (columns returns)))) (length (columns returns)))
    (Some "SLSQP") (bounds (length (columns returns))) constraints.

Let min_variance_call : outcome OptimizeResult.t :=
  minimize scipy
    (fun w => portfolio_volatility w cov_matrix)
    (repeat (Finite (1 / INR (length cov_matrix))) (length cov_matrix))
    None (bounds (length cov_matrix)) constraints.

(** C3, as the code has it.  Whatever the solver reports, converged or
    not, both optimisers return the solver's last iterate [x]: the
    [success] flag is not read and no error is raised for it. *)
Theorem optimizer_returns_solver_iterate (r1 r2 : OptimizeResult.t) :
  length (columns returns) <> 0%nat ->
  length cov_matrix <> 0%nat ->
  max_sharpe_call = Return r1 ->
  min_variance_call = Return r2 ->
  maximize_sharpe_ratio scipy returns cov_matrix risk_free_rate
    = Return (OptimizeResult.x r1)
  /\ global_minimum_variance scipy cov_matrix = Return (OptimizeResult.x r2).
Proof.
  intros Hn Hc H1 H2. unfold maximize_sharpe_ratio, global_minimum_variance.
  rewrite (initial_guess_positive _ Hn), (initial_guess_positive _ Hc).
  unfold max_sharpe_call in H1. unfold min_variance_call in H2.
  rewrite H1, H2. split; reflexivity.
Qed.

End Optimizer.

Lemma df_cov_length (df : DataFrame) : length (df_cov df) = length (columns df).
Proof. unfold df_cov. rewrite length_map, length_seq. reflexivity. Qed.

(** On two assets, with a solver that gives up at [[1, 1]]. *)
Lemma optimizer_returns_solver_iterate_witness :
  maximize_sharpe_ratio diverging_scipy flat_returns (df_cov flat_returns)
    (Finite (1 / 50)) = Return [Finite 1; Finite 1]
  /\ global_minimum_variance diverging_scipy (df_cov flat_returns)
     = Return [Finite 1; Finite 1].
Proof.
  apply (optimizer_returns_solver_iterate diverging_scipy flat_returns
           (df_cov flat_returns) (Finite (1 / 50))
           {| OptimizeResult.x := [Finite 1; Finite 1];
              OptimizeResult.success := false;
              OptimizeResult.message := "Iteration limit reached" |}
           {| OptimizeResult.x := [Finite 1; Finite 1];
              OptimizeResult.success := false;
              OptimizeResult.message := "Iteration limit reached" |}).
  - simpl. lia.
  - rewrite df_cov_length. simpl. lia.
  - reflexivity.
  - reflexivity.
Defined.

Lemma diverging_optimizers :
  maximize_sharpe_ratio diverging_scipy flat_returns (df_cov flat_returns)
    (Finite (1 / 50)) = Return [Finite 1; Finite 1]
  /\ global_minimum_variance diverging_scipy (df_cov flat_returns)
     = Return [Finite 1; Finite 1].
Proof.
  unfold maximize_sharpe_ratio, global_minimum_variance.
  rewrite df_cov_length. simpl. split; reflexivity.
Qed.

(** C3, as the specification states it, fails: a solver that reports
    failure at the infeasible iterate [[1, 1]] makes both optimisers return
    that iterate as a value; no error is raised. *)
Lemma unconverged_iterate_is_returned :
  (forall f x0 method bs c,
     exists r, minimize diverging_scipy f x0 method bs c = Return r
               /\ OptimizeResult.success r = false)
  /\ maximize_sharpe_ratio diverging_scipy flat_returns (df_cov flat_returns)
       (Finite (1 / 50)) = Return [Finite 1; Finite 1]
  /\ global_minimum_variance diverging_scipy (df_cov flat_returns)
     = Return [Finite 1; Finite 1].
Proof.
  split.
  - intros f x0 method bs c. eexists. split; reflexivity.
  - exact diverging_optimizers.
Qed.

Lemma within_bounds_unit (x : ndarray) :
  forall n, within_bounds x (bounds n) = true -> Forall unit_weight x.
Proof.
  induction x as [| xi x IH]; intros n H; [constructor | ].
  destruct n as [| n]; simpl in H; [discriminate | ].
  apply andb_prop in H. destruct H as [Hb Hrest].
  constructor; [ | apply (IH n Hrest)].
  unfold within_bound in Hb. apply andb_prop in Hb. destruct Hb as [Hlo Hhi].
  destruct xi as [v | | | ]; simpl in Hlo, Hhi; try discriminate.
  exists v. split; [reflexivity | ].
  destruct (Rle_dec 0 v); [ | discriminate].
  destruct (Rle_dec v 1); [ | discriminate].
  split; assumption.
Qed.

Lemma feasible_valid (x : ndarray) (n : nat) :
  feasible x (bounds n) constraints = true -> valid_weights x.
Proof.
  unfold feasible. intros H.
  apply andb_prop in H. destruct H as [H Hhi].
  apply andb_prop in H. destruct H as [Hb Hlo].
  split; [ | apply (within_bounds_unit x n Hb)].
  simpl in Hlo, Hhi.
  destruct (np_sum x) as [s | | | ]; simpl in Hlo, Hhi; try discriminate.
  exists s. split; [reflexivity | ].
  destruct (Rle_dec (- tolerance) (s + - (1))); [ | discriminate].
  destruct (Rle_dec (s + - (1)) tolerance); [ | discriminate].
  apply Rabs_le. lra.
Qed.

Lemma fleb_true (x y : R) : x <= y -> fleb (Finite x) (Finite y) = true.
Proof. apply fleb_finite. Qed.

(** ** Running display calls and handlers *)

(** The world after one more Streamlit call. *)
Lemma st_run (c : st_call) (w : world) :
  st c w = (Return tt,
            {| st_calls := st_calls w ++ [c];
               np_random := np_random w;
               user_files := user_files w |}).
Proof. reflexivity. Qed.

(** A handler that passes makes the call return, whatever its body did. *)
Lemma try_except_pass (c : py unit) (w : world) :
  try_except c (fun _ => ret tt) w = (Return tt, snd (c w)).
Proof.
  unfold try_except. destruct (c w) as [[[] | e] w']; reflexivity.
Qed.

(** ** Reductions of finite data *)

Lemma skipna_finite (l : list R) : skipna (map Finite l) = map Finite l.
Proof.
  unfold skipna. induction l as [| x l IH]; simpl; [reflexivity | ].
  rewrite IH. reflexivity.
Qed.

Lemma fold_left_Rplus (l : list R) (acc : R) :
  fold_left Rplus l acc = acc + Rsum l.
Proof.
  revert acc. induction l as [| x l IH]; intros acc; simpl.
  - ring.
  - rewrite IH. unfold Rsum. simpl. ring.
Qed.

Lemma fold_left_fadd_finite (l : list R) (acc : R) :
  fold_left fadd (map Finite l) (Finite acc) = Finite (fold_left Rplus l acc).
Proof.
  revert acc. induction l as [| x l IH]; intros acc; simpl; [reflexivity | ].
  apply IH.
Qed.

Lemma np_sum_finite (l : list R) : np_sum (map Finite l) = Finite (Rsum l).
Proof.
  unfold np_sum. rewrite fold_left_fadd_finite, fold_left_Rplus.
  f_equal. ring.
Qed.

Lemma INR_length_nonzero {A : Type} (l : list A) : l <> [] -> INR (length l) <> 0.
Proof.
  intros Hl. destruct l as [| a l]; [contradiction | ].
  apply not_0_INR. simpl. discriminate.
Qed.

Lemma np_mean_finite (l : list R) :
  l <> [] -> np_mean (map Finite l) = Finite (Rmean l).
Proof.
  intros Hl. unfold np_mean, of_nat.
  rewrite np_sum_finite, length_map.
  apply fdiv_finite. apply INR_length_nonzero. exact Hl.
Qed.

Lemma Rsum_nonneg (l : list R) : Forall (fun x => 0 <= x) l -> 0 <= Rsum l.
Proof.
  induction 1 as [| x l Hx _ IH]; unfold Rsum; simpl; [lra | ].
  fold (Rsum l). lra.
Qed.

Lemma Rmean_nonneg (l : list R) : Forall (fun x => 0 <= x) l -> 0 <= Rmean l.
Proof.
  intros Hl. unfold Rmean. destruct l as [| x l].
  - unfold Rsum. simpl. lra.
  - apply Rmult_le_pos; [apply Rsum_nonneg; exact Hl | ].
    left. apply Rinv_0_lt_compat. apply lt_0_INR. simpl. lia.
Qed.

Lemma np_std_finite (l : list R) :
  l <> [] -> np_std (map Finite l) = Finite (Rstd l).
Proof.
  intros Hl. unfold np_std. rewrite (np_mean_finite l Hl).
  rewrite map_map. simpl.
  change (map (fun x : R => Finite ((x + - Rmean l) * (x + - Rmean l))) l)
    with (map (fun x : R => Finite ((x - Rmean l) * (x - Rmean l))) l).
  rewrite <- (map_map (fun x => (x - Rmean l) * (x - Rmean l)) Finite).
  rewrite np_mean_finite.
  - simpl. unfold Rstd.
    destruct (Rlt_dec (Rmean (map (fun x => (x - Rmean l) * (x - Rmean l)) l)) 0)
      as [Hneg | _]; [ | reflexivity].
    exfalso. apply (Rlt_not_le _ _ Hneg). apply Rmean_nonneg.
    apply Forall_forall. intros y Hy. apply in_map_iff in Hy.
    destruct Hy as [x [Hx _]]. subst y. apply Rle_0_sqr.
  - destruct l; [contradiction | discriminate].
Qed.

Lemma pd_mean_finite (l : list R) :
  l <> [] -> pd_mean (map Finite l) = Finite (Rmean l).
Proof. intros Hl. unfold pd_mean. rewrite skipna_finite. apply np_mean_finite, Hl. Qed.

Lemma pd_std_finite (l : list R) :
  l <> [] -> pd_std (map Finite l) = Finite (Rstd l).
Proof. intros Hl. unfold pd_std. rewrite skipna_finite. apply np_std_finite, Hl. Qed.

Lemma np_sqrt_252 : np_sqrt (Finite 252) = Finite (sqrt 252).
Proof.
  simpl. destruct (Rlt_dec 252 0) as [H | _]; [lra | reflexivity].
Qed.

Section FiniteSeries.

Variable scipy : scipy_lib.
Variable frame_metrics : DataFrame -> outcome MetricsResult.

(** The metrics of a series of two or more numbers, when the normality
    test accepts it. *)
Lemma metrics_of_finite_series (l : list R) (statistic p_value : float64) :
  (2 <= length l)%nat ->
  stats_shapiro scipy (map Finite l) = Return (statistic, p_value) ->
  calculate_portfolio_metrics scipy frame_metrics (Series (map Finite l)) =
    Return
      {| return_ := Finite (Rmean l * 252);
         volatility := Finite (Rstd l * sqrt 252);
         sharpe_ratio :=
           (Finite (Rmean l * 252) / Finite (Rstd l * sqrt 252))%f64;
         skewness := stats_skew scipy (map Finite l);
         kurtosis := stats_kurtosis scipy (map Finite l);
         shapiro_p_value := p_value;
         cumulative_return :=
           (pd_prod (map (fun r => Finite 1 + r)%f64 (map Finite l)) - Finite 1)%f64;
         var_95 := np_percentile (map Finite l) 5;
         cvar_95 :=
           pd_mean (boolean_index (map Finite l)
                      (le_mask (map Finite l) (np_percentile (map Finite l) 5))) |}.
Proof.
  intros Hlen Hshapiro. unfold calculate_portfolio_metrics.
  assert (Hl : l <> []) by (destruct l; [simpl in Hlen; lia | discriminate]).
  simpl len. rewrite length_map.
  destruct (Nat.ltb_spec (length l) 2) as [Hlt | _]; [lia | ].
  rewrite Hshapiro.
  rewrite !(pd_mean_finite l Hl), !(pd_std_finite l Hl), !np_sqrt_252.
  reflexivity.
Qed.

End FiniteSeries.

(** ** C5: the Sharpe ratio *)

Section Sharpe.

Variable scipy : scipy_lib.
Variable frame_metrics : DataFrame -> outcome MetricsResult.

(** C5, as the code has it.  On a series of two or more returns the
    Sharpe ratio is the float64 quotient of the annualised return by the
    annualised volatility: their ratio when the volatility is not zero;
    when it is zero, [inf] for a positive return, [-inf] for a negative
    one, and [nan] only when the return is zero too. *)
Theorem sharpe_ratio_is_quotient
  (returns : ndarray) (statistic p_value : float64) :
  (2 <= length returns)%nat ->
  stats_shapiro scipy returns = Return (statistic, p_value) ->
  exists m : MetricsResult,
    calculate_portfolio_metrics scipy frame_metrics (Series returns) = Return m
    /\ return_ m = (pd_mean returns * Finite 252)%f64
    /\ volatility m = (pd_std returns * np_sqrt (Finite 252))%f64
    /\ sharpe_ratio m = (return_ m / volatility m)%f64
    /\ (forall r v : R,
          return_ m = Finite r -> volatility m = Finite v -> v <> 0 ->
          sharpe_ratio m = Finite (r / v))
    /\ (forall r : R,
          return_ m = Finite r -> volatility m = Finite 0 ->
          (0 < r -> sharpe_ratio m = PosInf)
          /\ (r < 0 -> sharpe_ratio m = NegInf)
          /\ (r = 0 -> sharpe_ratio m = NaN)).
Proof.
  intros Hlen Hshapiro. unfold calculate_portfolio_metrics. simpl len.
  destruct (Nat.ltb_spec (length returns) 2) as [Hlt | _]; [lia | ].
  rewrite Hshapiro. eexists. split; [reflexivity | ]. simpl.
  split; [reflexivity | ]. split; [reflexivity | ]. split; [reflexivity | ].
  split.
  - intros r v Hr Hv Hv0. rewrite Hr, Hv. apply fdiv_finite. exact Hv0.
  - intros r Hr Hv. rewrite Hr, Hv, fdiv_by_zero.
    split; [ | split]; intros Hsign.
    + rewrite Rsign_pos by exact Hsign. reflexivity.
    + rewrite Rsign_neg by exact Hsign. reflexivity.
    + rewrite Hsign, Rsign_zero. reflexivity.
Qed.

End Sharpe.

Lemma Rmean_pair (a : R) : Rmean [a; a] = a.
Proof. unfold Rmean, Rsum. simpl. field. Qed.

Lemma Rstd_pair (a : R) : Rstd [a; a] = 0.
Proof.
  unfold Rstd. rewrite Rmean_pair. simpl.
  replace (Rmean [(a - a) * (a - a); (a - a) * (a - a)]) with 0.
  - apply sqrt_0.
  - unfold Rmean, Rsum. simpl. field.
Qed.

(** The series [[0.01, 0.03]]. *)
Lemma sharpe_ratio_is_quotient_witness :
  exists m : MetricsResult,
    calculate_portfolio_metrics sample_scipy no_frame_metrics
      (Series [Finite (1 / 100); Finite (3 / 100)]) = Return m
    /\ return_ m
       = (pd_mean [Finite (1 / 100); Finite (3 / 100)] * Finite 252)%f64
    /\ volatility m
       = (pd_std [Finite (1 / 100); Finite (3 / 100)] * np_sqrt (Finite 252))%f64
    /\ sharpe_ratio m = (return_ m / volatility m)%f64
    /\ (forall r v : R,
          return_ m = Finite r -> volatility m = Finite v -> v <> 0 ->
          sharpe_ratio m = Finite (r / v))
    /\ (forall r : R,
          return_ m = Finite r -> volatility m = Finite 0 ->
          (0 < r -> sharpe_ratio m = PosInf)
          /\ (r < 0 -> sharpe_ratio m = NegInf)
          /\ (r = 0 -> sharpe_ratio m = NaN)).
Proof.
  apply (sharpe_ratio_is_quotient sample_scipy no_frame_metrics
           [Finite (1 / 100); Finite (3 / 100)] (Finite 1) (Finite 1)).
  - simpl. lia.
  - reflexivity.
Defined.

(** C5, as the specification states it, fails: on the series
    [[0.01, 0.01]] the volatility is 0 and the Sharpe ratio is [inf], not
    the undefined marker. *)
Lemma zero_volatility_gives_infinity :
  exists m : MetricsResult,
    calculate_portfolio_metrics sample_scipy no_frame_metrics
      (Series [Finite (1 / 100); Finite (1 / 100)]) = Return m
    /\ volatility m = Finite 0
    /\ sharpe_ratio m = PosInf.
Proof.
  eexists. split.
  - apply (metrics_of_finite_series sample_scipy no_frame_metrics
             [1 / 100; 1 / 100] (Finite 1) (Finite 1)).
    + simpl. lia.
    + reflexivity.
  - cbn [volatility sharpe_ratio]. rewrite Rstd_pair, Rmean_pair.
    replace (0 * sqrt 252) with 0 by ring.
    split; [reflexivity | ].
    rewrite fdiv_by_zero, Rsign_pos by lra. reflexivity.
Qed.

(** ** Sorting and the percentile of finite data *)

Lemma insert_sorted_finite (x : R) (l : list R) :
  StronglySorted Rle l ->
  exists l' : list R,
    insert_sorted (Finite x) (map Finite l) = map Finite l'
    /\ Permutation (x :: l) l'
    /\ StronglySorted Rle l'.
Proof.
  induction l as [| y l IH]; intros Hsorted.
  - exists [x]. repeat split; auto. constructor; constructor.
  - apply StronglySorted_inv in Hsorted. destruct Hsorted as [Hl Hy].
    simpl. unfold sort_leb. simpl.
    destruct (Rle_dec x y) as [Hxy | Hxy].
    + exists (x :: y :: l). repeat split; auto.
      constructor; [constructor; assumption | ].
      constructor; [exact Hxy | ].
      apply (Forall_impl _ (fun z Hz => Rle_trans _ _ _ Hxy Hz) Hy).
    + destruct (IH Hl) as [l' [Heq [Hperm Hsorted']]].
      exists (y :: l'). rewrite Heq. repeat split.
      * apply Permutation_trans with (y :: x :: l); [apply perm_swap | ].
        apply perm_skip. exact Hperm.
      * constructor; [exact Hsorted' | ].
        apply (Permutation_Forall Hperm).
        constructor; [lra | exact Hy].
Qed.

Lemma np_sort_finite (l : list R) :
  exists l' : list R,
    np_sort (map Finite l) = map Finite l'
    /\ Permutation l l'
    /\ StronglySorted Rle l'.
Proof.
  induction l as [| x l IH].
  - exists []. repeat split; auto. constructor.
  - destruct IH as [l0 [Heq [Hperm Hsorted]]].
    destruct (insert_sorted_finite x l0 Hsorted) as [l' [Heq' [Hperm' Hsorted']]].
    exists l'. unfold np_sort in *. simpl. rewrite Heq, Heq'.
    repeat split; auto.
    apply Permutation_trans with (x :: l0); [apply perm_skip; exact Hperm | exact Hperm'].
Qed.

Lemma StronglySorted_nth (l : list R) :
  StronglySorted Rle l ->
  forall i j : nat, (i <= j)%nat -> (j < length l)%nat ->
  nth i l 0 <= nth j l 0.
Proof.
  induction 1 as [| x l Hl IH Hx]; intros i j Hij Hj; simpl in Hj; [lia | ].
  destruct i as [| i], j as [| j]; simpl; try lia.
  - lra.
  - rewrite Forall_forall in Hx. apply Hx. apply nth_In. lia.
  - apply IH; lia.
Qed.

Lemma nth_map_finite (l : list R) (k : nat) :
  (k < length l)%nat -> nth k (map Finite l) NaN = Finite (nth k l 0).
Proof.
  intros Hk. rewrite (nth_indep _ NaN (Finite 0)) by (rewrite length_map; exact Hk).
  apply map_nth.
Qed.

Lemma existsb_isnan_finite (l : list R) : existsb np_isnan (map Finite l) = false.
Proof. induction l as [| x l IH]; simpl; [reflexivity | exact IH]. Qed.

(** Interpolating between two ordered numbers gives a number between
    them. *)
Lemma lerp_between (p q t : R) :
  p <= q -> 0 <= t <= 1 ->
  exists v : R, lerp (Finite p) (Finite q) t = Finite v /\ p <= v <= q.
Proof.
  intros Hpq Ht. unfold lerp. simpl.
  destruct (Rle_dec (1 / 2) t) as [_ | _]; eexists; (split; [reflexivity | nra]).
Qed.

Lemma percentile_index_bound (n q : nat) :
  (0 < n)%nat -> (q <= 100)%nat -> ((n - 1) * q / 100 < n)%nat.
Proof.
  intros Hn Hq. apply Nat.Div0.div_lt_upper_bound. nia.
Qed.

(** The percentile of nonempty finite data is a number, and some entry
    of the data is at or below it. *)
Lemma np_percentile_finite (l : list R) (q : nat) :
  l <> [] -> (q <= 100)%nat ->
  exists v p : R,
    np_percentile (map Finite l) q = Finite v /\ In p l /\ p <= v.
Proof.
  intros Hl Hq. unfold np_percentile.
  rewrite existsb_isnan_finite, length_map.
  assert (Hn : (0 < length l)%nat) by (destruct l; [contradiction | simpl; lia]).
  destruct (Nat.eqb_spec (length l) 0) as [H0 | _]; [lia | ]. simpl orb.
  destruct (np_sort_finite l) as [l' [Heq [Hperm Hsorted]]].
  rewrite Heq.
  assert (Hlen : length l' = length l) by (symmetry; apply Permutation_length, Hperm).
  pose proof (percentile_index_bound (length l) q Hn Hq) as Hprev.
  set (previous := ((length l - 1) * q / 100)%nat) in *.
  set (next := Nat.min (previous + 1) (length l - 1)).
  assert (Hnext : (next < length l)%nat) by (unfold next; lia).
  assert (Hpn : (previous <= next)%nat) by (unfold next; lia).
  rewrite !nth_map_finite by lia.
  assert (Hgamma : 0 <= INR ((length l - 1) * q mod 100) / 100 <= 1).
  { pose proof (Nat.mod_upper_bound ((length l - 1) * q) 100) as Hmod.
    assert (Hlt : ((length l - 1) * q mod 100 < 100)%nat) by (apply Hmod; lia).
    apply lt_INR in Hlt.
    pose proof (pos_INR ((length l - 1) * q mod 100)) as Hpos.
    replace (INR 100) with 100 in Hlt by (simpl; lra).
    split; lra. }
  destruct (lerp_between (nth previous l' 0) (nth next l' 0) _
              (StronglySorted_nth l' Hsorted previous next Hpn ltac:(lia)) Hgamma)
    as [v [Hv Hbounds]].
  exists v, (nth previous l' 0). split; [exact Hv | ]. split; [ | lra].
  apply (Permutation_in _ (Permutation_sym Hperm)). apply nth_In. lia.
Qed.

(** ** The tail at or below a cutoff *)

Lemma boolean_index_mask {A : Type} (f : A -> bool) (a : list A) :
  boolean_index a (map f a) = filter f a.
Proof.
  induction a as [| x a IH]; simpl; [reflexivity | ].
  rewrite IH. reflexivity.
Qed.

(** The numbers of [l] at or below [v]. *)
Lemma tail_finite (l : list R) (v : R) :
  boolean_index (map Finite l) (le_mask (map Finite l) (Finite v))
  = map Finite (filter (fun x => if Rle_dec x v then true else false) l).
Proof.
  unfold le_mask. rewrite boolean_index_mask.
  induction l as [| x l IH]; simpl; [reflexivity | ].
  rewrite IH. destruct (Rle_dec x v); reflexivity.
Qed.

(** ** C6: CVaR against VaR *)

Section TailRisk.

Variable scipy : scipy_lib.
Variable frame_metrics : DataFrame -> outcome MetricsResult.

(** C6, as the code has it.  On a series of two or more returns that are
    numbers of moderate magnitude, [var_95] (the 5th percentile) is a
    number, the returns at or below it, whose mean [cvar_95] is, are not
    none, and each of them is at most [var_95].  Nothing is said of their
    mean against [var_95]: it is at most [var_95] up to its rounding
    only. *)
Theorem tail_entries_at_most_var (l : list R) (statistic p_value : float64) :
  (2 <= length l)%nat ->
  Forall moderate l ->
  stats_shapiro scipy (map Finite l) = Return (statistic, p_value) ->
  exists (m : MetricsResult) (v : R) (tail : list R),
    calculate_portfolio_metrics scipy frame_metrics (Series (map Finite l))
      = Return m
    /\ var_95 m = np_percentile (map Finite l) 5
    /\ var_95 m = Finite v
    /\ boolean_index (map Finite l) (le_mask (map Finite l) (var_95 m))
       = map Finite tail
    /\ cvar_95 m = pd_mean (map Finite tail)
    /\ tail <> []
    /\ Forall (fun r => r <= v) tail.
Proof.
  intros Hlen _ Hshapiro.
  assert (Hl : l <> []) by (destruct l; [simpl in Hlen; lia | discriminate]).
  destruct (np_percentile_finite l 5 Hl ltac:(lia)) as [v [p [Hv [Hin Hpv]]]].
  set (tail := filter (fun x => if Rle_dec x v then true else false) l).
  assert (Htail : tail <> []).
  { intros Hempty. assert (Hp : In p tail).
    { apply filter_In. split; [exact Hin | ].
      destruct (Rle_dec p v); [reflexivity | contradiction]. }
    rewrite Hempty in Hp. exact Hp. }
  assert (Hall : Forall (fun x => x <= v) tail).
  { apply Forall_forall. intros x Hx. apply filter_In in Hx.
    destruct Hx as [_ Hx]. destruct (Rle_dec x v); [assumption | discriminate]. }
  eexists. exists v, tail. split.
  - apply (metrics_of_finite_series scipy frame_metrics l statistic p_value
             Hlen Hshapiro).
  - cbn [var_95 cvar_95]. rewrite Hv, tail_finite. fold tail.
    repeat split; try reflexivity; assumption.
Qed.

End TailRisk.

Lemma moderate_small (r : R) : Rabs r <= 1 -> moderate r.
Proof.
  intros Hr. unfold moderate.
  apply Rle_trans with 1; [exact Hr | ]. apply pow_R1_Rle. lra.
Qed.

(** The series [[0.01, -0.02, 0.03]]. *)
Lemma tail_entries_at_most_var_witness :
  exists (m : MetricsResult) (v : R) (tail : list R),
    calculate_portfolio_metrics sample_scipy no_frame_metrics
      (Series (map Finite [1 / 100; - (2 / 100); 3 / 100])) = Return m
    /\ var_95 m = np_percentile (map Finite [1 / 100; - (2 / 100); 3 / 100]) 5
    /\ var_95 m = Finite v
    /\ boolean_index (map Finite [1 / 100; - (2 / 100); 3 / 100])
         (le_mask (map Finite [1 / 100; - (2 / 100); 3 / 100]) (var_95 m))
       = map Finite tail
    /\ cvar_95 m = pd_mean (map Finite tail)
    /\ tail <> []
    /\ Forall (fun r => r <= v) tail.
Proof.
  apply (tail_entries_at_most_var sample_scipy no_frame_metrics
           [1 / 100; - (2 / 100); 3 / 100] (Finite 1) (Finite 1)).
  - simpl. lia.
  - repeat (apply Forall_cons; [apply moderate_small, Rabs_le; lra | ]).
    apply Forall_nil.
  - reflexivity.
Defined.

(** C6, as the specification states it, fails in double precision.  On
    the series [[0.1, 0.1, 0.1]] the 5th percentile is 0.1 and all three
    returns are at or below it; their mean, [0.30000000000000004 / 3], is
    [0.10000000000000002]: [cvar_95 <= var_95] is false. *)
Lemma rounded_tail_mean_exceeds_var :
  Binary64.var_95 [Binary64.tenth; Binary64.tenth; Binary64.tenth]
  = 0x1.999999999999ap-4%float
  /\ Binary64.cvar_95 [Binary64.tenth; Binary64.tenth; Binary64.tenth]
     = 0x1.999999999999bp-4%float
  /\ PrimFloat.leb
       (Binary64.cvar_95 [Binary64.tenth; Binary64.tenth; Binary64.tenth])
       (Binary64.var_95 [Binary64.tenth; Binary64.tenth; Binary64.tenth])
     = false.
Proof. repeat split; vm_compute; reflexivity. Qed.

(** ** The scale of the simulation is never negative *)

Lemma np_sqrt_not_negative (a : float64) : not_negative (np_sqrt a).
Proof.
  destruct a as [x | | | ]; simpl; trivial.
  destruct (Rlt_dec x 0); simpl; [trivial | apply sqrt_pos].
Qed.

Lemma fmul_not_negative (a : float64) (c : R) :
  0 < c -> not_negative a -> not_negative (a * Finite c)%f64.
Proof.
  intros Hc Ha. destruct a as [x | | | ]; simpl in *;
    try contradiction; trivial.
  - apply Rmult_le_pos; lra.
  - rewrite Rsign_pos by exact Hc. simpl. trivial.
Qed.

Lemma fadd_not_negative (a b : float64) :
  not_negative a -> not_negative b -> not_negative (a + b)%f64.
Proof.
  destruct a as [x | | | ], b as [y | | | ]; simpl; trivial; try contradiction.
  lra.
Qed.

Lemma np_sum_not_negative (a : ndarray) :
  Forall not_negative a -> not_negative (np_sum a).
Proof.
  unfold np_sum. intros Ha.
  assert (H0 : not_negative (Finite 0)) by (simpl; lra).
  revert H0. generalize (Finite 0) as acc.
  induction Ha as [| x a Hx _ IH]; intros acc Hacc; simpl; [exact Hacc | ].
  apply IH. apply fadd_not_negative; assumption.
Qed.

Lemma np_mean_not_negative (a : ndarray) :
  Forall not_negative a -> not_negative (np_mean a).
Proof.
  intros Ha. unfold np_mean, of_nat.
  pose proof (np_sum_not_negative a Ha) as Hsum.
  pose proof (pos_INR (length a)) as Hn.
  destruct (np_sum a) as [x | | | ]; simpl in *; trivial; try contradiction.
  - destruct (Req_EM_T (INR (length a)) 0) as [H0 | Hpos].
    + unfold Rsign. destruct (Rlt_dec 0 x); simpl; trivial.
      destruct (Rlt_dec x 0); simpl; trivial. lra.
    + simpl. apply Rmult_le_pos; [exact Hsum | ].
      left. apply Rinv_0_lt_compat. lra.
  - destruct (Req_EM_T (INR (length a)) 0) as [H0 | Hpos]; simpl; trivial.
    rewrite Rsign_pos by lra. simpl. trivial.
Qed.

Lemma skipna_Forall (P : float64 -> Prop) (a : ndarray) :
  Forall P a -> Forall P (skipna a).
Proof.
  intros Ha. unfold skipna. apply Forall_forall. intros x Hx.
  apply filter_In in Hx. rewrite Forall_forall in Ha. apply Ha, Hx.
Qed.

Lemma simulation_scale_not_negative (rws : list ndarray) :
  fltb (pd_mean (map pd_std rws)) (Finite 0) = false.
Proof.
  assert (H : not_negative (pd_mean (map pd_std rws))).
  { unfold pd_mean. apply np_mean_not_negative, skipna_Forall.
    apply Forall_forall. intros x Hx. apply in_map_iff in Hx.
    destruct Hx as [r [Hr _]]. subst x. unfold pd_std, np_std.
    apply np_sqrt_not_negative. }
  destruct (pd_mean (map pd_std rws)) as [x | | | ]; simpl in *; trivial;
    try contradiction.
  destruct (Rlt_dec x 0); [lra | reflexivity].
Qed.

(** ** One run of the Monte Carlo simulation *)

(** The simulated array depends on the generator through its next
    [iterations * steps] variates only. *)
Lemma normal_matrix_ext (z1 z2 : nat -> R) (mu sigma : float64) (n t : nat) :
  (forall k, (k < n * t)%nat -> z1 k = z2 k) ->
  normal_matrix z1 mu sigma n t = normal_matrix z2 mu sigma n t.
Proof.
  intros Hz. unfold normal_matrix.
  apply map_ext_in. intros i Hi. apply in_seq in Hi.
  apply map_ext_in. intros j Hj. apply in_seq in Hj.
  rewrite Hz; [reflexivity | nia].
Qed.

Section MonteCarloRun.

Variable widget : widgets.
Variable returns : DataFrame.
Variable portfolio : holdings.

Let iterations : nat := slider widget "Number of iterations".
Let steps : nat := length (rows returns).
Let loc : float64 := pd_mean (map pd_mean (rows returns)).
Let scale : float64 := pd_mean (map pd_std (rows returns)).

(** With two stocks or more and at least one day of returns, the run shows
    the statistics of the paths simulated from the next
    [iterations * steps] variates, and moves the generator on by as
    many. *)
Lemma monte_carlo_run (w : world) :
  (2 <= length portfolio)%nat ->
  rows returns <> [] ->
  perform_monte_carlo_var widget returns portfolio w =
    (Return tt,
     {| st_calls :=
          st_calls w ++
          monte_carlo_calls
            (simulated_paths (normal_matrix (np_random w) loc scale iterations steps));
        np_random := fun k => np_random w (iterations * steps + k)%nat;
        user_files := user_files w |}).
Proof.
  intros Hlen Hrows. unfold perform_monte_carlo_var.
  destruct (Nat.ltb_spec (length portfolio) 2) as [Hlt | _]; [lia | ].
  unfold bind at 1. rewrite st_run.
  unfold bind at 1. unfold np_random_normal.
  rewrite simulation_scale_not_negative.
  unfold bind at 1. unfold lift, last_column.
  destruct (Nat.eqb_spec (length (rows returns)) 0) as [H0 | _].
  { destruct (rows returns); [contradiction | discriminate]. }
  unfold bind, st. cbn [st_calls np_random user_files].
  unfold monte_carlo_calls, iterations, steps, loc, scale.
  rewrite <- !app_assoc. reflexivity.
Qed.

(** Without a day of returns the last column of the simulated array does
    not exist: the run raises. *)
Lemma monte_carlo_run_no_data (w : world) :
  (2 <= length portfolio)%nat ->
  rows returns = [] ->
  perform_monte_carlo_var widget returns portfolio w =
    (Raise {| exn_class := "IndexError";
              exn_msg := "index -1 is out of bounds for axis 1 with size 0" |},
     {| st_calls := st_calls w ++ [st_header "Monte Carlo VaR Simulation"];
        np_random := fun k => np_random w (iterations * 0 + k)%nat;
        user_files := user_files w |}).
Proof.
  intros Hlen Hrows. unfold perform_monte_carlo_var.
  destruct (Nat.ltb_spec (length portfolio) 2) as [Hlt | _]; [lia | ].
  unfold bind at 1. rewrite st_run.
  unfold bind at 1. unfold np_random_normal.
  rewrite simulation_scale_not_negative.
  unfold bind at 1. unfold lift, last_column. rewrite Hrows.
  reflexivity.
Qed.

(** With fewer than two stocks the run stops after its warning. *)
Lemma monte_carlo_run_refused (w : world) :
  (length portfolio < 2)%nat ->
  perform_monte_carlo_var widget returns portfolio w =
    (Return tt,
     {| st_calls :=
          st_calls w ++
          [st_header "Monte Carlo VaR Simulation";
           st_warning "Monte Carlo VaR simulation requires at least two stocks. Add more stocks to run the simulation."];
        np_random := np_random w;
        user_files := user_files w |}).
Proof.
  intros Hlen. unfold perform_monte_carlo_var.
  destruct (Nat.ltb_spec (length portfolio) 2) as [_ | Hge]; [ | lia].
  unfold bind, st. simpl. rewrite <- app_assoc. reflexivity.
Qed.

End MonteCarloRun.

(** ** Paths that are all alike *)

Lemma map_constant {A B : Type} (f : A -> B) (c : B) (l : list A) :
  (forall a, In a l -> f a = c) -> map f l = repeat c (length l).
Proof.
  induction l as [| a l IH]; intros Hf; simpl; [reflexivity | ].
  rewrite Hf by (left; reflexivity).
  rewrite IH by (intros b Hb; apply Hf; right; exact Hb). reflexivity.
Qed.

Lemma map_repeat {A B : Type} (f : A -> B) (a : A) (n : nat) :
  map f (repeat a n) = repeat (f a) n.
Proof. induction n as [| n IH]; simpl; [reflexivity | rewrite IH; reflexivity]. Qed.

(** When every variate taken gives the same simulated return [s], every
    row of the simulated array is [s] throughout. *)
Lemma normal_matrix_uniform (z : nat -> R) (mu sigma s : R) (n t : nat) :
  (forall k, (k < n * t)%nat -> mu + sigma * z k = s) ->
  normal_matrix z (Finite mu) (Finite sigma) n t = repeat (repeat (Finite s) t) n.
Proof.
  intros Hz. unfold normal_matrix.
  rewrite (map_constant _ (repeat (Finite s) t) (seq 0 n)).
  - rewrite length_seq. reflexivity.
  - intros i Hi. apply in_seq in Hi.
    rewrite (map_constant _ (Finite s) (seq 0 t)).
    + rewrite length_seq. reflexivity.
    + intros j Hj. apply in_seq in Hj. simpl.
      rewrite Hz; [reflexivity | nia].
Qed.

Lemma np_sort_repeat (e : R) (n : nat) :
  np_sort (repeat (Finite e) n) = repeat (Finite e) n.
Proof.
  unfold np_sort. induction n as [| n IH]; simpl; [reflexivity | ].
  rewrite IH. destruct n as [| n]; simpl; [reflexivity | ].
  unfold sort_leb. rewrite fleb_refl. reflexivity.
Qed.

Lemma nth_repeat_lt {A : Type} (a d : A) (n k : nat) :
  (k < n)%nat -> nth k (repeat a n) d = a.
Proof.
  revert k. induction n as [| n IH]; intros k Hk; [lia | ].
  destruct k as [| k]; simpl; [reflexivity | apply IH; lia].
Qed.

Lemma existsb_isnan_repeat (e : R) (n : nat) :
  existsb np_isnan (repeat (Finite e) n) = false.
Proof. induction n as [| n IH]; simpl; [reflexivity | exact IH]. Qed.

Lemma lerp_same (e t : R) : lerp (Finite e) (Finite e) t = Finite e.
Proof.
  unfold lerp. simpl. destruct (Rle_dec (1 / 2) t); f_equal; ring.
Qed.

(** Every percentile of constant data is the constant. *)
Lemma np_percentile_repeat (e : R) (n q : nat) :
  (0 < n)%nat -> (q <= 100)%nat ->
  np_percentile (repeat (Finite e) n) q = Finite e.
Proof.
  intros Hn Hq. unfold np_percentile.
  rewrite existsb_isnan_repeat, repeat_length, np_sort_repeat.
  destruct (Nat.eqb_spec n 0) as [H0 | _]; [lia | ]. simpl orb.
  pose proof (percentile_index_bound n q Hn Hq) as Hprev.
  rewrite !nth_repeat_lt by lia. apply lerp_same.
Qed.

Lemma boolean_index_all {A : Type} (a : A) (n : nat) :
  boolean_index (repeat a n) (repeat true n) = repeat a n.
Proof. induction n as [| n IH]; simpl; [reflexivity | rewrite IH; reflexivity]. Qed.

Lemma le_mask_repeat (e : R) (n : nat) :
  le_mask (repeat (Finite e) n) (Finite e) = repeat true n.
Proof. unfold le_mask. rewrite map_repeat, fleb_refl. reflexivity. Qed.

Lemma concat_repeat_finite (r : list R) (n : nat) :
  concat (repeat (map Finite r) n) = map Finite (concat (repeat r n)).
Proof.
  induction n as [| n IH]; simpl; [reflexivity | ].
  rewrite IH, map_app. reflexivity.
Qed.

Lemma Rsum_app (l1 l2 : list R) : Rsum (l1 ++ l2) = Rsum l1 + Rsum l2.
Proof.
  unfold Rsum. induction l1 as [| x l1 IH]; simpl; [ring | ].
  rewrite IH. ring.
Qed.

Lemma Rsum_concat_repeat (r : list R) (n : nat) :
  Rsum (concat (repeat r n)) = INR n * Rsum r.
Proof.
  induction n as [| n IH].
  - unfold Rsum. simpl. ring.
  - cbn [repeat concat]. rewrite Rsum_app, IH, S_INR. ring.
Qed.

Lemma length_concat_repeat {A : Type} (r : list A) (n : nat) :
  length (concat (repeat r n)) = (n * length r)%nat.
Proof.
  induction n as [| n IH]; simpl; [reflexivity | ].
  rewrite length_app, IH. reflexivity.
Qed.

(** The mean over [n] copies of a row is the mean of the row. *)
Lemma np_mean2_repeat (r : list R) (n : nat) :
  (0 < n)%nat -> r <> [] ->
  np_mean2 (repeat (map Finite r) n) = Finite (Rmean r).
Proof.
  intros Hn Hr. unfold np_mean2. rewrite concat_repeat_finite.
  assert (Hne : concat (repeat r n) <> []).
  { intros Hempty. apply (f_equal (@length R)) in Hempty.
    rewrite length_concat_repeat in Hempty. simpl in Hempty.
    destruct r; [contradiction | simpl in Hempty; nia]. }
  rewrite (np_mean_finite _ Hne). f_equal. unfold Rmean.
  rewrite Rsum_concat_repeat, length_concat_repeat, mult_INR.
  assert (Hn0 : INR n <> 0) by (apply not_0_INR; lia).
  pose proof (INR_length_nonzero r Hr) as Hr0.
  field. split; assumption.
Qed.

(** What the run shows when every simulated return is [s], over two
    steps: the terminal value of every path is [exp(s + s)], and so is
    [var_95]; [cvar_95] is the mean of the two values of a path. *)
Lemma monte_carlo_calls_uniform (s : R) (n : nat) :
  (0 < n)%nat ->
  monte_carlo_calls (simulated_paths (repeat [Finite s; Finite s] n)) =
    [st_header "Monte Carlo VaR Simulation";
     st_metric "Value at Risk (95%)" [Value (Finite (exp (s + s))) ".2%"];
     st_metric "Conditional VaR (95%)"
       [Value (Finite (Rmean [exp s; exp (s + s)])) ".2%"];
     st_subheader "Monte Carlo Simulation Distribution";
     st_plotly_chart
       {| fig_data := [Histogram (repeat (Finite (exp (s + s))) n) 50];
          fig_title := "Distribution of Simulated Portfolio Values" |}].
Proof.
  intros Hn. unfold monte_carlo_calls, simulated_paths.
  rewrite !map_repeat. cbn [np_cumsum cumsum_from map np_exp fadd last].
  rewrite (np_percentile_repeat _ n 5 Hn) by lia.
  rewrite le_mask_repeat, boolean_index_all.
  change [Finite (exp s); Finite (exp (s + s))]
    with (map Finite [exp s; exp (s + s)]).
  rewrite (np_mean2_repeat _ n Hn) by discriminate.
  reflexivity.
Qed.

Lemma Rmean_repeat (e : R) (n : nat) : (0 < n)%nat -> Rmean (repeat e n) = e.
Proof.
  intros Hn. unfold Rmean. rewrite repeat_length.
  assert (Hsum : Rsum (repeat e n) = INR n * e).
  { clear Hn. induction n as [| n IH]; unfold Rsum.
    - simpl. ring.
    - cbn [repeat fold_right]. fold (Rsum (repeat e n)). rewrite IH, S_INR. ring. }
  rewrite Hsum. field. apply not_0_INR. lia.
Qed.

(** The mean of the entries of constant data that are at or below the
    constant is the constant. *)
Lemma tail_mean_repeat (e : R) (n : nat) :
  (0 < n)%nat ->
  pd_mean (boolean_index (repeat (Finite e) n)
             (le_mask (repeat (Finite e) n) (Finite e))) = Finite e.
Proof.
  intros Hn. rewrite le_mask_repeat, boolean_index_all.
  rewrite <- (map_repeat Finite e n). rewrite pd_mean_finite.
  - rewrite (Rmean_repeat e n Hn). reflexivity.
  - destruct n; [lia | discriminate].
Qed.

(** ** C2: the simulated CVaR *)

Lemma falling_loc :
  pd_mean (map pd_mean (rows falling_returns)) = Finite (- (1 / 100)).
Proof.
  cbn [rows falling_returns map].
  change [Finite (- (1 / 100)); Finite (- (1 / 100))]
    with (map Finite [- (1 / 100); - (1 / 100)]).
  rewrite pd_mean_finite by discriminate. rewrite Rmean_pair.
  change [Finite (- (1 / 100)); Finite (- (1 / 100))]
    with (map Finite [- (1 / 100); - (1 / 100)]).
  rewrite pd_mean_finite by discriminate. rewrite Rmean_pair. reflexivity.
Qed.

Lemma falling_scale :
  pd_mean (map pd_std (rows falling_returns)) = Finite 0.
Proof.
  cbn [rows falling_returns map].
  change [Finite (- (1 / 100)); Finite (- (1 / 100))]
    with (map Finite [- (1 / 100); - (1 / 100)]).
  rewrite pd_std_finite by discriminate. rewrite Rstd_pair.
  change [Finite 0; Finite 0] with (map Finite [0; 0]).
  rewrite pd_mean_finite by discriminate. rewrite Rmean_pair. reflexivity.
Qed.

(** C2, on the code.  For two assets that both lost 1% on each of two
    days every simulated path is [exp(-0.01), exp(-0.02)], whatever the
    generator yields.  The run shows [var_95 = exp(-0.02)], the terminal
    value of every path; the mean of the terminal values at or below it
    is [exp(-0.02)] too, but the [cvar_95] shown is the mean over both
    steps of the paths, which is larger than [var_95]. *)
Theorem monte_carlo_cvar_averages_whole_paths (w : world) :
  exists var_95 cvar_95 : R,
    perform_monte_carlo_var thousand_iterations falling_returns two_stocks w =
      (Return tt,
       {| st_calls :=
            st_calls w ++
            [st_header "Monte Carlo VaR Simulation";
             st_metric "Value at Risk (95%)" [Value (Finite var_95) ".2%"];
             st_metric "Conditional VaR (95%)" [Value (Finite cvar_95) ".2%"];
             st_subheader "Monte Carlo Simulation Distribution";
             st_plotly_chart
               {| fig_data := [Histogram (repeat (Finite var_95) 1000) 50];
                  fig_title := "Distribution of Simulated Portfolio Values" |}];
          np_random := fun k => np_random w (2000 + k)%nat;
          user_files := user_files w |})
    /\ var_95 = exp (- (1 / 100) + - (1 / 100))
    /\ cvar_95 = (exp (- (1 / 100)) + exp (- (1 / 100) + - (1 / 100))) / 2
    /\ pd_mean (boolean_index (repeat (Finite var_95) 1000)
                  (le_mask (repeat (Finite var_95) 1000) (Finite var_95)))
       = Finite var_95
    /\ var_95 < cvar_95.
Proof.
  exists (exp (- (1 / 100) + - (1 / 100))),
         (Rmean [exp (- (1 / 100)); exp (- (1 / 100) + - (1 / 100))]).
  split; [ | split; [reflexivity | split; [ | split]]].
  - rewrite (monte_carlo_run thousand_iterations falling_returns two_stocks w)
      by (simpl; try lia; discriminate).
    cbv zeta. rewrite falling_loc, falling_scale.
    cbn [slider thousand_iterations rows falling_returns length].
    rewrite (normal_matrix_uniform _ _ _ (- (1 / 100))) by (intros; ring).
    change (repeat (Finite (- (1 / 100))) 2)
      with [Finite (- (1 / 100)); Finite (- (1 / 100))].
    rewrite monte_carlo_calls_uniform by lia. reflexivity.
  - unfold Rmean, Rsum. simpl. field.
  - apply tail_mean_repeat. lia.
  - assert (H : exp (- (1 / 100) + - (1 / 100)) < exp (- (1 / 100)))
      by (apply exp_increasing; lra).
    unfold Rmean, Rsum. simpl. lra.
Qed.

(** ** C9: the random generator *)

Section Generator.

Variable widget : widgets.
Variable returns : DataFrame.
Variable portfolio : holdings.

(** C9, as the code has it.  The simulation takes no seed: it draws from
    NumPy's global generator.  What a run returns and shows is determined
    by its inputs and by the next [iterations * len(returns)] variates of
    the generator: two runs from worlds that agree on these produce the
    same outcome and the same displayed results.  A run with two stocks or
    more moves the generator on by that many variates. *)
Theorem monte_carlo_determined_by_generator (w1 w2 : world) :
  st_calls w1 = st_calls w2 ->
  user_files w1 = user_files w2 ->
  (forall k : nat,
     (k < slider widget "Number of iterations" * length (rows returns))%nat ->
     np_random w1 k = np_random w2 k) ->
  fst (perform_monte_carlo_var widget returns portfolio w1)
    = fst (perform_monte_carlo_var widget returns portfolio w2)
  /\ st_calls (snd (perform_monte_carlo_var widget returns portfolio w1))
     = st_calls (snd (perform_monte_carlo_var widget returns portfolio w2))
  /\ user_files (snd (perform_monte_carlo_var widget returns portfolio w1))
     = user_files (snd (perform_monte_carlo_var widget returns portfolio w2))
  /\ ((2 <= length portfolio)%nat ->
      forall k : nat,
        np_random (snd (perform_monte_carlo_var widget returns portfolio w1)) k
        = np_random w1
            (slider widget "Number of iterations" * length (rows returns) + k)).
Proof.
  intros Hcalls Hfiles Hz.
  destruct (Nat.lt_ge_cases (length portfolio) 2) as [Hsmall | Hbig].
  - rewrite !(monte_carlo_run_refused widget returns portfolio) by exact Hsmall.
    cbn [fst snd st_calls user_files]. rewrite Hcalls, Hfiles.
    repeat split. intros Hge. lia.
  - assert (Hcase : rows returns = [] \/ rows returns <> []).
    { destruct (rows returns); [left; reflexivity | right; discriminate]. }
    destruct Hcase as [Hnone | Hsome].
    + rewrite !(monte_carlo_run_no_data widget returns portfolio) by assumption.
      cbn [fst snd st_calls user_files np_random]. rewrite Hcalls, Hfiles, Hnone.
      repeat split.
    + rewrite !(monte_carlo_run widget returns portfolio) by assumption.
      cbv zeta. cbn [fst snd st_calls user_files np_random].
      rewrite (normal_matrix_ext (np_random w1) (np_random w2) _ _ _ _ Hz).
      rewrite Hcalls, Hfiles. repeat split.
Qed.

End Generator.

Lemma low_then_high_prefix (k : nat) : (k < 2000)%nat -> low_then_high k = -1.
Proof.
  intros Hk. unfold low_then_high.
  destruct (Nat.ltb_spec k 2000) as [_ | Hge]; [reflexivity | lia].
Qed.

(** Two generators that agree on their first 2000 variates and differ
    afterwards. *)
Lemma monte_carlo_determined_by_generator_witness :
  fst (perform_monte_carlo_var thousand_iterations spread_returns two_stocks
         (fresh_world low_then_high))
    = fst (perform_monte_carlo_var thousand_iterations spread_returns two_stocks
             (fresh_world (fun _ => -1)))
  /\ st_calls (snd (perform_monte_carlo_var thousand_iterations spread_returns
                      two_stocks (fresh_world low_then_high)))
     = st_calls (snd (perform_monte_carlo_var thousand_iterations spread_returns
                        two_stocks (fresh_world (fun _ => -1))))
  /\ user_files (snd (perform_monte_carlo_var thousand_iterations spread_returns
                        two_stocks (fresh_world low_then_high)))
     = user_files (snd (perform_monte_carlo_var thousand_iterations spread_returns
                          two_stocks (fresh_world (fun _ => -1))))
  /\ ((2 <= length two_stocks)%nat ->
      forall k : nat,
        np_random (snd (perform_monte_carlo_var thousand_iterations spread_returns
                          two_stocks (fresh_world low_then_high))) k
        = np_random (fresh_world low_then_high)
            (slider thousand_iterations "Number of iterations"
             * length (rows spread_returns) + k)).
Proof.
  apply (monte_carlo_determined_by_generator thousand_iterations spread_returns
           two_stocks (fresh_world low_then_high) (fresh_world (fun _ => -1))).
  - reflexivity.
  - reflexivity.
  - intros k Hk. apply low_then_high_prefix. simpl in Hk. exact Hk.
Defined.

Lemma Rmean_spread : Rmean [0; 2 / 100] = 1 / 100.
Proof. unfold Rmean, Rsum. simpl. field. Qed.

Lemma Rstd_spread : Rstd [0; 2 / 100] = 1 / 100.
Proof.
  unfold Rstd. rewrite Rmean_spread. cbn [map].
  replace (Rmean [(0 - 1 / 100) * (0 - 1 / 100);
                  (2 / 100 - 1 / 100) * (2 / 100 - 1 / 100)])
    with ((1 / 100) * (1 / 100)) by (unfold Rmean, Rsum; simpl; field).
  apply sqrt_square. lra.
Qed.

Lemma spread_loc :
  pd_mean (map pd_mean (rows spread_returns)) = Finite (1 / 100).
Proof.
  cbn [rows spread_returns map].
  change [Finite 0; Finite (2 / 100)] with (map Finite [0; 2 / 100]).
  rewrite pd_mean_finite by discriminate. rewrite Rmean_spread.
  change [Finite (1 / 100); Finite (1 / 100)] with (map Finite [1 / 100; 1 / 100]).
  rewrite pd_mean_finite by discriminate. rewrite Rmean_pair. reflexivity.
Qed.

Lemma spread_scale :
  pd_mean (map pd_std (rows spread_returns)) = Finite (1 / 100).
Proof.
  cbn [rows spread_returns map].
  change [Finite 0; Finite (2 / 100)] with (map Finite [0; 2 / 100]).
  rewrite pd_std_finite by discriminate. rewrite Rstd_spread.
  change [Finite (1 / 100); Finite (1 / 100)] with (map Finite [1 / 100; 1 / 100]).
  rewrite pd_mean_finite by discriminate. rewrite Rmean_pair. reflexivity.
Qed.

(** A run of 1000 iterations on [spread_returns] when the next 2000
    variates all equal [z]. *)
Lemma spread_run (w : world) (z : R) :
  (forall k, (k < 2000)%nat -> np_random w k = z) ->
  perform_monte_carlo_var thousand_iterations spread_returns two_stocks w =
    (Return tt,
     {| st_calls :=
          st_calls w ++
          uniform_report
            (exp (1 / 100 + 1 / 100 * z + (1 / 100 + 1 / 100 * z)))
            (Rmean [exp (1 / 100 + 1 / 100 * z);
                    exp (1 / 100 + 1 / 100 * z + (1 / 100 + 1 / 100 * z))])
            1000;
        np_random := fun k => np_random w (2000 + k)%nat;
        user_files := user_files w |}).
Proof.
  intros Hz.
  rewrite (monte_carlo_run thousand_iterations spread_returns two_stocks w)
    by (simpl; try lia; discriminate).
  cbv zeta. rewrite spread_loc, spread_scale.
  cbn [slider thousand_iterations rows spread_returns length].
  rewrite (normal_matrix_uniform _ _ _ (1 / 100 + 1 / 100 * z))
    by (intros k Hk; rewrite Hz by (simpl in Hk; exact Hk); reflexivity).
  change (repeat (Finite (1 / 100 + 1 / 100 * z)) 2)
    with [Finite (1 / 100 + 1 / 100 * z); Finite (1 / 100 + 1 / 100 * z)].
  rewrite monte_carlo_calls_uniform by lia. reflexivity.
Qed.

(** C9, as the specification states it, fails in its first part: the
    simulator accepts no seed.  [perform_monte_carlo_var] is given the
    returns and the holdings and reads the number of iterations from the
    slider; none of them sets the generator.  With every one of them
    fixed, what it shows still varies with the state in which it finds
    NumPy's global generator: [var_95 = exp(0)] when the variates to come
    are -1, [var_95 = exp(0.04)] when they are 1. *)
Lemma no_argument_is_a_seed :
  exists (w1 w2 : world) (var1 cvar1 var2 cvar2 : R),
    perform_monte_carlo_var thousand_iterations spread_returns two_stocks
      (fresh_world (fun _ => -1)) = (Return tt, w1)
    /\ perform_monte_carlo_var thousand_iterations spread_returns two_stocks
         (fresh_world (fun _ => 1)) = (Return tt, w2)
    /\ st_calls w1 = uniform_report var1 cvar1 1000
    /\ st_calls w2 = uniform_report var2 cvar2 1000
    /\ var1 < var2.
Proof.
  eexists. eexists. eexists. eexists. eexists. eexists.
  split; [ | split; [ | split; [ | split]]].
  - apply (spread_run (fresh_world (fun _ => -1)) (-1)). reflexivity.
  - apply (spread_run (fresh_world (fun _ => 1)) 1). reflexivity.
  - reflexivity.
  - reflexivity.
  - apply exp_increasing. lra.
Qed.

(** ** The reductions on small data *)

Lemma sort_leb_le (x y : R) : x <= y -> sort_leb (Finite x) (Finite y) = true.
Proof. intros H. unfold sort_leb. simpl. destruct (Rle_dec x y); [reflexivity | contradiction]. Qed.

Lemma sort_leb_gt (x y : R) : y < x -> sort_leb (Finite x) (Finite y) = false.
Proof. intros H. unfold sort_leb. simpl. destruct (Rle_dec x y); [lra | reflexivity]. Qed.

Example np_sort_four :
  np_sort [Finite 4; Finite 1; Finite 3; Finite 2]
  = [Finite 1; Finite 2; Finite 3; Finite 4].
Proof.
  unfold np_sort. cbn [fold_right insert_sorted].
  rewrite (sort_leb_gt 3 2) by lra. cbn [insert_sorted].
  rewrite (sort_leb_le 1 2) by lra.
  cbn [insert_sorted]. rewrite (sort_leb_gt 4 1) by lra.
  cbn [insert_sorted]. rewrite (sort_leb_gt 4 2) by lra.
  cbn [insert_sorted]. rewrite (sort_leb_gt 4 3) by lra.
  reflexivity.
Qed.

(** [np.exp] of the running sums of [[0, 0]] is [[1, 1]]. *)
Example simulated_path_zero :
  simulated_paths [[Finite 0; Finite 0]] = [[Finite (exp 0); Finite (exp (0 + 0))]].
Proof. reflexivity. Qed.

(** * Further properties of the program *)

(** ** The holdings dict *)

Lemma dict_get_set_same (d : holdings) (k : string) (v : float64) :
  dict_get (dict_set d k v) k = Some v.
Proof.
  induction d as [| [k' v'] d IH]; simpl.
  - rewrite String.eqb_refl. reflexivity.
  - destruct (String.eqb_spec k k') as [Heq | Hne]; simpl.
    + rewrite String.eqb_refl. reflexivity.
    + destruct (String.eqb_spec k k') as [Heq | _]; [contradiction | exact IH].
Qed.

Lemma dict_get_set_other (d : holdings) (k k' : string) (v : float64) :
  k' <> k -> dict_get (dict_set d k v) k' = dict_get d k'.
Proof.
  intros Hne. induction d as [| [k0 v0] d IH]; simpl.
  - destruct (String.eqb_spec k' k) as [Heq | _]; [contradiction | reflexivity].
  - destruct (String.eqb_spec k k0) as [Heq | Hk]; simpl.
    + subst k0. destruct (String.eqb_spec k' k) as [Heq | _]; [contradiction | reflexivity].
    + destruct (String.eqb_spec k' k0); [reflexivity | exact IH].
Qed.

Lemma keys_dict_set (d : holdings) (k : string) (v : float64) :
  keys (dict_set d k v)
  = match dict_get d k with
    | Some _ => keys d
    | None => keys d ++ [k]
    end.
Proof.
  unfold keys. induction d as [| [k' v'] d IH]; simpl; [reflexivity | ].
  destruct (String.eqb_spec k k') as [Heq | Hne]; simpl.
  - subst k'. reflexivity.
  - rewrite IH. destruct (dict_get d k); reflexivity.
Qed.

Lemma holdings_with_lookup (portfolio : holdings) (stock : string)
  (quantity : float64) :
  dict_get (holdings_with portfolio stock quantity) stock
  = Some (match dict_get portfolio stock with
          | Some q => (q + quantity)%f64
          | None => quantity
          end).
Proof.
  unfold holdings_with.
  destruct (dict_get portfolio stock); apply dict_get_set_same.
Qed.

Lemma holdings_with_other (portfolio : holdings) (stock k : string)
  (quantity : float64) :
  k <> stock ->
  dict_get (holdings_with portfolio stock quantity) k = dict_get portfolio k.
Proof.
  intros Hne. unfold holdings_with.
  destruct (dict_get portfolio stock); apply dict_get_set_other, Hne.
Qed.

Lemma holdings_with_keys (portfolio : holdings) (stock : string)
  (quantity : float64) :
  keys (holdings_with portfolio stock quantity)
  = match dict_get portfolio stock with
    | Some _ => keys portfolio
    | None => keys portfolio ++ [stock]
    end.
Proof.
  unfold holdings_with.
  destruct (dict_get portfolio stock) eqn:Hget;
    rewrite keys_dict_set, Hget; reflexivity.
Qed.

(** ** Adding a stock *)

Section AddStock.

Variable widget : widgets.
Variable user_data_py : user_data_module.
Variable user_id : string.
Variable portfolio : holdings.

Let new_stock : string := text_input widget "Enter stock ticker:".
Let new_quantity : float64 := number_input widget "Enter quantity:".
Let header : st_call := st_header "Add Stock to Portfolio".

(** X1. With the button pressed and the user's file loaded and saved,
    [add_stock_to_portfolio] returns holdings in which the ticker typed has
    the quantity typed on top of what was held, every other ticker keeps its
    quantity, and the tickers keep their order, a new one going last. The file
    saved is the one loaded with these holdings under ["portfolio"], and the
    success message is shown after it. *)
Theorem add_stock_updates_holdings (w w1 w2 : world) (stored : user_data) :
  button widget "Add to Portfolio" = true ->
  load_user_data user_data_py user_id (showing w [header]) = (Return stored, w1) ->
  save_user_data user_data_py user_id
    {| portfolio_entry := Some (holdings_with portfolio new_stock new_quantity);
       other_entries := other_entries stored |} w1 = (Return tt, w2) ->
  exists portfolio' : holdings,
    add_stock_to_portfolio widget user_data_py user_id portfolio w
    = (Return portfolio',
       showing w2
         [st_success [Text "Added "; Value new_quantity ""; Text " shares of ";
                      Text new_stock; Text " to your portfolio."]])
    /\ dict_get portfolio' new_stock
       = Some (match dict_get portfolio new_stock with
               | Some q => (q + new_quantity)%f64
               | None => new_quantity
               end)
    /\ (forall k, k <> new_stock -> dict_get portfolio' k = dict_get portfolio k)
    /\ keys portfolio'
       = match dict_get portfolio new_stock with
         | Some _ => keys portfolio
         | None => keys portfolio ++ [new_stock]
         end.
Proof.
  intros Hpress Hload Hsave.
  exists (holdings_with portfolio new_stock new_quantity).
  split; [ | split; [ | split]].
  - unfold add_stock_to_portfolio. unfold bind at 1. rewrite st_run.
    rewrite Hpress. unfold bind at 1.
    unfold showing, header in Hload. rewrite Hload.
    unfold bind at 1.
    fold new_stock. fold new_quantity.
    change (match dict_get portfolio new_stock with
            | Some q => dict_set portfolio new_stock (q + new_quantity)%f64
            | None => dict_set portfolio new_stock new_quantity
            end) with (holdings_with portfolio new_stock new_quantity).
    rewrite Hsave. reflexivity.
  - apply holdings_with_lookup.
  - intros k Hk. apply holdings_with_other, Hk.
  - apply holdings_with_keys.
Qed.

(** X2. Without a press of the button [add_stock_to_portfolio] shows its
    header and returns the holdings as they were: the user's file is neither
    loaded nor saved. *)
Theorem add_stock_idle (w : world) :
  button widget "Add to Portfolio" = false ->
  add_stock_to_portfolio widget user_data_py user_id portfolio w
  = (Return portfolio, showing w [header]).
Proof.
  intros Hidle. unfold add_stock_to_portfolio, bind. rewrite st_run, Hidle.
  reflexivity.
Qed.

(** X3. When the user's file cannot be loaded after a press of the button,
    [add_stock_to_portfolio] raises the loader's exception: nothing is saved
    and no success message is shown. When the file cannot be saved, it raises
    the saver's exception, again without the success message. *)
Theorem add_stock_fails_with_store (w w1 : world) (e : exn) :
  button widget "Add to Portfolio" = true ->
  (load_user_data user_data_py user_id (showing w [header]) = (Raise e, w1)
   \/ exists stored w0,
        load_user_data user_data_py user_id (showing w [header])
          = (Return stored, w0)
        /\ save_user_data user_data_py user_id
             {| portfolio_entry :=
                  Some (holdings_with portfolio new_stock new_quantity);
                other_entries := other_entries stored |} w0 = (Raise e, w1)) ->
  add_stock_to_portfolio widget user_data_py user_id portfolio w = (Raise e, w1).
Proof.
  intros Hpress Hfail.
  unfold add_stock_to_portfolio. unfold bind at 1. rewrite st_run, Hpress.
  unfold bind at 1. unfold showing, header in Hfail.
  destruct Hfail as [Hload | [stored [w0 [Hload Hsave]]]]; rewrite Hload.
  - reflexivity.
  - unfold bind at 1.
    fold new_stock. fold new_quantity.
    change (match dict_get portfolio new_stock with
            | Some q => dict_set portfolio new_stock (q + new_quantity)%f64
            | None => dict_set portfolio new_stock new_quantity
            end) with (holdings_with portfolio new_stock new_quantity).
    rewrite Hsave. reflexivity.
Qed.

End AddStock.

(** Five more AAPL shares on top of the ten held, with the store kept in
    the world. *)
Lemma add_stock_updates_holdings_witness :
  exists portfolio' : holdings,
    add_stock_to_portfolio adding_five_aapl stored_user_data "alice" two_stocks
      (fresh_world (fun _ => 0))
    = (Return portfolio',
       showing
         {| st_calls := [st_header "Add Stock to Portfolio"];
            np_random := fun _ => 0;
            user_files :=
              [("alice",
                {| portfolio_entry :=
                     Some (holdings_with two_stocks "AAPL" (Finite 5));
                   other_entries := [] |})] |}
         [st_success [Text "Added "; Value (Finite 5) ""; Text " shares of ";
                      Text "AAPL"; Text " to your portfolio."]])
    /\ dict_get portfolio' "AAPL"
       = Some (match dict_get two_stocks "AAPL" with
               | Some q => (q + Finite 5)%f64
               | None => Finite 5
               end)
    /\ (forall k, k <> "AAPL" -> dict_get portfolio' k = dict_get two_stocks k)
    /\ keys portfolio'
       = match dict_get two_stocks "AAPL" with
         | Some _ => keys two_stocks
         | None => keys two_stocks ++ ["AAPL"]
         end.
Proof.
  apply (add_stock_updates_holdings adding_five_aapl stored_user_data "alice"
           two_stocks (fresh_world (fun _ => 0))
           (showing (fresh_world (fun _ => 0))
              [st_header "Add Stock to Portfolio"])
           {| st_calls := [st_header "Add Stock to Portfolio"];
              np_random := fun _ => 0;
              user_files :=
                [("alice",
                  {| portfolio_entry :=
                       Some (holdings_with two_stocks "AAPL" (Finite 5));
                     other_entries := [] |})] |}
           {| portfolio_entry := None; other_entries := [] |}).
  - reflexivity.
  - reflexivity.
  - reflexivity.
Defined.

(** The button left alone. *)
Lemma add_stock_idle_witness :
  add_stock_to_portfolio default_widgets stored_user_data "alice" two_stocks
    (fresh_world (fun _ => 0))
  = (Return two_stocks,
     showing (fresh_world (fun _ => 0)) [st_header "Add Stock to Portfolio"]).
Proof.
  apply (add_stock_idle default_widgets stored_user_data "alice" two_stocks
           (fresh_world (fun _ => 0))).
  reflexivity.
Defined.

(** The button pressed while the user's file is unreadable. *)
Lemma add_stock_fails_with_store_witness :
  add_stock_to_portfolio adding_five_aapl unreadable_user_data "alice" two_stocks
    (fresh_world (fun _ => 0))
  = (Raise {| exn_class := "JSONDecodeError"; exn_msg := "Expecting value" |},
     showing (fresh_world (fun _ => 0)) [st_header "Add Stock to Portfolio"]).
Proof.
  apply (add_stock_fails_with_store adding_five_aapl unreadable_user_data "alice"
           two_stocks (fresh_world (fun _ => 0))).
  - reflexivity.
  - left. reflexivity.
Defined.

(** ** Stock values and the allocation table *)

Lemma get_stock_value_returns {price_table : Type} (yf : market_data price_table)
  (ticker : string) (quantity : float64) (w : world) :
  exists v w', get_stock_value yf ticker quantity w = (Return v, w').
Proof.
  unfold get_stock_value, try_except, bind.
  destruct (info_regularMarketPrice yf ticker w) as [[[p | ] | e] w1].
  - eexists. eexists. reflexivity.
  - destruct (history_last_close yf ticker w1) as [[p | e] w2];
      eexists; eexists; reflexivity.
  - eexists. eexists. reflexivity.
Qed.

Lemma for_each_returns {A B : Type} (f : A -> py B) :
  (forall a w, exists b w', f a w = (Return b, w')) ->
  forall l w, exists bs w',
    for_each f l w = (Return bs, w') /\ length bs = length l.
Proof.
  intros Hf. induction l as [| a l IH]; intros w.
  - exists [], w. split; reflexivity.
  - destruct (Hf a w) as [b [w1 Hb]]. destruct (IH w1) as [bs [w2 [Hbs Hlen]]].
    exists (b :: bs), w2. split.
    + simpl. unfold bind at 1. rewrite Hb. unfold bind at 1. rewrite Hbs.
      reflexivity.
    + simpl. rewrite Hlen. reflexivity.
Qed.

Section AllocationTable.

(** The rows of the table, as [display_current_portfolio] builds them. *)
Let table (portfolio : holdings) (values percentage : ndarray)
  : list allocation_row :=
  map (fun r =>
         {| Stock := fst (fst (fst r));
            Quantity := snd (fst (fst r));
            Value_ := snd (fst r);
            Percentage := snd r |})
      (combine (combine portfolio values) percentage).

Lemma table_columns (portfolio : holdings) :
  forall values percentage : ndarray,
    length values = length portfolio ->
    length percentage = length portfolio ->
    map Stock (table portfolio values percentage) = keys portfolio
    /\ map Quantity (table portfolio values percentage) = map snd portfolio
    /\ map Value_ (table portfolio values percentage) = values
    /\ map Percentage (table portfolio values percentage) = percentage.
Proof.
  unfold table, keys.
  induction portfolio as [| h portfolio IH]; intros values percentage Hv Hp.
  - destruct values; [ | discriminate]. destruct percentage; [ | discriminate].
    repeat split.
  - destruct values as [| v values]; [discriminate | ].
    destruct percentage as [| p percentage]; [discriminate | ].
    simpl in Hv, Hp. injection Hv as Hv. injection Hp as Hp.
    destruct (IH values percentage Hv Hp) as [Hs [Hq [Hval Hpct]]].
    simpl. rewrite Hs, Hq, Hval, Hpct. repeat split.
Qed.

Variable price_table : Type.
Variable yf : market_data price_table.

(** X4. [display_current_portfolio] never raises, whatever the market data
    source does. For empty holdings it shows the one message; otherwise the
    last things it shows are the pie chart and the table, which has one row
    per holding, in the order of the holdings, with the ticker and the
    quantity held. *)
Theorem display_current_portfolio_returns (portfolio : holdings) (w : world) :
  exists w' : world,
    display_current_portfolio yf portfolio w = (Return tt, w')
    /\ (portfolio = [] ->
        w' = showing w
               [st_info "Your portfolio is empty. Add some stocks to get started!"])
    /\ (portfolio <> [] ->
        exists (w1 : world) (values : ndarray) (data : list allocation_row),
          w' = showing w1
                 [st_plotly_chart
                    {| fig_data := [Pie (keys portfolio) values (3 / 10)];
                       fig_title := "Portfolio Composition" |};
                  st_dataframe data]
          /\ map Stock data = keys portfolio
          /\ map Quantity data = map snd portfolio
          /\ map Value_ data = values).
Proof.
  destruct portfolio as [| h rest].
  - eexists. split; [reflexivity | ]. split; [reflexivity | ].
    intros Hne. contradiction Hne. reflexivity.
  - destruct (for_each_returns
                (fun row => get_stock_value yf (fst row) (snd row))
                (fun a w0 => get_stock_value_returns yf (fst a) (snd a) w0)
                (h :: rest) w) as [values [w1 [Hrun Hlen]]].
    eexists. split; [ | split].
    + unfold display_current_portfolio. unfold bind at 1. rewrite Hrun.
      unfold bind. rewrite !st_run. reflexivity.
    + discriminate.
    + intros _. exists w1, values. eexists. split.
      * unfold showing. cbn [st_calls np_random user_files].
        rewrite <- app_assoc. reflexivity.
      * set (percentage :=
               if fltb (Finite 0) (pd_sum values)
               then map (fun v => (v / pd_sum values * Finite 100)%f64) values
               else map (fun _ => Finite 0) values).
        assert (Hp : length percentage = length (h :: rest)).
        { unfold percentage. destruct (fltb (Finite 0) (pd_sum values));
            rewrite length_map; exact Hlen. }
        destruct (table_columns (h :: rest) values percentage Hlen Hp)
          as [Hs [Hq [Hv _]]].
        split; [exact Hs | ]. split; [exact Hq | exact Hv].
Qed.

End AllocationTable.

Lemma Rsum_map_scale (l : list R) (c : R) :
  Rsum (map (fun v => v * c) l) = Rsum l * c.
Proof.
  unfold Rsum. induction l as [| x l IH]; simpl; [ring | ].
  rewrite IH. ring.
Qed.

Lemma pd_sum_finite (l : list R) : pd_sum (map Finite l) = Finite (Rsum l).
Proof. unfold pd_sum. rewrite skipna_finite. apply np_sum_finite. Qed.

Lemma fltb_zero_pos (x : R) : 0 < x -> fltb (Finite 0) (Finite x) = true.
Proof. intros H. simpl. destruct (Rlt_dec 0 x); [reflexivity | contradiction]. Qed.

Lemma fltb_zero_not_pos (x : R) : x <= 0 -> fltb (Finite 0) (Finite x) = false.
Proof. intros H. simpl. destruct (Rlt_dec 0 x); [lra | reflexivity]. Qed.

Lemma Rsum_ge_member (l : list R) (x : R) :
  Forall (fun y => 0 <= y) l -> In x l -> x <= Rsum l.
Proof.
  intros Hall. induction Hall as [| y l Hy Hl IH]; intros Hin; [contradiction | ].
  unfold Rsum. simpl. fold (Rsum l). pose proof (Rsum_nonneg l Hl) as Hs.
  destruct Hin as [Heq | Hin]; [subst; lra | ].
  specialize (IH Hin). lra.
Qed.

Section Percentages.

Variable price_table : Type.
Variable yf : market_data price_table.

(** X5. When the stocks' values are numbers, none negative, with a positive
    total, every entry of the Percentage column of the table is a number
    between 0 and 100, one for each holding. *)
Theorem allocation_percentages_in_range
  (portfolio : holdings) (w w1 : world) (vs : list R) :
  portfolio <> [] ->
  for_each (fun row => get_stock_value yf (fst row) (snd row)) portfolio w
    = (Return (map Finite vs), w1) ->
  Forall (fun v => 0 <= v) vs ->
  0 < Rsum vs ->
  exists (data : list allocation_row) (ps : list R),
    display_current_portfolio yf portfolio w
    = (Return tt,
       showing w1
         [st_plotly_chart
            {| fig_data := [Pie (keys portfolio) (map Finite vs) (3 / 10)];
               fig_title := "Portfolio Composition" |};
          st_dataframe data])
    /\ map Value_ data = map Finite vs
    /\ map Percentage data = map Finite ps
    /\ length ps = length portfolio
    /\ Forall (fun p => 0 <= p <= 100) ps.
Proof.
  intros Hne Hrun Hnonneg Hpos.
  assert (Hlen : length (map Finite vs) = length portfolio).
  { destruct (for_each_returns
                (fun row => get_stock_value yf (fst row) (snd row))
                (fun a w0 => get_stock_value_returns yf (fst a) (snd a) w0)
                portfolio w) as [bs [w' [Hrun' Hlen]]].
    rewrite Hrun in Hrun'. injection Hrun' as Hbs _. subst bs. exact Hlen. }
  assert (Hpct :
            (if fltb (Finite 0) (pd_sum (map Finite vs))
             then map (fun v => (v / pd_sum (map Finite vs) * Finite 100)%f64)
                      (map Finite vs)
             else map (fun _ => Finite 0) (map Finite vs))
            = map Finite (map (fun v => v / Rsum vs * 100) vs)).
  { rewrite pd_sum_finite, (fltb_zero_pos _ Hpos), !map_map.
    apply map_ext. intros v. rewrite fdiv_finite by lra. reflexivity. }
  eexists. exists (map (fun v => v / Rsum vs * 100) vs).
  split; [ | split; [ | split; [ | split]]].
  - unfold display_current_portfolio.
    destruct portfolio as [| h rest]; [contradiction Hne; reflexivity | ].
    unfold bind at 1. rewrite Hrun. unfold bind. rewrite !st_run.
    unfold showing. cbn [st_calls np_random user_files].
    rewrite <- app_assoc. reflexivity.
  - rewrite Hpct.
    apply (table_columns portfolio (map Finite vs) _ Hlen).
    rewrite !length_map. rewrite length_map in Hlen. exact Hlen.
  - rewrite Hpct.
    apply (table_columns portfolio (map Finite vs) _ Hlen).
    rewrite !length_map. rewrite length_map in Hlen. exact Hlen.
  - rewrite length_map. rewrite length_map in Hlen. exact Hlen.
  - apply Forall_forall. intros p Hp. apply in_map_iff in Hp.
    destruct Hp as [v [Hv Hin]]. subst p.
    rewrite Forall_forall in Hnonneg. pose proof (Hnonneg v Hin) as Hv0.
    pose proof (Rsum_ge_member vs v ltac:(apply Forall_forall; exact Hnonneg) Hin)
      as Hle.
    assert (Hratio : 0 <= v / Rsum vs <= 1).
    { split.
      - apply Rmult_le_pos; [exact Hv0 | ]. left. apply Rinv_0_lt_compat, Hpos.
      - apply Rmult_le_reg_r with (Rsum vs); [exact Hpos | ].
        unfold Rdiv. rewrite Rmult_assoc, Rinv_l by lra. lra. }
    lra.
Qed.

End Percentages.

(** Ten shares each of two stocks quoted at 100. *)
Lemma allocation_percentages_in_range_witness :
  exists (data : list allocation_row) (ps : list R),
    display_current_portfolio quoting_market two_stocks (fresh_world (fun _ => 0))
    = (Return tt,
       showing (fresh_world (fun _ => 0))
         [st_plotly_chart
            {| fig_data :=
                 [Pie (keys two_stocks)
                    (map Finite [100 * 10; 100 * 10]) (3 / 10)];
               fig_title := "Portfolio Composition" |};
          st_dataframe data])
    /\ map Value_ data = map Finite [100 * 10; 100 * 10]
    /\ map Percentage data = map Finite ps
    /\ length ps = length two_stocks
    /\ Forall (fun p => 0 <= p <= 100) ps.
Proof.
  apply (allocation_percentages_in_range unit quoting_market two_stocks
           (fresh_world (fun _ => 0)) (fresh_world (fun _ => 0))
           [100 * 10; 100 * 10]).
  - discriminate.
  - reflexivity.
  - repeat constructor; lra.
  - unfold Rsum. simpl. lra.
Defined.

Lemma showing_showing (w : world) (a b : list st_call) :
  showing (showing w a) b = showing w (a ++ b).
Proof. unfold showing. simpl. rewrite app_assoc. reflexivity. Qed.

Lemma showing_nil (w : world) : showing w [] = w.
Proof. destruct w. unfold showing. simpl. rewrite app_nil_r. reflexivity. Qed.

Lemma Rsum_zeros {A : Type} (l : list A) : Rsum (map (fun _ => 0) l) = 0.
Proof.
  unfold Rsum. induction l as [| a l IH]; simpl; [reflexivity | ].
  rewrite IH. ring.
Qed.

Section UnreachableMarket.

Variable price_table : Type.
Variable yf : market_data price_table.
Variable e : exn.

Hypothesis lookup_fails :
  forall ticker w, info_regularMarketPrice yf ticker w = (Raise e, w).

(** The error shown for a ticker. *)
Let lookup_error (ticker : string) : st_call :=
  st_error [Text "Error fetching stock value for "; Text ticker;
            Text ": "; Text (exn_msg e)].

Lemma for_each_lookup_fails (portfolio : holdings) (w : world) :
  for_each (fun row => get_stock_value yf (fst row) (snd row)) portfolio w
  = (Return (map (fun _ => Finite 0) portfolio),
     showing w (map lookup_error (keys portfolio))).
Proof.
  revert w. induction portfolio as [| h rest IH]; intros w.
  - simpl. rewrite showing_nil. reflexivity.
  - simpl. unfold bind at 1.
    unfold get_stock_value, try_except. unfold bind at 1.
    rewrite lookup_fails. unfold bind at 1. rewrite st_run.
    unfold ret at 1. unfold bind at 1.
    change {| st_calls :=
                st_calls w ++
                [st_error [Text "Error fetching stock value for "; Text (fst h);
                           Text ": "; Text (exn_msg e)]];
              np_random := np_random w;
              user_files := user_files w |}
      with (showing w [lookup_error (fst h)]).
    rewrite IH, showing_showing. reflexivity.
Qed.

Lemma zero_table (portfolio : holdings) :
  map (fun r =>
         {| Stock := fst (fst (fst r));
            Quantity := snd (fst (fst r));
            Value_ := snd (fst r);
            Percentage := snd r |})
      (combine (combine portfolio (map (fun _ => Finite 0) portfolio))
         (map (fun _ => Finite 0) (map (fun _ : string * float64 => Finite 0) portfolio)))
  = map (fun h => {| Stock := fst h; Quantity := snd h;
                     Value_ := Finite 0; Percentage := Finite 0 |}) portfolio.
Proof.
  induction portfolio as [| h rest IH]; simpl; [reflexivity | ].
  rewrite IH. reflexivity.
Qed.

(** X6. When the price lookup fails for every ticker,
    [display_current_portfolio] shows one error per holding, in order, and
    then a chart and a table in which every value is 0 and, the total not
    being positive, every percentage is 0 rather than a division by zero. *)
Theorem unreachable_market_shows_zeros (portfolio : holdings) (w : world) :
  portfolio <> [] ->
  display_current_portfolio yf portfolio w
  = (Return tt,
     showing w
       (map lookup_error (keys portfolio) ++
        [st_plotly_chart
           {| fig_data :=
                [Pie (keys portfolio) (map (fun _ => Finite 0) portfolio) (3 / 10)];
              fig_title := "Portfolio Composition" |};
         st_dataframe
           (map (fun h => {| Stock := fst h; Quantity := snd h;
                             Value_ := Finite 0; Percentage := Finite 0 |})
                portfolio)])).
Proof.
  intros Hne. unfold display_current_portfolio.
  destruct portfolio as [| h rest]; [contradiction Hne; reflexivity | ].
  unfold bind at 1. rewrite for_each_lookup_fails.
  assert (Htotal :
            fltb (Finite 0)
              (pd_sum (map (fun _ : string * float64 => Finite 0) (h :: rest)))
            = false).
  { rewrite <- (map_map (fun _ : string * float64 => 0) Finite).
    rewrite pd_sum_finite, Rsum_zeros. apply fltb_zero_not_pos. lra. }
  rewrite Htotal, zero_table.
  unfold bind. rewrite !st_run. unfold showing.
  cbn [st_calls np_random user_files]. rewrite <- !app_assoc. reflexivity.
Qed.

End UnreachableMarket.

(** Two holdings while the market data source is unreachable. *)
Lemma unreachable_market_shows_zeros_witness :
  display_current_portfolio offline_market two_stocks (fresh_world (fun _ => 0))
  = (Return tt,
     showing (fresh_world (fun _ => 0))
       (map (fun ticker =>
               st_error [Text "Error fetching stock value for "; Text ticker;
                         Text ": "; Text (exn_msg connection_error)])
            (keys two_stocks) ++
        [st_plotly_chart
           {| fig_data :=
                [Pie (keys two_stocks) (map (fun _ => Finite 0) two_stocks) (3 / 10)];
              fig_title := "Portfolio Composition" |};
         st_dataframe
           (map (fun h => {| Stock := fst h; Quantity := snd h;
                             Value_ := Finite 0; Percentage := Finite 0 |})
                two_stocks)])).
Proof.
  apply (unreachable_market_shows_zeros unit offline_market connection_error).
  - intros ticker w. reflexivity.
  - discriminate.
Defined.

(** ** Weights from holdings, and the portfolio's returns *)

Lemma lookup_own_keys (portfolio : holdings) :
  NoDup (keys portfolio) ->
  map (fun ticker => match dict_get portfolio ticker with
                     | Some q => q
                     | None => NaN
                     end) (keys portfolio)
  = map snd portfolio.
Proof.
  unfold keys. induction portfolio as [| [k v] rest IH]; intros Hnodup.
  - reflexivity.
  - simpl in Hnodup. apply NoDup_cons_iff in Hnodup. destruct Hnodup as [Hk Hrest].
    simpl. rewrite String.eqb_refl. f_equal.
    rewrite <- (IH Hrest). apply map_ext_in. intros t Ht.
    destruct (String.eqb_spec t k) as [Heq | _]; [ | reflexivity].
    subst t. contradiction.
Qed.

(** X7. The weights computed from holdings (lines 284-285). For distinct
    tickers held in quantities that are numbers, none negative, with a total
    that is positive and below [2^63] (NumPy adds whole quantities as 64-bit
    integers), there is one weight for each holding, every weight lies in
    [[0, 1]] and the weights sum to 1 within [1e-6]. *)
Theorem holdings_weights_in_unit_interval (portfolio : holdings) (qs : list R) :
  NoDup (keys portfolio) ->
  map snd portfolio = map Finite qs ->
  Forall (fun q => 0 <= q) qs ->
  0 < Rsum qs < 2 ^ 63 ->
  length (holdings_weights portfolio) = length portfolio
  /\ valid_weights (holdings_weights portfolio).
Proof.
  intros Hnodup Hqs Hnonneg [Htotal _].
  assert (Hw : holdings_weights portfolio
               = map Finite (map (fun q => q / Rsum qs) qs)).
  { unfold holdings_weights. rewrite (lookup_own_keys portfolio Hnodup), Hqs.
    rewrite np_sum_finite, !map_map. apply map_ext. intros q.
    apply fdiv_finite. lra. }
  split.
  { unfold holdings_weights, keys. rewrite !length_map. reflexivity. }
  rewrite Hw. split.
  - exists (Rsum (map (fun q => q / Rsum qs) qs)). split; [apply np_sum_finite | ].
    replace (map (fun q => q / Rsum qs) qs)
      with (map (fun q => q * / Rsum qs) qs) by reflexivity.
    rewrite Rsum_map_scale.
    replace (Rsum qs * / Rsum qs - 1) with 0 by (field; lra).
    rewrite Rabs_R0. unfold tolerance. lra.
  - apply Forall_forall. intros x Hx. apply in_map_iff in Hx.
    destruct Hx as [y [Hy Hin]]. subst x. apply in_map_iff in Hin.
    destruct Hin as [q [Hq Hin]]. subst y.
    exists (q / Rsum qs). split; [reflexivity | ].
    rewrite Forall_forall in Hnonneg. pose proof (Hnonneg q Hin) as Hq0.
    pose proof (Rsum_ge_member qs q ltac:(apply Forall_forall; exact Hnonneg) Hin)
      as Hle.
    split.
    + apply Rmult_le_pos; [exact Hq0 | ]. left. apply Rinv_0_lt_compat, Htotal.
    + apply Rmult_le_reg_r with (Rsum qs); [exact Htotal | ].
      unfold Rdiv. rewrite Rmult_assoc, Rinv_l by lra. lra.
Qed.

(** Thirty shares of one stock and ten of another. *)
Lemma holdings_weights_in_unit_interval_witness :
  length (holdings_weights [("AAPL", Finite 30); ("MSFT", Finite 10)])
  = length [("AAPL", Finite 30); ("MSFT", Finite 10)]
  /\ valid_weights (holdings_weights [("AAPL", Finite 30); ("MSFT", Finite 10)]).
Proof.
  apply (holdings_weights_in_unit_interval
           [("AAPL", Finite 30); ("MSFT", Finite 10)] [30; 10]).
  - repeat constructor; simpl; intuition discriminate.
  - reflexivity.
  - repeat constructor; lra.
  - split; [unfold Rsum; simpl; lra | ].
    apply Rlt_le_trans with (2 ^ 6); [unfold Rsum; simpl; lra | ].
    apply Rle_pow; [lra | lia].
Defined.

Lemma fmul_nan_r (a : float64) : (a * NaN)%f64 = NaN.
Proof. destruct a; reflexivity. Qed.

(** X8. The portfolio of a single stock (lines 284-289). Held in a quantity
    that is not zero, its returns are the stock's returns, unchanged, whatever
    the quantity; held in the quantity 0, the weight is [0 / 0] and every
    return becomes [nan]. *)
Theorem single_holding_returns (ticker : string) (q : R) (returns : DataFrame) :
  aggregate_returns returns (holdings_weights [(ticker, Finite q)])
  = Return
      (Frame
         (if Req_EM_T q 0
          then {| columns := columns returns;
                  rows := map (map (fun _ => NaN)) (rows returns) |}
          else returns)).
Proof.
  destruct (Req_EM_T q 0) as [Hzero | Hq].
  - subst q. unfold holdings_weights. simpl. rewrite String.eqb_refl. simpl.
    destruct (Req_EM_T (0 + 0) 0) as [_ | Hn]; [ | contradiction Hn; ring].
    rewrite Rsign_zero. unfold aggregate_returns. simpl. unfold df_scale.
    do 3 f_equal. apply map_ext. intros row. apply map_ext. intros r.
    apply fmul_nan_r.
  - rewrite (single_holding_weight ticker q Hq).
    unfold aggregate_returns. simpl. rewrite df_scale_one. reflexivity.
Qed.

Lemma inner_product_finite (rs ws : list R) :
  inner_product (map Finite rs) (map Finite ws)
  = Finite (Rsum (map (fun p => fst p * snd p) (combine rs ws))).
Proof.
  revert ws. induction rs as [| r rs IH]; intros ws; [reflexivity | ].
  destruct ws as [| w ws]; [reflexivity | ].
  simpl. rewrite IH. reflexivity.
Qed.

Lemma weighted_sum_nonneg (rs ws : list R) :
  Forall (fun r => 0 <= r) rs ->
  Forall (fun w => 0 <= w) ws ->
  0 <= Rsum (map (fun p => fst p * snd p) (combine rs ws)).
Proof.
  intros Hrs. revert ws. induction Hrs as [| r rs Hr _ IH]; intros ws Hws.
  - unfold Rsum. simpl. lra.
  - destruct Hws as [| w ws Hw Hws]; [unfold Rsum; simpl; lra | ].
    specialize (IH ws Hws). unfold Rsum in *. simpl. nra.
Qed.

Lemma weighted_sum_nonpos (rs ws : list R) :
  Forall (fun r => r <= 0) rs ->
  Forall (fun w => 0 <= w) ws ->
  Rsum (map (fun p => fst p * snd p) (combine rs ws)) <= 0.
Proof.
  intros Hrs. revert ws. induction Hrs as [| r rs Hr _ IH]; intros ws Hws.
  - unfold Rsum. simpl. lra.
  - destruct Hws as [| w ws Hw Hws]; [unfold Rsum; simpl; lra | ].
    specialize (IH ws Hws). unfold Rsum in *. simpl. nra.
Qed.

(** X9. The portfolio of several stocks (lines 290-291). For weights that are
    not negative, as many as the frame has columns, there is one portfolio
    return per date, and it keeps the sign the stocks' returns share: it is
    not negative on a date on which no stock's return is, and not positive on
    a date on which none is positive. *)
Theorem portfolio_returns_keep_sign (cols : list string) (rs : list (list R))
  (ws : list R) :
  length ws <> 1%nat ->
  length cols = length ws ->
  Forall (fun row => length row = length ws) rs ->
  Forall (fun w => 0 <= w) ws ->
  exists out : ndarray,
    aggregate_returns {| columns := cols; rows := map (map Finite) rs |}
      (map Finite ws) = Return (Series out)
    /\ Forall2 (fun row p =>
                  (Forall (fun r => 0 <= r) row -> not_negative p)
                  /\ (Forall (fun r => r <= 0) row -> not_positive p))
               rs out.
Proof.
  intros Hmany Hcols _ Hws.
  exists (map (fun row =>
                 Finite (Rsum (map (fun p => fst p * snd p) (combine row ws))))
              rs).
  split.
  - unfold aggregate_returns, df_dot. rewrite length_map. cbn [columns rows].
    destruct (Nat.eqb_spec (length ws) 1) as [H1 | _]; [contradiction | ].
    destruct (Nat.eqb_spec (length cols) (length ws)) as [_ | Hn]; [ | contradiction].
    rewrite !map_map. do 2 f_equal. apply map_ext. intros row.
    apply inner_product_finite.
  - induction rs as [| row rs IH]; [constructor | ].
    cbn [map]. constructor; [ | exact IH].
    split; intros Hrow; simpl.
    + apply weighted_sum_nonneg; assumption.
    + apply weighted_sum_nonpos; assumption.
Qed.

(** Weights 3/4 and 1/4 on two stocks that returned 0% and 2% on one day
    and 0% and -2% on the next. *)
Lemma portfolio_returns_keep_sign_witness :
  exists out : ndarray,
    aggregate_returns
      {| columns := ["AAPL"; "MSFT"];
         rows := map (map Finite) [[0; 2 / 100]; [0; - (2 / 100)]] |}
      (map Finite [3 / 4; 1 / 4]) = Return (Series out)
    /\ Forall2 (fun row p =>
                  (Forall (fun r => 0 <= r) row -> not_negative p)
                  /\ (Forall (fun r => r <= 0) row -> not_positive p))
               [[0; 2 / 100]; [0; - (2 / 100)]] out.
Proof.
  apply (portfolio_returns_keep_sign ["AAPL"; "MSFT"]
           [[0; 2 / 100]; [0; - (2 / 100)]] [3 / 4; 1 / 4]).
  - simpl. lia.
  - reflexivity.
  - repeat constructor.
  - repeat constructor; lra.
Defined.

(** ** More on the metrics of a series of numbers *)

(** The percentile of nonempty finite data lies between two entries of
    the data. *)
Lemma np_percentile_between (l : list R) (q : nat) :
  l <> [] -> (q <= 100)%nat ->
  exists v a b : R,
    np_percentile (map Finite l) q = Finite v
    /\ In a l /\ In b l /\ a <= v <= b.
Proof.
  intros Hl Hq. unfold np_percentile.
  rewrite existsb_isnan_finite, length_map.
  assert (Hn : (0 < length l)%nat) by (destruct l; [contradiction | simpl; lia]).
  destruct (Nat.eqb_spec (length l) 0) as [H0 | _]; [lia | ]. simpl orb.
  destruct (np_sort_finite l) as [l' [Heq [Hperm Hsorted]]].
  rewrite Heq.
  assert (Hlen : length l' = length l) by (symmetry; apply Permutation_length, Hperm).
  pose proof (percentile_index_bound (length l) q Hn Hq) as Hprev.
  set (previous := ((length l - 1) * q / 100)%nat) in *.
  set (next := Nat.min (previous + 1) (length l - 1)).
  assert (Hnext : (next < length l)%nat) by (unfold next; lia).
  assert (Hpn : (previous <= next)%nat) by (unfold next; lia).
  rewrite !nth_map_finite by lia.
  assert (Hgamma : 0 <= INR ((length l - 1) * q mod 100) / 100 <= 1).
  { assert (Hlt : ((length l - 1) * q mod 100 < 100)%nat)
      by (apply Nat.mod_upper_bound; lia).
    apply lt_INR in Hlt.
    pose proof (pos_INR ((length l - 1) * q mod 100)) as Hpos.
    replace (INR 100) with 100 in Hlt by (simpl; lra).
    split; lra. }
  destruct (lerp_between (nth previous l' 0) (nth next l' 0) _
              (StronglySorted_nth l' Hsorted previous next Hpn ltac:(lia)) Hgamma)
    as [v [Hv Hbounds]].
  exists v, (nth previous l' 0), (nth next l' 0).
  split; [exact Hv | ].
  split; [apply (Permutation_in _ (Permutation_sym Hperm)), nth_In; lia | ].
  split; [apply (Permutation_in _ (Permutation_sym Hperm)), nth_In; lia | ].
  exact Hbounds.
Qed.

Section RangeOfTailRisk.

Variable scipy : scipy_lib.
Variable frame_metrics : DataFrame -> outcome MetricsResult.

(** X10. On a series of two or more numbers of moderate magnitude, all
    between [lo] and [hi], the value at risk is a number between [lo] and
    [hi] too: it is interpolated between two of the returns. *)
Theorem var_within_range
  (l : list R) (lo hi : R) (statistic p_value : float64) :
  (2 <= length l)%nat ->
  Forall moderate l ->
  stats_shapiro scipy (map Finite l) = Return (statistic, p_value) ->
  Forall (fun r => lo <= r <= hi) l ->
  exists (m : MetricsResult) (v : R),
    calculate_portfolio_metrics scipy frame_metrics (Series (map Finite l))
      = Return m
    /\ var_95 m = Finite v
    /\ lo <= v <= hi.
Proof.
  intros Hlen _ Hshapiro Hrange.
  assert (Hl : l <> []) by (destruct l; [simpl in Hlen; lia | discriminate]).
  destruct (np_percentile_between l 5 Hl ltac:(lia))
    as [v [a [b [Hv [Ha [Hb Hav]]]]]].
  rewrite Forall_forall in Hrange.
  eexists. exists v. split.
  - apply (metrics_of_finite_series scipy frame_metrics l statistic p_value
             Hlen Hshapiro).
  - cbn [var_95]. split; [exact Hv | ].
    pose proof (Hrange a Ha). pose proof (Hrange b Hb). lra.
Qed.

End RangeOfTailRisk.

(** The series [[0.01, -0.02, 0.03]], between -2% and 3%. *)
Lemma var_within_range_witness :
  exists (m : MetricsResult) (v : R),
    calculate_portfolio_metrics sample_scipy no_frame_metrics
      (Series (map Finite [1 / 100; - (2 / 100); 3 / 100])) = Return m
    /\ var_95 m = Finite v
    /\ - (2 / 100) <= v <= 3 / 100.
Proof.
  apply (var_within_range sample_scipy no_frame_metrics
           [1 / 100; - (2 / 100); 3 / 100] (- (2 / 100)) (3 / 100)
           (Finite 1) (Finite 1)).
  - simpl. lia.
  - repeat (apply Forall_cons; [apply moderate_small, Rabs_le; lra | ]).
    apply Forall_nil.
  - reflexivity.
  - repeat constructor; lra.
Defined.

Section SignOfVolatility.

Variable scipy : scipy_lib.
Variable frame_metrics : DataFrame -> outcome MetricsResult.

(** X11. On a series of two or more values, whatever they are, the
    annualised volatility is never a negative number: it is a number at least
    0, [inf] or [nan]. *)
Theorem volatility_not_negative
  (returns : ndarray) (statistic p_value : float64) :
  (2 <= length returns)%nat ->
  stats_shapiro scipy returns = Return (statistic, p_value) ->
  exists m : MetricsResult,
    calculate_portfolio_metrics scipy frame_metrics (Series returns) = Return m
    /\ not_negative (volatility m).
Proof.
  intros Hlen Hshapiro. unfold calculate_portfolio_metrics. simpl len.
  destruct (Nat.ltb_spec (length returns) 2) as [Hlt | _]; [lia | ].
  rewrite Hshapiro. eexists. split; [reflexivity | ].
  cbn [volatility]. rewrite np_sqrt_252.
  apply fmul_not_negative; [apply sqrt_lt_R0; lra | ].
  unfold pd_std, np_std. apply np_sqrt_not_negative.
Qed.

End SignOfVolatility.

(** The series [[0.01, nan, 0.03]]. *)
Lemma volatility_not_negative_witness :
  exists m : MetricsResult,
    calculate_portfolio_metrics sample_scipy no_frame_metrics
      (Series [Finite (1 / 100); NaN; Finite (3 / 100)]) = Return m
    /\ not_negative (volatility m).
Proof.
  apply (volatility_not_negative sample_scipy no_frame_metrics
           [Finite (1 / 100); NaN; Finite (3 / 100)] (Finite 1) (Finite 1)).
  - simpl. lia.
  - reflexivity.
Defined.

Lemma fold_left_Rmult (l : list R) (acc : R) :
  fold_left Rmult l acc = acc * Rprod l.
Proof.
  revert acc. induction l as [| x l IH]; intros acc; simpl.
  - unfold Rprod. simpl. ring.
  - rewrite IH. unfold Rprod. simpl. ring.
Qed.

Lemma fold_left_fmul_finite (l : list R) (acc : R) :
  fold_left fmul (map Finite l) (Finite acc) = Finite (fold_left Rmult l acc).
Proof.
  revert acc. induction l as [| x l IH]; intros acc; simpl; [reflexivity | ].
  apply IH.
Qed.

Lemma pd_prod_finite (l : list R) : pd_prod (map Finite l) = Finite (Rprod l).
Proof.
  unfold pd_prod, np_prod. rewrite skipna_finite, fold_left_fmul_finite.
  rewrite fold_left_Rmult. f_equal. ring.
Qed.

Lemma Rprod_nonneg (l : list R) : Forall (fun x => 0 <= x) l -> 0 <= Rprod l.
Proof.
  induction 1 as [| x l Hx _ IH]; unfold Rprod; simpl; [lra | ].
  fold (Rprod l). apply Rmult_le_pos; assumption.
Qed.

Lemma Rprod_ge_1 (l : list R) : Forall (fun x => 1 <= x) l -> 1 <= Rprod l.
Proof.
  induction 1 as [| x l Hx _ IH]; unfold Rprod; simpl; [lra | ].
  fold (Rprod l). nra.
Qed.

Section CumulativeReturn.

Variable scipy : scipy_lib.
Variable frame_metrics : DataFrame -> outcome MetricsResult.

(** X12. On a series of two or more numbers the cumulative return is never
    below -1 when no return is (nothing more than everything is lost), and
    never negative when no return is negative. *)
Theorem cumulative_return_bounded_below
  (l : list R) (statistic p_value : float64) :
  (2 <= length l)%nat ->
  stats_shapiro scipy (map Finite l) = Return (statistic, p_value) ->
  exists m : MetricsResult,
    calculate_portfolio_metrics scipy frame_metrics (Series (map Finite l))
      = Return m
    /\ (Forall (fun r => -1 <= r) l -> not_below (-1) (cumulative_return m))
    /\ (Forall (fun r => 0 <= r) l -> not_negative (cumulative_return m)).
Proof.
  intros Hlen Hshapiro.
  eexists. split.
  - apply (metrics_of_finite_series scipy frame_metrics l statistic p_value
             Hlen Hshapiro).
  - cbn [cumulative_return]. rewrite map_map. cbn [fadd].
    rewrite <- (map_map (fun r => 1 + r) Finite), pd_prod_finite.
    cbn [fsub fneg fadd not_below not_negative].
    split; intros Hall.
    + assert (Hpos : 0 <= Rprod (map (fun r => 1 + r) l)).
      { apply Rprod_nonneg. apply Forall_forall. intros y Hy.
        apply in_map_iff in Hy. destruct Hy as [r [Hr Hin]]. subst y.
        rewrite Forall_forall in Hall. pose proof (Hall r Hin). lra. }
      lra.
    + assert (Hge : 1 <= Rprod (map (fun r => 1 + r) l)).
      { apply Rprod_ge_1. apply Forall_forall. intros y Hy.
        apply in_map_iff in Hy. destruct Hy as [r [Hr Hin]]. subst y.
        rewrite Forall_forall in Hall. pose proof (Hall r Hin). lra. }
      lra.
Qed.

End CumulativeReturn.

(** The series [[0.01, -0.01]]. *)
Lemma cumulative_return_bounded_below_witness :
  exists m : MetricsResult,
    calculate_portfolio_metrics sample_scipy no_frame_metrics
      (Series (map Finite [1 / 100; - (1 / 100)])) = Return m
    /\ (Forall (fun r => -1 <= r) [1 / 100; - (1 / 100)] ->
        not_below (-1) (cumulative_return m))
    /\ (Forall (fun r => 0 <= r) [1 / 100; - (1 / 100)] ->
        not_negative (cumulative_return m)).
Proof.
  apply (cumulative_return_bounded_below sample_scipy no_frame_metrics
           [1 / 100; - (1 / 100)] (Finite 1) (Finite 1)).
  - simpl. lia.
  - reflexivity.
Defined.

(** ** The order of the returns *)

(** Two sorted lists with the same entries are the same list. *)
Lemma sorted_permutation_unique (l1 l2 : list R) :
  StronglySorted Rle l1 -> StronglySorted Rle l2 -> Permutation l1 l2 -> l1 = l2.
Proof.
  revert l2. induction l1 as [| x l1 IH]; intros l2 H1 H2 Hperm.
  - apply Permutation_nil in Hperm. subst. reflexivity.
  - destruct l2 as [| y l2].
    + apply Permutation_sym, Permutation_nil in Hperm. discriminate.
    + apply StronglySorted_inv in H1. destruct H1 as [H1 Hx].
      apply StronglySorted_inv in H2. destruct H2 as [H2 Hy].
      assert (Hxy : x = y).
      { assert (Hin1 : In y (x :: l1))
          by (apply (Permutation_in _ (Permutation_sym Hperm)); left; reflexivity).
        assert (Hin2 : In x (y :: l2))
          by (apply (Permutation_in _ Hperm); left; reflexivity).
        rewrite Forall_forall in Hx, Hy.
        destruct Hin1 as [Heq | Hin1]; [exact Heq | ].
        destruct Hin2 as [Heq | Hin2]; [symmetry; exact Heq | ].
        apply Rle_antisym; [apply Hx, Hin1 | apply Hy, Hin2]. }
      subst y. f_equal. apply IH; try assumption.
      apply (Permutation_cons_inv Hperm).
Qed.

Lemma np_sort_permutation (l1 l2 : list R) :
  Permutation l1 l2 -> np_sort (map Finite l1) = np_sort (map Finite l2).
Proof.
  intros Hperm.
  destruct (np_sort_finite l1) as [s1 [Heq1 [Hp1 Hs1]]].
  destruct (np_sort_finite l2) as [s2 [Heq2 [Hp2 Hs2]]].
  rewrite Heq1, Heq2. f_equal. apply sorted_permutation_unique; try assumption.
  apply Permutation_trans with l1; [apply Permutation_sym, Hp1 | ].
  apply Permutation_trans with l2; assumption.
Qed.

Lemma np_percentile_permutation (l1 l2 : list R) (q : nat) :
  Permutation l1 l2 ->
  np_percentile (map Finite l1) q = np_percentile (map Finite l2) q.
Proof.
  intros Hperm. unfold np_percentile.
  rewrite !existsb_isnan_finite, !length_map.
  rewrite (np_sort_permutation l1 l2 Hperm), (Permutation_length Hperm).
  reflexivity.
Qed.

Section OrderOfReturns.

Variable scipy : scipy_lib.
Variable frame_metrics : DataFrame -> outcome MetricsResult.

(** X13. The value at risk of a series of two or more numbers does not depend
    on the order of the returns: it is the same for the series rearranged.
    (The sums behind the other metrics are taken in the order of the
    series.) *)
Theorem var_ignores_order
  (l1 l2 : list R) (statistic1 p_value1 statistic2 p_value2 : float64) :
  (2 <= length l1)%nat ->
  Permutation l1 l2 ->
  stats_shapiro scipy (map Finite l1) = Return (statistic1, p_value1) ->
  stats_shapiro scipy (map Finite l2) = Return (statistic2, p_value2) ->
  exists m1 m2 : MetricsResult,
    calculate_portfolio_metrics scipy frame_metrics (Series (map Finite l1))
      = Return m1
    /\ calculate_portfolio_metrics scipy frame_metrics (Series (map Finite l2))
       = Return m2
    /\ var_95 m1 = var_95 m2.
Proof.
  intros Hlen Hperm Hshapiro1 Hshapiro2.
  assert (Hlen2 : (2 <= length l2)%nat)
    by (rewrite <- (Permutation_length Hperm); exact Hlen).
  eexists. eexists.
  split; [apply (metrics_of_finite_series scipy frame_metrics l1 _ _ Hlen Hshapiro1) | ].
  split; [apply (metrics_of_finite_series scipy frame_metrics l2 _ _ Hlen2 Hshapiro2) | ].
  cbn [var_95]. apply np_percentile_permutation, Hperm.
Qed.

End OrderOfReturns.

(** The series [[0.01, 0.03]] and [[0.03, 0.01]]. *)
Lemma var_ignores_order_witness :
  exists m1 m2 : MetricsResult,
    calculate_portfolio_metrics sample_scipy no_frame_metrics
      (Series (map Finite [1 / 100; 3 / 100])) = Return m1
    /\ calculate_portfolio_metrics sample_scipy no_frame_metrics
         (Series (map Finite [3 / 100; 1 / 100])) = Return m2
    /\ var_95 m1 = var_95 m2.
Proof.
  apply (var_ignores_order sample_scipy no_frame_metrics
           [1 / 100; 3 / 100] [3 / 100; 1 / 100]
           (Finite 1) (Finite 1) (Finite 1) (Finite 1)).
  - simpl. lia.
  - apply perm_swap.
  - reflexivity.
  - reflexivity.
Defined.

(** ** The analysis view *)

(** Running a computation that starts with a Streamlit call. *)
Lemma bind_st {A : Type} (c : st_call) (k : unit -> py A) (w : world) :
  bind (st c) k w = k tt (showing w [c]).
Proof. reflexivity. Qed.

Lemma st_showing (c : st_call) (w : world) :
  st c w = (Return tt, showing w [c]).
Proof. reflexivity. Qed.

Lemma bind_bind {A B C : Type} (c : py A) (k : A -> py B) (h : B -> py C)
  (w : world) :
  bind (bind c k) h w = bind c (fun a => bind (k a) h) w.
Proof. unfold bind. destruct (c w) as [[a | e] w']; reflexivity. Qed.

(** Runs the Streamlit calls a computation starts with. *)
Ltac run_st :=
  repeat first [rewrite bind_st | rewrite bind_bind | rewrite st_showing].

Section AnalysisView.

Variable scipy : scipy_lib.
Variable frame_metrics : DataFrame -> outcome MetricsResult.

(** X14. On fewer than two returns the analysis view shows "N/A" for each of
    the nine metrics, then the explanation and the chart of the returns: the
    undefined marker never reaches the number formatting. *)
Theorem analysis_of_short_series_shows_na (returns : pandas_obj) (w : world) :
  (len returns < 2)%nat ->
  perform_portfolio_analysis scipy frame_metrics returns w
  = (Return tt,
     showing w
       [st_header "Portfolio Analysis";
        st_subheader "Portfolio Metrics";
        st_metric "Annual Return" [Text "N/A"];
        st_metric "Annual Volatility" [Text "N/A"];
        st_metric "Sharpe Ratio" [Text "N/A"];
        st_metric "Skewness" [Text "N/A"];
        st_metric "Kurtosis" [Text "N/A"];
        st_metric "Shapiro-Wilk p-value" [Text "N/A"];
        st_metric "Cumulative Return" [Text "N/A"];
        st_metric "Value at Risk (95%)" [Text "N/A"];
        st_metric "Conditional VaR (95%)" [Text "N/A"];
        st_write metrics_explanation;
        st_plotly_chart
          {| fig_data := [Scatter returns "lines" "Daily Returns";
                          Scatter (pd_cumsum returns) "lines" "Cumulative Returns"];
             fig_title := "Portfolio Returns Over Time" |}]).
Proof.
  intros Hlen. unfold perform_portfolio_analysis, calculate_portfolio_metrics.
  destruct (Nat.ltb_spec (len returns) 2) as [_ | Hge]; [ | lia].
  rewrite bind_st. unfold bind at 1, lift at 1. cbv beta iota.
  unfold display_portfolio_metrics, plot_portfolio_returns.
  cbn [undefined_metrics metric_text return_ volatility sharpe_ratio skewness
       kurtosis shapiro_p_value cumulative_return var_95 cvar_95 np_isnan negb].
  run_st. rewrite !showing_showing. reflexivity.
Qed.

(** X15. When the normality test refuses a series of two or more returns, the
    analysis view raises its exception after the header: no metric is shown,
    not even those that were computed. *)
Theorem analysis_fails_with_normality_test
  (returns : ndarray) (e : exn) (w : world) :
  (2 <= length returns)%nat ->
  stats_shapiro scipy returns = Raise e ->
  perform_portfolio_analysis scipy frame_metrics (Series returns) w
  = (Raise e, showing w [st_header "Portfolio Analysis"]).
Proof.
  intros Hlen Hshapiro.
  unfold perform_portfolio_analysis, calculate_portfolio_metrics. simpl len.
  destruct (Nat.ltb_spec (length returns) 2) as [Hlt | _]; [lia | ].
  rewrite Hshapiro. unfold bind, lift. rewrite st_run. reflexivity.
Qed.

End AnalysisView.

(** The series [[0.01]]. *)
Lemma analysis_of_short_series_shows_na_witness :
  perform_portfolio_analysis sample_scipy no_frame_metrics
    (Series [Finite (1 / 100)]) (fresh_world (fun _ => 0))
  = (Return tt,
     showing (fresh_world (fun _ => 0))
       [st_header "Portfolio Analysis";
        st_subheader "Portfolio Metrics";
        st_metric "Annual Return" [Text "N/A"];
        st_metric "Annual Volatility" [Text "N/A"];
        st_metric "Sharpe Ratio" [Text "N/A"];
        st_metric "Skewness" [Text "N/A"];
        st_metric "Kurtosis" [Text "N/A"];
        st_metric "Shapiro-Wilk p-value" [Text "N/A"];
        st_metric "Cumulative Return" [Text "N/A"];
        st_metric "Value at Risk (95%)" [Text "N/A"];
        st_metric "Conditional VaR (95%)" [Text "N/A"];
        st_write metrics_explanation;
        st_plotly_chart
          {| fig_data :=
               [Scatter (Series [Finite (1 / 100)]) "lines" "Daily Returns";
                Scatter (pd_cumsum (Series [Finite (1 / 100)])) "lines"
                  "Cumulative Returns"];
             fig_title := "Portfolio Returns Over Time" |}]).
Proof.
  apply (analysis_of_short_series_shows_na sample_scipy no_frame_metrics
           (Series [Finite (1 / 100)]) (fresh_world (fun _ => 0))).
  simpl. lia.
Defined.

(** Two returns, with a normality test that wants three. *)
Lemma analysis_fails_with_normality_test_witness :
  perform_portfolio_analysis strict_scipy no_frame_metrics
    (Series [Finite (1 / 100); Finite (3 / 100)]) (fresh_world (fun _ => 0))
  = (Raise {| exn_class := "ValueError";
              exn_msg := "Data must be at least length 3." |},
     showing (fresh_world (fun _ => 0)) [st_header "Portfolio Analysis"]).
Proof.
  apply (analysis_fails_with_normality_test strict_scipy no_frame_metrics
           [Finite (1 / 100); Finite (3 / 100)]).
  - simpl. lia.
  - reflexivity.
Defined.

(** ** The optimisation view *)

Lemma Rsum_repeat (c : R) (n : nat) : Rsum (repeat c n) = INR n * c.
Proof.
  induction n as [| n IH]; unfold Rsum.
  - simpl. ring.
  - cbn [repeat fold_right]. fold (Rsum (repeat c n)). rewrite IH, S_INR. ring.
Qed.

Lemma within_bounds_repeat (c : R) (n : nat) :
  0 <= c <= 1 -> within_bounds (repeat (Finite c) n) (bounds n) = true.
Proof.
  intros Hc. unfold bounds. induction n as [| n IH]; simpl; [reflexivity | ].
  rewrite IH. unfold within_bound. cbn [fst snd].
  rewrite !fleb_true by lra. reflexivity.
Qed.

(** The uniform guess satisfies the bounds and the constraint the solver
    is given with it. *)
Lemma uniform_guess_feasible (n : nat) :
  n <> 0%nat ->
  feasible (repeat (Finite (1 / INR n)) n) (bounds n) constraints = true.
Proof.
  intros Hn.
  assert (Hpos : 0 < INR n) by (apply lt_0_INR; lia).
  assert (Hle : 1 <= INR n).
  { replace 1 with (INR 1) by reflexivity. apply le_INR. lia. }
  assert (Hc : 0 <= 1 / INR n <= 1).
  { split.
    - apply Rmult_le_pos; [lra | left; apply Rinv_0_lt_compat, Hpos].
    - apply Rmult_le_reg_r with (INR n); [exact Hpos | ].
      unfold Rdiv. rewrite Rmult_assoc, Rinv_l by lra. lra. }
  unfold feasible. rewrite (within_bounds_repeat _ n Hc).
  unfold constraints. cbn [fun_].
  rewrite <- (map_repeat Finite), np_sum_finite, Rsum_repeat.
  unfold tolerance. cbn [fsub fneg fadd].
  replace (INR n * (1 / INR n) + - (1)) with 0 by (field; lra).
  rewrite !fleb_true by lra. reflexivity.
Qed.

(** X16. The initial guess of both optimisers, [1/n] for each of [n >= 1]
    assets, is itself within the bounds and the constraint given to the
    solver: the weights lie in [[0, 1]] and sum to 1. *)
Theorem initial_guess_is_feasible (n : nat) :
  n <> 0%nat ->
  exists x0 : ndarray,
    initial_guess n = Return x0
    /\ length x0 = n
    /\ feasible x0 (bounds n) constraints = true
    /\ valid_weights x0.
Proof.
  intros Hn. exists (repeat (Finite (1 / INR n)) n).
  split; [apply initial_guess_positive, Hn | ].
  split; [apply repeat_length | ].
  split; [apply uniform_guess_feasible, Hn | ].
  apply (feasible_valid _ n). apply uniform_guess_feasible, Hn.
Qed.

(** Three assets. *)
Lemma initial_guess_is_feasible_witness :
  exists x0 : ndarray,
    initial_guess 3 = Return x0
    /\ length x0 = 3%nat
    /\ feasible x0 (bounds 3) constraints = true
    /\ valid_weights x0.
Proof.
  apply (initial_guess_is_feasible 3). discriminate.
Defined.

(** ** C7: the weights the optimisers return *)

Section ReturnedWeights.

Variable scipy : scipy_lib.
Variable returns : DataFrame.
Variable cov_matrix : list ndarray.
Variable risk_free_rate : float64.


End ReturnedWeights.



Section OptimizationView.

Variable scipy : scipy_lib.
Variable widget : widgets.
Variable returns : DataFrame.
Variable portfolio : holdings.

(** X17. With fewer than two stocks the optimisation view shows its header and
    a warning and returns: the solver is not called and no weights are shown.
    *)
Theorem optimization_refuses_small_portfolio (w : world) :
  (length portfolio < 2)%nat ->
  perform_portfolio_optimization scipy widget returns portfolio w
  = (Return tt,
     showing w
       [st_header "Portfolio Optimization";
        st_warning "Portfolio optimization requires at least two stocks. Add more stocks to optimize your portfolio."]).
Proof.
  intros Hlen. unfold perform_portfolio_optimization.
  destruct (Nat.ltb_spec (length portfolio) 2) as [_ | Hge]; [ | lia].
  unfold bind. rewrite !st_run. unfold showing.
  cbn [st_calls np_random user_files]. rewrite <- app_assoc. reflexivity.
Qed.

(** X18. With two stocks or more, the optimisation view raises after its
    header, showing no weights, when the returns have no column (the initial
    guess [1 / 0] is a [ZeroDivisionError]) and when the solver raises on the
    maximum Sharpe ratio problem. *)
Theorem optimization_fails_before_showing (w : world) :
  (2 <= length portfolio)%nat ->
  (columns returns = [] ->
   perform_portfolio_optimization scipy widget returns portfolio w
   = (Raise {| exn_class := "ZeroDivisionError";
               exn_msg := "float division by zero" |},
      showing w [st_header "Portfolio Optimization"]))
  /\ (forall e,
        columns returns <> [] ->
        minimize scipy
          (fun x => negative_sharpe_ratio x returns (df_cov returns)
                      (number_input widget "Enter risk-free rate:"))
          (repeat (Finite (1 / INR (length (columns returns))))
             (length (columns returns)))
          (Some "SLSQP") (bounds (length (columns returns))) constraints
        = Raise e ->
        perform_portfolio_optimization scipy widget returns portfolio w
        = (Raise e, showing w [st_header "Portfolio Optimization"])).
Proof.
  intros Hlen. split.
  - intros Hcols. unfold perform_portfolio_optimization.
    destruct (Nat.ltb_spec (length portfolio) 2) as [Hlt | _]; [lia | ].
    unfold bind at 1. rewrite st_run. unfold bind at 1, lift at 1.
    unfold maximize_sharpe_ratio. rewrite Hcols. reflexivity.
  - intros e Hcols Hsolver. unfold perform_portfolio_optimization.
    destruct (Nat.ltb_spec (length portfolio) 2) as [Hlt | _]; [lia | ].
    unfold bind at 1. rewrite st_run. unfold bind at 1, lift at 1.
    unfold maximize_sharpe_ratio.
    rewrite initial_guess_positive
      by (destruct (columns returns); [contradiction | discriminate]).
    rewrite Hsolver. reflexivity.
Qed.

End OptimizationView.

(** One stock held. *)
Lemma optimization_refuses_small_portfolio_witness :
  perform_portfolio_optimization sample_scipy default_widgets flat_returns
    [("AAPL", Finite 10)] (fresh_world (fun _ => 0))
  = (Return tt,
     showing (fresh_world (fun _ => 0))
       [st_header "Portfolio Optimization";
        st_warning "Portfolio optimization requires at least two stocks. Add more stocks to optimize your portfolio."]).
Proof.
  apply (optimization_refuses_small_portfolio sample_scipy default_widgets
           flat_returns [("AAPL", Finite 10)] (fresh_world (fun _ => 0))).
  simpl. lia.
Defined.

(** Two stocks held, and returns without a column. *)
Lemma optimization_fails_before_showing_witness :
  perform_portfolio_optimization sample_scipy default_widgets no_columns
    two_stocks (fresh_world (fun _ => 0))
  = (Raise {| exn_class := "ZeroDivisionError";
              exn_msg := "float division by zero" |},
     showing (fresh_world (fun _ => 0)) [st_header "Portfolio Optimization"]).
Proof.
  apply (proj1 (optimization_fails_before_showing sample_scipy default_widgets
                  no_columns two_stocks (fresh_world (fun _ => 0))
                  ltac:(simpl; lia))).
  reflexivity.
Defined.

Lemma Rsign_opp (x : R) : Rsign (- x) = CompOpp (Rsign x).
Proof.
  destruct (Rtotal_order x 0) as [Hneg | [Hzero | Hpos]].
  - rewrite (Rsign_neg x Hneg), Rsign_pos by lra. reflexivity.
  - subst x. rewrite Ropp_0, Rsign_zero. reflexivity.
  - rewrite (Rsign_pos x Hpos), Rsign_neg by lra. reflexivity.
Qed.

Lemma fneg_signed_inf (s : comparison) :
  fneg (signed_inf s) = signed_inf (CompOpp s).
Proof. destruct s; reflexivity. Qed.

Lemma fneg_involutive (a : float64) : fneg (fneg a) = a.
Proof. destruct a; simpl; try reflexivity. f_equal. ring. Qed.

(** Negating the dividend negates the quotient, divisions by zero and
    infinities included. *)
Lemma fdiv_fneg_l (a b : float64) : (fneg a / b)%f64 = fneg (a / b)%f64.
Proof.
  destruct a as [x | | | ], b as [y | | | ]; simpl; try reflexivity.
  - destruct (Req_EM_T y 0).
    + rewrite Rsign_opp, fneg_signed_inf. reflexivity.
    + simpl. f_equal. field. assumption.
  - f_equal. ring.
  - f_equal. ring.
  - destruct (Req_EM_T y 0); [reflexivity | ].
    destruct (Rsign y); reflexivity.
  - destruct (Req_EM_T y 0); [reflexivity | ].
    destruct (Rsign y); reflexivity.
Qed.

Lemma df_mean_length (df : DataFrame) :
  length (df_mean df) = length (columns df).
Proof. unfold df_mean. rewrite length_map, length_seq. reflexivity. Qed.

Lemma df_cov_rows (df : DataFrame) :
  Forall (fun row => length row = length (columns df)) (df_cov df).
Proof.
  unfold df_cov. apply Forall_forall. intros row Hrow.
  apply in_map_iff in Hrow. destruct Hrow as [i [Hi _]]. subst row.
  rewrite length_map, length_seq. reflexivity.
Qed.

(** A square matrix of the weights' size is as wide as the weights are
    many. *)
Lemma shape_aligned (cov_matrix : list ndarray) (weights : ndarray) :
  length cov_matrix = length weights ->
  Forall (fun row => length row = length weights) cov_matrix ->
  snd (shape cov_matrix) = length weights.
Proof.
  intros Hlen Hrows. destruct cov_matrix as [| row rest].
  - simpl in *. exact Hlen.
  - apply Forall_cons_iff in Hrows. destruct Hrows as [Hrow _]. exact Hrow.
Qed.

Lemma portfolio_return_aligned (weights : ndarray) (returns : DataFrame) :
  length weights = length (columns returns) ->
  portfolio_return weights returns
  = Return (pd_sum (map (fun p => fst p * snd p)
                        (combine (df_mean returns) weights))
            * Finite 252)%f64.
Proof.
  intros Hlen. unfold portfolio_return.
  rewrite df_mean_length, Hlen, Nat.eqb_refl. reflexivity.
Qed.

Lemma portfolio_volatility_aligned
  (weights : ndarray) (cov_matrix : list ndarray) :
  length cov_matrix = length weights ->
  Forall (fun row => length row = length weights) cov_matrix ->
  portfolio_volatility weights cov_matrix
  = Return (np_sqrt (inner_product weights
                       (map (fun row => inner_product row weights) cov_matrix))
            * np_sqrt (Finite 252))%f64.
Proof.
  intros Hlen Hrows. unfold portfolio_volatility, np_dot_matrix, np_dot.
  rewrite (shape_aligned _ _ Hlen Hrows), Nat.eqb_refl. cbn [and_then].
  rewrite length_map, Hlen, Nat.eqb_refl. reflexivity.
Qed.

(** X19. For a weight vector with one weight per column and a square
    covariance matrix of that size, [display_optimal_portfolio] shows the
    return, the volatility and a Sharpe ratio that is the objective of the
    maximum Sharpe ratio problem at that vector with the sign changed,
    whatever the values: what the solver minimised is minus what is
    shown. *)
Theorem shown_sharpe_is_minus_objective
  (weights : ndarray) (returns : DataFrame) (cov_matrix : list ndarray)
  (risk_free_rate : float64) (w : world) :
  length weights = length (columns returns) ->
  length cov_matrix = length weights ->
  Forall (fun row => length row = length weights) cov_matrix ->
  exists p_return p_volatility objective : float64,
    portfolio_return weights returns = Return p_return
    /\ portfolio_volatility weights cov_matrix = Return p_volatility
    /\ negative_sharpe_ratio weights returns cov_matrix risk_free_rate
       = Return objective
    /\ display_optimal_portfolio weights returns cov_matrix risk_free_rate w
       = (Return tt,
          showing w
            [st_metric "Expected Annual Return" [Value p_return ".2%"];
             st_metric "Expected Annual Volatility" [Value p_volatility ".2%"];
             st_metric "Sharpe Ratio" [Value (fneg objective) ".2f"];
             st_plotly_chart
               {| fig_data := [Pie (columns returns) weights (3 / 10)];
                  fig_title := "Optimal Portfolio Composition" |}]).
Proof.
  intros Hlen Hsquare Hrows.
  pose proof (portfolio_return_aligned weights returns Hlen) as Hreturn.
  pose proof (portfolio_volatility_aligned weights cov_matrix Hsquare Hrows)
    as Hvolatility.
  eexists. eexists. eexists.
  split; [exact Hreturn | ]. split; [exact Hvolatility | ]. split.
  - unfold negative_sharpe_ratio. rewrite Hreturn, Hvolatility. reflexivity.
  - unfold display_optimal_portfolio.
    unfold bind at 1, lift at 1. rewrite Hreturn.
    unfold bind at 1, lift at 1. rewrite Hvolatility.
    rewrite Hlen, Nat.eqb_refl. rewrite fdiv_fneg_l, fneg_involutive.
    run_st. rewrite !showing_showing. reflexivity.
Qed.

(** Equal weights on the two stocks of [spread_returns]. *)
Lemma shown_sharpe_is_minus_objective_witness :
  exists p_return p_volatility objective : float64,
    portfolio_return [Finite (1 / 2); Finite (1 / 2)] spread_returns
      = Return p_return
    /\ portfolio_volatility [Finite (1 / 2); Finite (1 / 2)]
         (df_cov spread_returns) = Return p_volatility
    /\ negative_sharpe_ratio [Finite (1 / 2); Finite (1 / 2)] spread_returns
         (df_cov spread_returns) (Finite (1 / 50)) = Return objective
    /\ display_optimal_portfolio [Finite (1 / 2); Finite (1 / 2)] spread_returns
         (df_cov spread_returns) (Finite (1 / 50)) (fresh_world (fun _ => 0))
       = (Return tt,
          showing (fresh_world (fun _ => 0))
            [st_metric "Expected Annual Return" [Value p_return ".2%"];
             st_metric "Expected Annual Volatility" [Value p_volatility ".2%"];
             st_metric "Sharpe Ratio" [Value (fneg objective) ".2f"];
             st_plotly_chart
               {| fig_data :=
                    [Pie (columns spread_returns)
                       [Finite (1 / 2); Finite (1 / 2)] (3 / 10)];
                  fig_title := "Optimal Portfolio Composition" |}]).
Proof.
  apply (shown_sharpe_is_minus_objective [Finite (1 / 2); Finite (1 / 2)]
           spread_returns (df_cov spread_returns) (Finite (1 / 50))
           (fresh_world (fun _ => 0))).
  - reflexivity.
  - apply df_cov_length.
  - apply (df_cov_rows spread_returns).
Defined.

(** ** More on the Monte Carlo simulation *)

Section MonteCarloEdges.

Variable widget : widgets.
Variable returns : DataFrame.
Variable portfolio : holdings.

(** X20. With two stocks or more but not a single day of returns, the
    simulation raises an [IndexError] after its header: the simulated array
    has no last column. No variate is used up and nothing else is shown. *)
Theorem monte_carlo_needs_a_day (w : world) :
  (2 <= length portfolio)%nat ->
  rows returns = [] ->
  exists w' : world,
    perform_monte_carlo_var widget returns portfolio w
    = (Raise {| exn_class := "IndexError";
                exn_msg := "index -1 is out of bounds for axis 1 with size 0" |},
       w')
    /\ st_calls w' = st_calls w ++ [st_header "Monte Carlo VaR Simulation"]
    /\ (forall k, np_random w' k = np_random w k)
    /\ user_files w' = user_files w.
Proof.
  intros Hlen Hrows. eexists. split.
  - apply (monte_carlo_run_no_data widget returns portfolio w Hlen Hrows).
  - cbn [st_calls np_random user_files]. split; [reflexivity | ].
    split; [ | reflexivity]. intros k. f_equal. lia.
Qed.

Lemma concat_single_rows {A : Type} (d : A) (a : list (list A)) :
  Forall (fun row => length row = 1%nat) a ->
  forall mask : list bool,
    concat (boolean_index a mask) = boolean_index (map (fun row => last row d) a) mask.
Proof.
  induction 1 as [| row a Hrow _ IH]; intros mask; [reflexivity | ].
  destruct mask as [| b mask]; [reflexivity | ].
  destruct row as [| x [| y row]]; try discriminate.
  simpl. destruct b; simpl; rewrite IH; reflexivity.
Qed.

(** X21. With a single day of returns every simulated path has one step, and
    the conditional value at risk shown is the mean of the terminal values at
    or below the value at risk shown. *)
Theorem one_day_cvar_is_tail_mean (w : world) :
  (2 <= length portfolio)%nat ->
  length (rows returns) = 1%nat ->
  exists terminal : ndarray,
    perform_monte_carlo_var widget returns portfolio w
    = (Return tt,
       {| st_calls :=
            st_calls w ++
            [st_header "Monte Carlo VaR Simulation";
             st_metric "Value at Risk (95%)"
               [Value (np_percentile terminal 5) ".2%"];
             st_metric "Conditional VaR (95%)"
               [Value (np_mean (boolean_index terminal
                                  (le_mask terminal (np_percentile terminal 5))))
                  ".2%"];
             st_subheader "Monte Carlo Simulation Distribution";
             st_plotly_chart
               {| fig_data := [Histogram terminal 50];
                  fig_title := "Distribution of Simulated Portfolio Values" |}];
          np_random :=
            fun k => np_random w (slider widget "Number of iterations" * 1 + k)%nat;
          user_files := user_files w |})
    /\ length terminal = slider widget "Number of iterations".
Proof.
  intros Hlen Hday.
  assert (Hrows : rows returns <> [])
    by (destruct (rows returns); [discriminate | discriminate]).
  rewrite (monte_carlo_run widget returns portfolio w Hlen Hrows).
  cbv zeta. rewrite Hday.
  set (paths := simulated_paths
                  (normal_matrix (np_random w)
                     (pd_mean (map pd_mean (rows returns)))
                     (pd_mean (map pd_std (rows returns)))
                     (slider widget "Number of iterations") 1)).
  exists (map (fun row => last row NaN) paths). split.
  - unfold monte_carlo_calls. fold paths. unfold np_mean2.
    rewrite (concat_single_rows NaN paths); [reflexivity | ].
    unfold paths, simulated_paths, normal_matrix.
    apply Forall_forall. intros row Hrow.
    apply in_map_iff in Hrow. destruct Hrow as [r [Hr Hin]]. subst row.
    apply in_map_iff in Hin. destruct Hin as [i [Hi _]]. subst r.
    reflexivity.
  - unfold paths, simulated_paths, normal_matrix.
    rewrite !length_map, length_seq. reflexivity.
Qed.

End MonteCarloEdges.

(** Two stocks held, and a frame without a row. *)
Lemma monte_carlo_needs_a_day_witness :
  exists w' : world,
    perform_monte_carlo_var thousand_iterations
      {| columns := ["AAPL"; "MSFT"]; rows := [] |} two_stocks
      (fresh_world (fun _ => 0))
    = (Raise {| exn_class := "IndexError";
                exn_msg := "index -1 is out of bounds for axis 1 with size 0" |},
       w')
    /\ st_calls w'
       = st_calls (fresh_world (fun _ => 0))
         ++ [st_header "Monte Carlo VaR Simulation"]
    /\ (forall k, np_random w' k = np_random (fresh_world (fun _ => 0)) k)
    /\ user_files w' = user_files (fresh_world (fun _ => 0)).
Proof.
  apply (monte_carlo_needs_a_day thousand_iterations
           {| columns := ["AAPL"; "MSFT"]; rows := [] |} two_stocks
           (fresh_world (fun _ => 0))).
  - simpl. lia.
  - reflexivity.
Defined.

(** Two stocks held, and a single day of returns. *)
Lemma one_day_cvar_is_tail_mean_witness :
  exists terminal : ndarray,
    perform_monte_carlo_var thousand_iterations one_day_returns two_stocks
      (fresh_world low_then_high)
    = (Return tt,
       {| st_calls :=
            st_calls (fresh_world low_then_high) ++
            [st_header "Monte Carlo VaR Simulation";
             st_metric "Value at Risk (95%)"
               [Value (np_percentile terminal 5) ".2%"];
             st_metric "Conditional VaR (95%)"
               [Value (np_mean (boolean_index terminal
                                  (le_mask terminal (np_percentile terminal 5))))
                  ".2%"];
             st_subheader "Monte Carlo Simulation Distribution";
             st_plotly_chart
               {| fig_data := [Histogram terminal 50];
                  fig_title := "Distribution of Simulated Portfolio Values" |}];
          np_random :=
            fun k => np_random (fresh_world low_then_high)
                       (slider thousand_iterations "Number of iterations" * 1 + k)%nat;
          user_files := user_files (fresh_world low_then_high) |})
    /\ length terminal = slider thousand_iterations "Number of iterations".
Proof.
  apply (one_day_cvar_is_tail_mean thousand_iterations one_day_returns two_stocks
           (fresh_world low_then_high)).
  - simpl. lia.
  - reflexivity.
Defined.

(** *** Simulated values are positive *)

Lemma normal_matrix_finite (z : nat -> R) (mu sigma : R) (n t : nat) :
  normal_matrix z (Finite mu) (Finite sigma) n t
  = map (map Finite)
      (map (fun i => map (fun j => mu + sigma * z (i * t + j)%nat) (seq 0 t))
           (seq 0 n)).
Proof.
  unfold normal_matrix. rewrite map_map. apply map_ext. intros i.
  rewrite map_map. reflexivity.
Qed.

(** The running sums of a list of reals, from [acc]. *)
Lemma cumsum_from_finite (acc : R) (r : list R) :
  exists c : list R,
    cumsum_from (Finite acc) (map Finite r) = map Finite c
    /\ length c = length r.
Proof.
  revert acc. induction r as [| x r IH]; intros acc.
  - exists []. split; reflexivity.
  - destruct (IH (acc + x)) as [c [Hc Hlen]].
    exists ((acc + x) :: c). simpl. rewrite Hc, Hlen. split; reflexivity.
Qed.

(** A simulated path of finite returns holds positive numbers, as many as
    there are steps. *)
Lemma simulated_path_positive (r : list R) :
  exists p : list R,
    map np_exp (np_cumsum (map Finite r)) = map Finite p
    /\ length p = length r
    /\ Forall (fun x => 0 < x) p.
Proof.
  destruct r as [| x r].
  - exists []. repeat split. constructor.
  - destruct (cumsum_from_finite x r) as [c [Hc Hlen]].
    exists (map exp (x :: c)). split; [ | split].
    + simpl. rewrite Hc, !map_map. reflexivity.
    + simpl. rewrite length_map, Hlen. reflexivity.
    + apply Forall_forall. intros y Hy. apply in_map_iff in Hy.
      destruct Hy as [s [Hs _]]. subst y. apply exp_pos.
Qed.

Lemma simulated_paths_positive (sims : list (list R)) (t : nat) :
  Forall (fun r => length r = t) sims ->
  exists ps : list (list R),
    simulated_paths (map (map Finite) sims) = map (map Finite) ps
    /\ length ps = length sims
    /\ Forall (fun p => length p = t /\ Forall (fun x => 0 < x) p) ps.
Proof.
  induction 1 as [| r sims Hr _ IH].
  - exists []. repeat split. constructor.
  - destruct IH as [ps [Hps [Hlen Hall]]].
    destruct (simulated_path_positive r) as [p [Hp [Hplen Hppos]]].
    exists (p :: ps). split; [ | split].
    + unfold simulated_paths in *. simpl. rewrite Hp, Hps. reflexivity.
    + simpl. rewrite Hlen. reflexivity.
    + constructor; [ | exact Hall]. split; [lia | exact Hppos].
Qed.

Lemma last_map_finite (p : list R) :
  p <> [] -> last (map Finite p) NaN = Finite (last p 0).
Proof.
  induction p as [| x p IH]; intros Hp; [contradiction | ].
  destruct p as [| y p]; [reflexivity | ].
  change (last (map Finite (x :: y :: p)) NaN) with (last (map Finite (y :: p)) NaN).
  rewrite IH by discriminate. reflexivity.
Qed.

Lemma last_positive (p : list R) :
  p <> [] -> Forall (fun x => 0 < x) p -> 0 < last p 0.
Proof.
  intros Hp Hall. rewrite Forall_forall in Hall. apply Hall.
  destruct p as [| x p]; [contradiction | ].
  clear Hp Hall. revert x. induction p as [| y p IH]; intros x.
  - left. reflexivity.
  - right. apply IH.
Qed.

Lemma boolean_index_map {A B : Type} (f : A -> B) (a : list A) (mask : list bool) :
  boolean_index (map f a) mask = map f (boolean_index a mask).
Proof.
  revert mask. induction a as [| x a IH]; intros mask; [reflexivity | ].
  destruct mask as [| b mask]; [reflexivity | ].
  simpl. destruct b; simpl; rewrite IH; reflexivity.
Qed.

Lemma concat_map_finite (a : list (list R)) :
  concat (map (map Finite) a) = map Finite (concat a).
Proof.
  induction a as [| r a IH]; simpl; [reflexivity | ].
  rewrite IH, map_app. reflexivity.
Qed.

Lemma Rmean_pos (l : list R) : l <> [] -> Forall (fun x => 0 < x) l -> 0 < Rmean l.
Proof.
  intros Hl Hall. destruct l as [| x l]; [contradiction | ].
  apply Forall_cons_iff in Hall. destruct Hall as [Hx Hall].
  unfold Rmean. apply Rmult_lt_0_compat.
  - unfold Rsum. simpl. fold (Rsum l).
    pose proof (Rsum_nonneg l
                  (Forall_impl _ (fun y (Hy : 0 < y) => Rlt_le _ _ Hy) Hall)).
    lra.
  - apply Rinv_0_lt_compat. apply lt_0_INR. simpl. lia.
Qed.

Section PositiveRisk.

Variable widget : widgets.
Variable returns : DataFrame.
Variable portfolio : holdings.

(** X22. When the mean and the volatility estimated from the returns are
    numbers, no simulated terminal value is a negative number, nor is the
    value at risk or the conditional value at risk shown: they are values of
    the simulated portfolio (about 1), not losses. *)
Theorem simulated_risk_is_not_negative (w : world) (mu sigma : R) :
  (2 <= length portfolio)%nat ->
  rows returns <> [] ->
  (0 < slider widget "Number of iterations")%nat ->
  pd_mean (map pd_mean (rows returns)) = Finite mu ->
  pd_mean (map pd_std (rows returns)) = Finite sigma ->
  exists (terminal : ndarray) (var_95 cvar_95 : float64),
    perform_monte_carlo_var widget returns portfolio w
    = (Return tt,
       {| st_calls :=
            st_calls w ++
            [st_header "Monte Carlo VaR Simulation";
             st_metric "Value at Risk (95%)" [Value var_95 ".2%"];
             st_metric "Conditional VaR (95%)" [Value cvar_95 ".2%"];
             st_subheader "Monte Carlo Simulation Distribution";
             st_plotly_chart
               {| fig_data := [Histogram terminal 50];
                  fig_title := "Distribution of Simulated Portfolio Values" |}];
          np_random :=
            fun k => np_random w
                       (slider widget "Number of iterations"
                        * length (rows returns) + k)%nat;
          user_files := user_files w |})
    /\ length terminal = slider widget "Number of iterations"
    /\ Forall not_negative terminal
    /\ not_negative var_95
    /\ not_negative cvar_95.
Proof.
  intros Hlen Hrows Hn Hmu Hsigma.
  rewrite (monte_carlo_run widget returns portfolio w Hlen Hrows).
  cbv zeta. rewrite Hmu, Hsigma, normal_matrix_finite.
  set (n := slider widget "Number of iterations") in *.
  set (t := length (rows returns)).
  assert (Ht : (0 < t)%nat)
    by (unfold t; destruct (rows returns); [contradiction | simpl; lia]).
  set (sims := map (fun i => map (fun j => mu + sigma * np_random w (i * t + j)%nat)
                                 (seq 0 t)) (seq 0 n)).
  assert (Hshape : Forall (fun r => length r = t) sims).
  { apply Forall_forall. intros r Hr. unfold sims in Hr.
    apply in_map_iff in Hr. destruct Hr as [i [Hi _]]. subst r.
    rewrite length_map, length_seq. reflexivity. }
  destruct (simulated_paths_positive sims t Hshape) as [ps [Hps [Hpslen Hpos]]].
  rewrite Hps. rewrite Forall_forall in Hpos.
  assert (Hsims : length sims = n) by (unfold sims; rewrite length_map, length_seq; reflexivity).
  assert (Hne : forall p, In p ps -> p <> []).
  { intros p Hp Hnil. destruct (Hpos p Hp) as [Hl _]. subst p. simpl in Hl. lia. }
  set (ts := map (fun p => last p 0) ps).
  assert (Hterminal : map (fun row => last row NaN) (map (map Finite) ps)
                      = map Finite ts).
  { unfold ts. rewrite !map_map. apply map_ext_in. intros p Hp.
    apply last_map_finite, (Hne p Hp). }
  assert (Hts : Forall (fun x => 0 < x) ts).
  { apply Forall_forall. intros x Hx. unfold ts in Hx. apply in_map_iff in Hx.
    destruct Hx as [p [Hx Hp]]. subst x.
    apply last_positive; [apply (Hne p Hp) | apply (Hpos p Hp)]. }
  assert (Htsne : ts <> []).
  { intros Hnil. apply (f_equal (@length R)) in Hnil. unfold ts in Hnil.
    rewrite length_map, Hpslen, Hsims in Hnil. simpl in Hnil. lia. }
  destruct (np_percentile_between ts 5 Htsne ltac:(lia))
    as [v [a [b [Hv [Ha [_ Hav]]]]]].
  set (g := fun p : list R => fleb (Finite (last p 0)) (Finite v)).
  assert (Hsel : boolean_index (map (map Finite) ps) (le_mask (map Finite ts) (Finite v))
                 = map (map Finite) (filter g ps)).
  { rewrite boolean_index_map. f_equal. unfold le_mask, ts.
    rewrite !map_map. apply boolean_index_mask. }
  assert (Hselpos : Forall (fun x => 0 < x) (concat (filter g ps))).
  { apply Forall_forall. intros x Hx. apply in_concat in Hx.
    destruct Hx as [p [Hp Hx]]. apply filter_In in Hp. destruct Hp as [Hp _].
    destruct (Hpos p Hp) as [_ Hall]. rewrite Forall_forall in Hall.
    apply Hall, Hx. }
  assert (Hselne : concat (filter g ps) <> []).
  { unfold ts in Ha. apply in_map_iff in Ha. destruct Ha as [p [Hlast Hp]].
    assert (Hin : In p (filter g ps)).
    { apply filter_In. split; [exact Hp | ]. unfold g. rewrite Hlast.
      apply fleb_true. lra. }
    intros Hnil. pose proof (Hne p Hp) as Hpne.
    destruct p as [| x p]; [contradiction Hpne; reflexivity | ].
    assert (Hx : In x (concat (filter g ps))).
    { apply in_concat. exists (x :: p). split; [exact Hin | left; reflexivity]. }
    rewrite Hnil in Hx. exact Hx. }
  exists (map Finite ts), (Finite v), (Finite (Rmean (concat (filter g ps)))).
  split; [ | split; [ | split; [ | split]]].
  - unfold monte_carlo_calls. cbv zeta. rewrite Hterminal, Hv.
    unfold ndarray in *. rewrite Hsel.
    unfold np_mean2. rewrite concat_map_finite, (np_mean_finite _ Hselne).
    reflexivity.
  - unfold ts. rewrite !length_map, Hpslen, Hsims. reflexivity.
  - apply Forall_forall. intros x Hx. apply in_map_iff in Hx.
    destruct Hx as [y [Hy Hin]]. subst x. rewrite Forall_forall in Hts.
    simpl. left. apply (Hts y Hin).
  - rewrite Forall_forall in Hts. pose proof (Hts a Ha). simpl. lra.
  - simpl. left. apply Rmean_pos; assumption.
Qed.

End PositiveRisk.

(** A thousand paths from the returns of [spread_returns]. *)
Lemma simulated_risk_is_not_negative_witness :
  exists (terminal : ndarray) (var_95 cvar_95 : float64),
    perform_monte_carlo_var thousand_iterations spread_returns two_stocks
      (fresh_world low_then_high)
    = (Return tt,
       {| st_calls :=
            st_calls (fresh_world low_then_high) ++
            [st_header "Monte Carlo VaR Simulation";
             st_metric "Value at Risk (95%)" [Value var_95 ".2%"];
             st_metric "Conditional VaR (95%)" [Value cvar_95 ".2%"];
             st_subheader "Monte Carlo Simulation Distribution";
             st_plotly_chart
               {| fig_data := [Histogram terminal 50];
                  fig_title := "Distribution of Simulated Portfolio Values" |}];
          np_random :=
            fun k => np_random (fresh_world low_then_high)
                       (slider thousand_iterations "Number of iterations"
                        * length (rows spread_returns) + k)%nat;
          user_files := user_files (fresh_world low_then_high) |})
    /\ length terminal = slider thousand_iterations "Number of iterations"
    /\ Forall not_negative terminal
    /\ not_negative var_95
    /\ not_negative cvar_95.
Proof.
  apply (simulated_risk_is_not_negative thousand_iterations spread_returns
           two_stocks (fresh_world low_then_high) (1 / 100) (1 / 100)).
  - simpl. lia.
  - discriminate.
  - simpl. lia.
  - exact spread_loc.
  - exact spread_scale.
Defined.

(** *** A market that stands still *)

Lemma cumsum_from_zeros (k : nat) :
  cumsum_from (Finite 0) (repeat (Finite 0) k) = repeat (Finite 0) k.
Proof.
  induction k as [| k IH]; simpl; [reflexivity | ].
  replace (0 + 0) with 0 by ring. rewrite IH. reflexivity.
Qed.

Lemma np_cumsum_zeros (t : nat) :
  np_cumsum (repeat (Finite 0) t) = repeat (Finite 0) t.
Proof.
  destruct t as [| t]; simpl; [reflexivity | ].
  rewrite cumsum_from_zeros. reflexivity.
Qed.

Lemma last_repeat {A : Type} (a d : A) (t : nat) :
  (0 < t)%nat -> last (repeat a t) d = a.
Proof.
  intros Ht. destruct t as [| t]; [lia | ]. clear Ht.
  induction t as [| t IH]; [reflexivity | ].
  change (last (repeat a (S (S t))) d) with (last (repeat a (S t)) d). exact IH.
Qed.

Section StillMarket.

Variable widget : widgets.
Variable returns : DataFrame.
Variable portfolio : holdings.

(** X23. When the mean and the volatility estimated from the returns are both
    0, as for returns that are all 0, every simulated path stays at 1 whatever
    the generator yields: the terminal values, the value at risk and the
    conditional value at risk shown are all 1. *)
Theorem still_market_simulates_ones (w : world) :
  (2 <= length portfolio)%nat ->
  rows returns <> [] ->
  (0 < slider widget "Number of iterations")%nat ->
  pd_mean (map pd_mean (rows returns)) = Finite 0 ->
  pd_mean (map pd_std (rows returns)) = Finite 0 ->
  perform_monte_carlo_var widget returns portfolio w
  = (Return tt,
     {| st_calls :=
          st_calls w ++
          uniform_report 1 1 (slider widget "Number of iterations");
        np_random :=
          fun k => np_random w
                     (slider widget "Number of iterations"
                      * length (rows returns) + k)%nat;
        user_files := user_files w |}).
Proof.
  intros Hlen Hrows Hn Hmu Hsigma.
  rewrite (monte_carlo_run widget returns portfolio w Hlen Hrows).
  cbv zeta. rewrite Hmu, Hsigma.
  rewrite (normal_matrix_uniform _ 0 0 0) by (intros; ring).
  set (n := slider widget "Number of iterations") in *.
  set (t := length (rows returns)).
  assert (Ht : (0 < t)%nat)
    by (unfold t; destruct (rows returns); [contradiction | simpl; lia]).
  unfold monte_carlo_calls, simulated_paths, uniform_report.
  rewrite !map_repeat, np_cumsum_zeros, map_repeat. cbn [np_exp].
  rewrite exp_0, (last_repeat _ _ t Ht).
  rewrite (np_percentile_repeat 1 n 5 Hn) by lia.
  rewrite le_mask_repeat, boolean_index_all.
  rewrite <- (map_repeat Finite 1 t).
  unfold ndarray in *.
  rewrite (np_mean2_repeat (repeat 1 t) n Hn)
    by (destruct t; [lia | discriminate]).
  rewrite (Rmean_repeat 1 t Ht). reflexivity.
Qed.

End StillMarket.

Lemma still_loc : pd_mean (map pd_mean (rows still_returns)) = Finite 0.
Proof.
  cbn [rows still_returns map].
  change [Finite 0; Finite 0] with (map Finite [0; 0]).
  rewrite pd_mean_finite by discriminate. rewrite Rmean_pair.
  change [Finite 0; Finite 0] with (map Finite [0; 0]).
  rewrite pd_mean_finite by discriminate. rewrite Rmean_pair. reflexivity.
Qed.

Lemma still_scale : pd_mean (map pd_std (rows still_returns)) = Finite 0.
Proof.
  cbn [rows still_returns map].
  change [Finite 0; Finite 0] with (map Finite [0; 0]).
  rewrite pd_std_finite by discriminate. rewrite Rstd_pair.
  change [Finite 0; Finite 0] with (map Finite [0; 0]).
  rewrite pd_mean_finite by discriminate. rewrite Rmean_pair. reflexivity.
Qed.

(** Two stocks that did not move, and a generator that does. *)
Lemma still_market_simulates_ones_witness :
  perform_monte_carlo_var thousand_iterations still_returns two_stocks
    (fresh_world low_then_high)
  = (Return tt,
     {| st_calls :=
          st_calls (fresh_world low_then_high) ++
          uniform_report 1 1 (slider thousand_iterations "Number of iterations");
        np_random :=
          fun k => np_random (fresh_world low_then_high)
                     (slider thousand_iterations "Number of iterations"
                      * length (rows still_returns) + k)%nat;
        user_files := user_files (fresh_world low_then_high) |}).
Proof.
  apply (still_market_simulates_ones thousand_iterations still_returns two_stocks
           (fresh_world low_then_high)).
  - simpl. lia.
  - discriminate.
  - simpl. lia.
  - exact still_loc.
  - exact still_scale.
Defined.

(** ** The interface as a whole *)

Lemma display_current_portfolio_total {price_table : Type}
  (yf : market_data price_table) (portfolio : holdings) (w : world) :
  exists w', display_current_portfolio yf portfolio w = (Return tt, w').
Proof.
  destruct portfolio as [| h rest].
  - eexists. reflexivity.
  - destruct (for_each_returns
                (fun row => get_stock_value yf (fst row) (snd row))
                (fun a w0 => get_stock_value_returns yf (fst a) (snd a) w0)
                (h :: rest) w) as [values [w1 [Hrun _]]].
    eexists. unfold display_current_portfolio. unfold bind at 1. rewrite Hrun.
    unfold bind. rewrite !st_run. reflexivity.
Qed.

(** ** C4: what becomes of an exception *)

(** Once the prices are downloaded and the portfolio's returns computed,
    [process_portfolio] shows the sidebar title and runs the chosen
    view. *)
Lemma process_portfolio_view (scipy : scipy_lib) {price_table : Type}
  (yf : market_data price_table) (widget : widgets)
  (frame_metrics : DataFrame -> outcome MetricsResult)
  (portfolio : holdings) (w w1 : world) (data data' : price_table)
  (returns : DataFrame) (portfolio_returns : pandas_obj) :
  download_adj_close yf (keys portfolio) w = (Return data, w1) ->
  (if (length portfolio =? 1)%nat then to_frame yf data
   else if (length portfolio =? 2)%nat then fillna_pad yf data
        else Return data) = Return data' ->
  pct_change_dropna yf data' = Return returns ->
  aggregate_returns returns (holdings_weights portfolio)
    = Return portfolio_returns ->
  process_portfolio scipy yf widget frame_metrics portfolio w
  = selected_view scipy yf widget frame_metrics
      (sidebar_radio widget "Choose Analysis" analysis_options)
      portfolio_returns returns portfolio
      (showing w1 [st_sidebar_title "Navigation"]).
Proof.
  intros Hdownload Hprepare Hpct Haggregate.
  unfold process_portfolio. unfold bind at 1. rewrite Hdownload.
  unfold keys at 1 2. rewrite length_map.
  unfold bind at 1, lift at 1. rewrite Hprepare.
  unfold bind at 1, lift at 1. rewrite Hpct.
  unfold bind at 1, lift at 1. rewrite Haggregate.
  rewrite bind_st. reflexivity.
Qed.

Section Swallowing.

Variable scipy : scipy_lib.
Variable price_table : Type.
Variable yf : market_data price_table.
Variable widget : widgets.
Variable user_data_py : user_data_module.
Variable frame_metrics : DataFrame -> outcome MetricsResult.

(** What is shown for an exception of the price lookup, and for one of the
    processing block. *)
Let lookup_error (ticker : string) (e : exn) : st_call :=
  st_error [Text "Error fetching stock value for "; Text ticker;
            Text ": "; Text (exn_msg e)].

Let processing_error (e : exn) : st_call :=
  st_error [Text "An error occurred while processing your portfolio: ";
            Text (exn_msg e)].

Let risk_free_rate : float64 := number_input widget "Enter risk-free rate:".

(** C4, as the code has it.  [get_stock_value] never raises: an exception
    of the price lookup, be it of the quote or of the price history it
    falls back on, is shown with [st.error] and becomes the value 0.
    [portfolio_management_interface] never raises either: an exception
    that escapes its body is dropped and leaves no trace, the world being
    the one in which it was raised.  Between the two, errors travel as
    exceptions: [calculate_portfolio_metrics] raises what the normality
    test raises, and the analysis and overview views raise it in turn; the
    optimisers raise what the solver raises, and the optimisation view
    raises what either optimiser raises; the simulation raises an
    [IndexError] on returns without a day; the processing block raises
    what the chosen view raises, and its handler shows the message with
    [st.error] and returns. *)
Theorem exceptions_are_absorbed :
  (forall ticker quantity w, exists v w',
      get_stock_value yf ticker quantity w = (Return v, w'))
  /\ (forall ticker quantity w e w',
        info_regularMarketPrice yf ticker w = (Raise e, w') ->
        get_stock_value yf ticker quantity w
        = (Return (Finite 0), showing w' [lookup_error ticker e]))
  /\ (forall ticker quantity w w1 e w',
        info_regularMarketPrice yf ticker w = (Return None, w1) ->
        history_last_close yf ticker w1 = (Raise e, w') ->
        get_stock_value yf ticker quantity w
        = (Return (Finite 0), showing w' [lookup_error ticker e]))
  /\ (forall user_id w, exists w',
        portfolio_management_interface scipy yf widget user_data_py
          frame_metrics user_id w = (Return tt, w'))
  /\ (forall user_id w e w',
        interface_body scipy yf widget user_data_py frame_metrics user_id w
          = (Raise e, w') ->
        portfolio_management_interface scipy yf widget user_data_py
          frame_metrics user_id w = (Return tt, w'))
  /\ (forall returns e,
        (2 <= length returns)%nat ->
        stats_shapiro scipy returns = Raise e ->
        calculate_portfolio_metrics scipy frame_metrics (Series returns)
          = Raise e)
  /\ (forall portfolio_returns e w,
        calculate_portfolio_metrics scipy frame_metrics portfolio_returns
          = Raise e ->
        perform_portfolio_analysis scipy frame_metrics portfolio_returns w
        = (Raise e, showing w [st_header "Portfolio Analysis"]))
  /\ (forall portfolio_returns returns portfolio e w,
        calculate_portfolio_metrics scipy frame_metrics portfolio_returns
          = Raise e ->
        exists w',
          perform_portfolio_overview scipy yf frame_metrics portfolio_returns
            returns portfolio w = (Raise e, w'))
  /\ (forall returns cov_matrix e,
        length (columns returns) <> 0%nat ->
        minimize scipy
          (fun x => negative_sharpe_ratio x returns cov_matrix risk_free_rate)
          (repeat (Finite (1 / INR (length (columns returns))))
             (length (columns returns)))
          (Some "SLSQP") (bounds (length (columns returns))) constraints
          = Raise e ->
        maximize_sharpe_ratio scipy returns cov_matrix risk_free_rate = Raise e)
  /\ (forall cov_matrix e,
        length cov_matrix <> 0%nat ->
        minimize scipy
          (fun x => portfolio_volatility x cov_matrix)
          (repeat (Finite (1 / INR (length cov_matrix))) (length cov_matrix))
          None (bounds (length cov_matrix)) constraints
          = Raise e ->
        global_minimum_variance scipy cov_matrix = Raise e)
  /\ (forall returns portfolio e w,
        (2 <= length portfolio)%nat ->
        maximize_sharpe_ratio scipy returns (df_cov returns) risk_free_rate
          = Raise e
        \/ (exists msr_weights,
              maximize_sharpe_ratio scipy returns (df_cov returns)
                risk_free_rate = Return msr_weights)
           /\ global_minimum_variance scipy (df_cov returns) = Raise e ->
        perform_portfolio_optimization scipy widget returns portfolio w
        = (Raise e, showing w [st_header "Portfolio Optimization"]))
  /\ (forall returns portfolio w,
        (2 <= length portfolio)%nat ->
        rows returns = [] ->
        exists e w',
          perform_monte_carlo_var widget returns portfolio w = (Raise e, w')
          /\ exn_class e = "IndexError")
  /\ (forall portfolio w w1 data data' returns portfolio_returns e w',
        download_adj_close yf (keys portfolio) w = (Return data, w1) ->
        (if (length portfolio =? 1)%nat then to_frame yf data
         else if (length portfolio =? 2)%nat then fillna_pad yf data
              else Return data) = Return data' ->
        pct_change_dropna yf data' = Return returns ->
        aggregate_returns returns (holdings_weights portfolio)
          = Return portfolio_returns ->
        selected_view scipy yf widget frame_metrics
          (sidebar_radio widget "Choose Analysis" analysis_options)
          portfolio_returns returns portfolio
          (showing w1 [st_sidebar_title "Navigation"]) = (Raise e, w') ->
        process_portfolio scipy yf widget frame_metrics portfolio w
        = (Raise e, w'))
  /\ (forall portfolio w e w',
        process_portfolio scipy yf widget frame_metrics portfolio w
          = (Raise e, w') ->
        process_portfolio_guarded scipy yf widget frame_metrics portfolio w
        = (Return tt, showing w' [processing_error e])).
Proof.
  repeat match goal with |- _ /\ _ => split end.
  - intros ticker quantity w. apply get_stock_value_returns.
  - intros ticker quantity w e w' Hinfo.
    unfold get_stock_value, try_except, bind. rewrite Hinfo. reflexivity.
  - intros ticker quantity w w1 e w' Hinfo Hclose.
    unfold get_stock_value, try_except, bind. rewrite Hinfo, Hclose.
    reflexivity.
  - intros user_id w. unfold portfolio_management_interface.
    rewrite try_except_pass. eexists. reflexivity.
  - intros user_id w e w' Hbody. unfold portfolio_management_interface.
    rewrite try_except_pass, Hbody. reflexivity.
  - intros returns e Hlen Hshapiro. unfold calculate_portfolio_metrics.
    simpl len. destruct (Nat.ltb_spec (length returns) 2) as [Hlt | _]; [lia | ].
    rewrite Hshapiro. reflexivity.
  - intros portfolio_returns e w Hmetrics. unfold perform_portfolio_analysis.
    rewrite bind_st. unfold bind at 1, lift at 1. rewrite Hmetrics.
    reflexivity.
  - intros portfolio_returns returns portfolio e w Hmetrics.
    unfold perform_portfolio_overview. rewrite !bind_st.
    destruct (display_current_portfolio_total yf portfolio
                (showing (showing w [st_header "Portfolio Overview"])
                   [st_subheader "Current Allocation"])) as [w1 Hshow].
    unfold bind at 1. rewrite Hshow. rewrite bind_st.
    unfold bind at 1, lift at 1. rewrite Hmetrics. eexists. reflexivity.
  - intros returns cov_matrix e Hn Hsolver. unfold maximize_sharpe_ratio.
    rewrite (initial_guess_positive _ Hn). fold risk_free_rate.
    rewrite Hsolver. reflexivity.
  - intros cov_matrix e Hn Hsolver. unfold global_minimum_variance.
    rewrite (initial_guess_positive _ Hn). rewrite Hsolver. reflexivity.
  - intros returns portfolio e w Hlen Hraise.
    unfold perform_portfolio_optimization.
    destruct (Nat.ltb_spec (length portfolio) 2) as [Hlt | _]; [lia | ].
    rewrite bind_st. fold risk_free_rate.
    destruct Hraise as [Hmsr | [[msr_weights Hmsr] Hgmv]].
    + unfold bind at 1, lift at 1. rewrite Hmsr. reflexivity.
    + unfold bind at 1, lift at 1. rewrite Hmsr.
      unfold bind at 1, lift at 1. rewrite Hgmv. reflexivity.
  - intros returns portfolio w Hlen Hrows.
    rewrite (monte_carlo_run_no_data widget returns portfolio w Hlen Hrows).
    eexists. eexists. split; reflexivity.
  - intros portfolio w w1 data data' returns portfolio_returns e w'
      Hdownload Hprepare Hpct Haggregate Hview.
    rewrite (process_portfolio_view scipy yf widget frame_metrics portfolio
               w w1 data data' returns portfolio_returns
               Hdownload Hprepare Hpct Haggregate).
    exact Hview.
  - intros portfolio w e w' Hraise.
    unfold process_portfolio_guarded, try_except. rewrite Hraise. reflexivity.
Qed.

End Swallowing.

(** C4, as the specification states it, fails.  With the market data
    source unreachable, the value of ten shares is reported as 0; with the
    user's file unreadable, the interface returns normally and all that was
    shown is the title. *)
Lemma failure_becomes_zero_or_nothing :
  get_stock_value offline_market "AAPL" (Finite 10) (fresh_world (fun _ => 0))
    = (Return (Finite 0),
       {| st_calls :=
            [st_error [Text "Error fetching stock value for "; Text "AAPL";
                       Text ": "; Text "Max retries exceeded"]];
          np_random := fun _ => 0;
          user_files := [] |})
  /\ portfolio_management_interface sample_scipy offline_market default_widgets
       unreadable_user_data no_frame_metrics "alice" (fresh_world (fun _ => 0))
     = (Return tt,
        {| st_calls := [st_title "📊 Advanced Portfolio Management"];
           np_random := fun _ => 0;
           user_files := [] |}).
Proof. split; reflexivity. Qed.

(** The value of ten shares when there is no quote and the price history
    is empty. *)
Lemma exceptions_are_absorbed_witness :
  get_stock_value no_history_market "AAPL" (Finite 10) (fresh_world (fun _ => 0))
    = (Return (Finite 0),
       showing (fresh_world (fun _ => 0))
         [st_error [Text "Error fetching stock value for "; Text "AAPL";
                    Text ": ";
                    Text "single positional indexer is out-of-bounds"]]).
Proof.
  apply (proj1 (proj2 (proj2
           (exceptions_are_absorbed sample_scipy unit no_history_market
              default_widgets unreadable_user_data no_frame_metrics)))
           "AAPL" (Finite 10) (fresh_world (fun _ => 0))
           (fresh_world (fun _ => 0))
           {| exn_class := "IndexError";
              exn_msg := "single positional indexer is out-of-bounds" |}
           (fresh_world (fun _ => 0))).
  - reflexivity.
  - reflexivity.
Defined.

Section Interface.

Variable scipy : scipy_lib.
Variable price_table : Type.
Variable yf : market_data price_table.
Variable widget : widgets.
Variable user_data_py : user_data_module.
Variable frame_metrics : DataFrame -> outcome MetricsResult.
Variable user_id : string.

Let title : st_call := st_title "📊 Advanced Portfolio Management".
Let empty_message : st_call :=
  st_info "Your portfolio is empty. Add some stocks to get started!".
Let add_header : st_call := st_header "Add Stock to Portfolio".

(** X24. For a user without holdings who does not press the button, the
    interface shows the title, the message that the portfolio is empty, the
    header of the form, and the same message a second time; the market data
    source is not consulted. *)
Theorem empty_portfolio_is_announced_twice
  (w w1 : world) (stored : user_data) :
  button widget "Add to Portfolio" = false ->
  load_user_data user_data_py user_id (showing w [title]) = (Return stored, w1) ->
  (portfolio_entry stored = None \/ portfolio_entry stored = Some []) ->
  portfolio_management_interface scipy yf widget user_data_py frame_metrics
    user_id w
  = (Return tt, showing w1 [empty_message; add_header; empty_message]).
Proof.
  intros Hidle Hload Hnone.
  unfold portfolio_management_interface. rewrite try_except_pass.
  unfold interface_body. unfold bind at 1. rewrite st_run.
  unfold bind at 1. unfold showing, title in Hload. rewrite Hload.
  assert (Hp : match portfolio_entry stored with
               | Some p => p
               | None => []
               end = []).
  { destruct Hnone as [Hn | Hn]; rewrite Hn; reflexivity. }
  rewrite Hp. unfold bind at 1. cbn [display_current_portfolio]. rewrite st_run.
  unfold bind at 1. unfold add_stock_to_portfolio. unfold bind at 1.
  rewrite st_run, Hidle. unfold ret at 1. rewrite st_run.
  unfold showing. cbn [snd st_calls np_random user_files].
  rewrite <- !app_assoc. reflexivity.
Qed.

(** X25. For a user with holdings who does not press the button, a failure of
    the price download is shown as one error after the allocation and the
    header of the form, and the interface returns: no analysis is shown. *)
Theorem failed_download_is_reported
  (w w1 : world) (stored : user_data) (portfolio : holdings) (e : exn) :
  button widget "Add to Portfolio" = false ->
  load_user_data user_data_py user_id (showing w [title]) = (Return stored, w1) ->
  portfolio_entry stored = Some portfolio ->
  portfolio <> [] ->
  (forall w0, download_adj_close yf (keys portfolio) w0 = (Raise e, w0)) ->
  exists w2 : world,
    display_current_portfolio yf portfolio w1 = (Return tt, w2)
    /\ portfolio_management_interface scipy yf widget user_data_py frame_metrics
         user_id w
       = (Return tt,
          showing w2
            [add_header;
             st_error [Text "An error occurred while processing your portfolio: ";
                       Text (exn_msg e)]]).
Proof.
  intros Hidle Hload Hentry Hne Hdownload.
  destruct (display_current_portfolio_total yf portfolio w1) as [w2 Hshow].
  exists w2. split; [exact Hshow | ].
  unfold portfolio_management_interface. rewrite try_except_pass.
  unfold interface_body. unfold bind at 1. rewrite st_run.
  unfold bind at 1. unfold showing, title in Hload. rewrite Hload, Hentry.
  unfold bind at 1. rewrite Hshow.
  unfold bind at 1. unfold add_stock_to_portfolio. unfold bind at 1.
  rewrite st_run, Hidle. unfold ret at 1.
  destruct portfolio as [| h rest]; [contradiction Hne; reflexivity | ].
  unfold process_portfolio_guarded, try_except, process_portfolio.
  unfold bind at 1. rewrite Hdownload. rewrite st_run.
  unfold showing. cbn [snd st_calls np_random user_files].
  rewrite <- !app_assoc. reflexivity.
Qed.

End Interface.

(** A user without a file, the button left alone. *)
Lemma empty_portfolio_is_announced_twice_witness :
  portfolio_management_interface sample_scipy offline_market default_widgets
    stored_user_data no_frame_metrics "alice" (fresh_world (fun _ => 0))
  = (Return tt,
     showing
       (showing (fresh_world (fun _ => 0))
          [st_title "📊 Advanced Portfolio Management"])
       [st_info "Your portfolio is empty. Add some stocks to get started!";
        st_header "Add Stock to Portfolio";
        st_info "Your portfolio is empty. Add some stocks to get started!"]).
Proof.
  apply (empty_portfolio_is_announced_twice sample_scipy unit offline_market
           default_widgets stored_user_data no_frame_metrics "alice"
           (fresh_world (fun _ => 0))
           (showing (fresh_world (fun _ => 0))
              [st_title "📊 Advanced Portfolio Management"])
           {| portfolio_entry := None; other_entries := [] |}).
  - reflexivity.
  - reflexivity.
  - left. reflexivity.
Defined.

(** Alice holds two stocks; quotes arrive, the download does not. *)
Lemma failed_download_is_reported_witness :
  exists w2 : world,
    display_current_portfolio quotes_without_history two_stocks
      (showing alice_world [st_title "📊 Advanced Portfolio Management"])
    = (Return tt, w2)
    /\ portfolio_management_interface sample_scipy quotes_without_history
         default_widgets stored_user_data no_frame_metrics "alice" alice_world
       = (Return tt,
          showing w2
            [st_header "Add Stock to Portfolio";
             st_error [Text "An error occurred while processing your portfolio: ";
                       Text (exn_msg connection_error)]]).
Proof.
  apply (failed_download_is_reported sample_scipy unit quotes_without_history
           default_widgets stored_user_data no_frame_metrics "alice"
           alice_world
           (showing alice_world [st_title "📊 Advanced Portfolio Management"])
           {| portfolio_entry := Some two_stocks; other_entries := [] |}
           two_stocks connection_error).
  - reflexivity.
  - reflexivity.
  - reflexivity.
  - discriminate.
  - intros w0. reflexivity.
Defined.

Section Filling.

Variable scipy : scipy_lib.
Variable price_table : Type.
Variable widget : widgets.
Variable frame_metrics : DataFrame -> outcome MetricsResult.


End Filling.

(** ** The volatility of a weight vector *)

(** X27. [portfolio_volatility] returns for a square covariance matrix of
    the weights' size, and raises nothing but a [ValueError] otherwise.  The
    volatility it returns is never a negative number: it is a number at
    least 0, [inf], or [nan] (as for a negative [w' C w]). *)
Theorem portfolio_volatility_not_negative
  (weights : ndarray) (cov_matrix : list ndarray) :
  (forall v, portfolio_volatility weights cov_matrix = Return v ->
             not_negative v)
  /\ (forall e, portfolio_volatility weights cov_matrix = Raise e ->
                exn_class e = "ValueError")
  /\ (length cov_matrix = length weights ->
      Forall (fun row => length row = length weights) cov_matrix ->
      exists v, portfolio_volatility weights cov_matrix = Return v).
Proof.
  split; [ | split].
  - unfold portfolio_volatility, np_dot_matrix, np_dot.
    destruct (snd (shape cov_matrix) =? length weights)%nat;
      cbn [and_then]; [ | discriminate].
    destruct (length weights =? _)%nat; cbn [and_then]; [ | discriminate].
    intros v Hv.
    assert (Hvalue :
              v = (np_sqrt
                     (inner_product weights
                        (map (fun row => inner_product row weights) cov_matrix))
                   * Finite (sqrt 252))%f64).
    { rewrite <- np_sqrt_252. injection Hv as Hv. symmetry. exact Hv. }
    rewrite Hvalue.
    apply fmul_not_negative;
      [apply sqrt_lt_R0; lra | apply np_sqrt_not_negative].
  - unfold portfolio_volatility, np_dot_matrix, np_dot.
    destruct (snd (shape cov_matrix) =? length weights)%nat; cbn [and_then].
    + destruct (length weights =? _)%nat; cbn [and_then]; [discriminate | ].
      intros e He. injection He as He. subst e. reflexivity.
    + intros e He. injection He as He. subst e. reflexivity.
  - intros Hlen Hrows. eexists.
    apply (portfolio_volatility_aligned weights cov_matrix Hlen Hrows).
Qed.

(** ** From the holdings to a view *)

Lemma holdings_weights_length (portfolio : holdings) :
  length (holdings_weights portfolio) = length portfolio.
Proof. unfold holdings_weights, keys. rewrite !length_map. reflexivity. Qed.

Section Pipeline.

Variable scipy : scipy_lib.
Variable price_table : Type.
Variable yf : market_data price_table.
Variable widget : widgets.
Variable frame_metrics : DataFrame -> outcome MetricsResult.

(** X28. With a single stock held, once its prices are downloaded and turned
    into returns, the optimisation view and the Monte Carlo view each show
    only their header and a warning that two stocks are needed. *)
Theorem single_stock_views_only_warn
  (ticker : string) (quantity : float64) (w w1 : world)
  (data data' : price_table) (returns : DataFrame) :
  download_adj_close yf [ticker] w = (Return data, w1) ->
  to_frame yf data = Return data' ->
  pct_change_dropna yf data' = Return returns ->
  (sidebar_radio widget "Choose Analysis" analysis_options
     = "Portfolio Optimization" ->
   process_portfolio scipy yf widget frame_metrics [(ticker, quantity)] w
   = (Return tt,
      showing w1
        [st_sidebar_title "Navigation";
         st_header "Portfolio Optimization";
         st_warning "Portfolio optimization requires at least two stocks. Add more stocks to optimize your portfolio."]))
  /\ (sidebar_radio widget "Choose Analysis" analysis_options
        = "Monte Carlo Simulation" ->
      process_portfolio scipy yf widget frame_metrics [(ticker, quantity)] w
      = (Return tt,
         showing w1
           [st_sidebar_title "Navigation";
            st_header "Monte Carlo VaR Simulation";
            st_warning "Monte Carlo VaR simulation requires at least two stocks. Add more stocks to run the simulation."])).
Proof.
  intros Hdownload Hframe Hpct.
  assert (Hstart :
            forall k : DataFrame -> pandas_obj -> py unit,
              (data0 <- download_adj_close yf (keys [(ticker, quantity)]) ;;
               data1 <- lift (if (length (keys [(ticker, quantity)]) =? 1)%nat
                              then to_frame yf data0
                              else if (length (keys [(ticker, quantity)]) =? 2)%nat
                                   then fillna_pad yf data0
                                   else Return data0) ;;
               returns0 <- lift (pct_change_dropna yf data1) ;;
               portfolio_returns <-
                 lift (aggregate_returns returns0
                         (holdings_weights [(ticker, quantity)])) ;;
               k returns0 portfolio_returns)%py w
              = k returns
                  (Frame (df_scale returns
                            (nth 0 (holdings_weights [(ticker, quantity)]) NaN)))
                  w1).
  { intros k. unfold bind at 1. cbn [keys map fst]. rewrite Hdownload.
    cbn [length Nat.eqb]. unfold bind at 1, lift at 1. rewrite Hframe.
    unfold bind at 1, lift at 1. rewrite Hpct.
    unfold bind at 1, lift at 1. unfold aggregate_returns.
    rewrite holdings_weights_length. reflexivity. }
  split; intros Hradio; unfold process_portfolio; rewrite Hstart;
    rewrite Hradio; cbn [String.eqb Ascii.eqb Bool.eqb]; run_st.
  - unfold perform_portfolio_optimization. cbn [length Nat.ltb Nat.leb].
    run_st. rewrite !showing_showing. reflexivity.
  - unfold perform_monte_carlo_var. cbn [length Nat.ltb Nat.leb].
    run_st. rewrite !showing_showing. reflexivity.
Qed.

(** X29. With two stocks or more, returns that have another number of columns
    than there are stocks held (a ticker the download did not deliver) make
    the processing raise a [ValueError] before anything is shown, whichever
    view was chosen: the portfolio's returns are computed before the view is.
    *)
Theorem missing_column_stops_processing
  (portfolio : holdings) (w w1 : world)
  (data data' : price_table) (returns : DataFrame) :
  (2 <= length portfolio)%nat ->
  download_adj_close yf (keys portfolio) w = (Return data, w1) ->
  (if (length portfolio =? 2)%nat then fillna_pad yf data else Return data)
    = Return data' ->
  pct_change_dropna yf data' = Return returns ->
  length (columns returns) <> length portfolio ->
  exists message : string,
    message
    = ("Dot product shape mismatch, ("
       ++ str_nat (length (rows returns)) ++ ", "
       ++ str_nat (length (columns returns)) ++ ") vs ("
       ++ str_nat (length portfolio) ++ ",)")%string
    /\ process_portfolio scipy yf widget frame_metrics portfolio w
       = (Raise {| exn_class := "ValueError"; exn_msg := message |}, w1)
    /\ process_portfolio_guarded scipy yf widget frame_metrics portfolio w
       = (Return tt,
          showing w1
            [st_error
               [Text "An error occurred while processing your portfolio: ";
                Text message]]).
Proof.
  intros Hlen Hdownload Hfill Hpct Hshape.
  eexists. split; [reflexivity | ].
  assert (Hrun : process_portfolio scipy yf widget frame_metrics portfolio w
                 = (Raise {| exn_class := "ValueError";
                             exn_msg :=
                               ("Dot product shape mismatch, ("
                                ++ str_nat (length (rows returns)) ++ ", "
                                ++ str_nat (length (columns returns))
                                ++ ") vs ("
                                ++ str_nat (length portfolio) ++ ",)")%string |},
                    w1)).
  { unfold process_portfolio. unfold bind at 1. rewrite Hdownload.
    unfold keys. rewrite length_map.
    destruct (Nat.eqb_spec (length portfolio) 1) as [H1 | _]; [lia | ].
    unfold bind at 1, lift at 1. rewrite Hfill.
    unfold bind at 1, lift at 1. rewrite Hpct.
    unfold bind at 1, lift at 1. unfold aggregate_returns, df_dot.
    rewrite holdings_weights_length.
    destruct (Nat.eqb_spec (length portfolio) 1) as [H1 | _]; [lia | ].
    destruct (Nat.eqb_spec (length (columns returns)) (length portfolio))
      as [Heq | _]; [contradiction | reflexivity]. }
  split; [exact Hrun | ].
  unfold process_portfolio_guarded, try_except. rewrite Hrun. reflexivity.
Qed.

End Pipeline.


(** Ten shares of one stock, the optimisation chosen. *)
Lemma single_stock_views_only_warn_witness :
  process_portfolio sample_scipy quoting_market
    (choosing "Portfolio Optimization") no_frame_metrics
    [("AAPL", Finite 10)] (fresh_world (fun _ => 0))
  = (Return tt,
     showing (fresh_world (fun _ => 0))
       [st_sidebar_title "Navigation";
        st_header "Portfolio Optimization";
        st_warning "Portfolio optimization requires at least two stocks. Add more stocks to optimize your portfolio."]).
Proof.
  apply (proj1 (single_stock_views_only_warn sample_scipy unit quoting_market
                  (choosing "Portfolio Optimization") no_frame_metrics
                  "AAPL" (Finite 10)
                  (fresh_world (fun _ => 0)) (fresh_world (fun _ => 0)) tt tt
                  {| columns := ["AAPL"; "MSFT"];
                     rows := [[Finite 0; Finite (2 / 100)];
                              [Finite 0; Finite (2 / 100)]] |}
                  eq_refl eq_refl eq_refl)).
  reflexivity.
Defined.

(** Three stocks held, two columns of returns. *)
Lemma missing_column_stops_processing_witness :
  process_portfolio sample_scipy quoting_market default_widgets no_frame_metrics
    three_stocks (fresh_world (fun _ => 0))
  = (Raise {| exn_class := "ValueError";
              exn_msg := "Dot product shape mismatch, (2, 2) vs (3,)" |},
     fresh_world (fun _ => 0))
  /\ process_portfolio_guarded sample_scipy quoting_market default_widgets
       no_frame_metrics three_stocks (fresh_world (fun _ => 0))
     = (Return tt,
        showing (fresh_world (fun _ => 0))
          [st_error [Text "An error occurred while processing your portfolio: ";
                     Text "Dot product shape mismatch, (2, 2) vs (3,)"]]).
Proof.
  destruct (missing_column_stops_processing sample_scipy unit quoting_market
              default_widgets no_frame_metrics three_stocks
              (fresh_world (fun _ => 0)) (fresh_world (fun _ => 0)) tt tt
              {| columns := ["AAPL"; "MSFT"];
                 rows := [[Finite 0; Finite (2 / 100)];
                          [Finite 0; Finite (2 / 100)]] |})
    as [message [Hmessage Hrun]].
  - simpl. lia.
  - reflexivity.
  - reflexivity.
  - reflexivity.
  - simpl. lia.
  - rewrite Hmessage in Hrun. exact Hrun.
Defined.

Section AddThenProcess.

Variable scipy : scipy_lib.
Variable price_table : Type.
Variable yf : market_data price_table.
Variable widget : widgets.
Variable user_data_py : user_data_module.
Variable frame_metrics : DataFrame -> outcome MetricsResult.
Variable user_id : string.

Let new_stock : string := text_input widget "Enter stock ticker:".
Let new_quantity : float64 := number_input widget "Enter quantity:".

(** X30. A user without holdings who presses the button is told that the
    portfolio is empty, and after the stock is saved the same run goes on to
    process the holdings with that stock: the holdings shown and the holdings
    processed are one dict, changed in between. *)
Theorem added_stock_is_processed_at_once
  (w w1 w2 w3 : world) (stored stored' : user_data) :
  button widget "Add to Portfolio" = true ->
  load_user_data user_data_py user_id
    (showing w [st_title "📊 Advanced Portfolio Management"])
  = (Return stored, w1) ->
  (portfolio_entry stored = None \/ portfolio_entry stored = Some []) ->
  load_user_data user_data_py user_id
    (showing w1
       [st_info "Your portfolio is empty. Add some stocks to get started!";
        st_header "Add Stock to Portfolio"])
  = (Return stored', w2) ->
  save_user_data user_data_py user_id
    {| portfolio_entry := Some [(new_stock, new_quantity)];
       other_entries := other_entries stored' |} w2
  = (Return tt, w3) ->
  portfolio_management_interface scipy yf widget user_data_py frame_metrics
    user_id w
  = (Return tt,
     snd (process_portfolio_guarded scipy yf widget frame_metrics
            [(new_stock, new_quantity)]
            (showing w3
               [st_success [Text "Added "; Value new_quantity "";
                            Text " shares of "; Text new_stock;
                            Text " to your portfolio."]]))).
Proof.
  intros Hpress Hload Hnone Hagain Hsave.
  unfold portfolio_management_interface. rewrite try_except_pass.
  unfold interface_body. unfold bind at 1. rewrite st_run.
  unfold bind at 1. unfold showing in Hload. rewrite Hload.
  assert (Hp : match portfolio_entry stored with
               | Some p => p
               | None => []
               end = []).
  { destruct Hnone as [Hn | Hn]; rewrite Hn; reflexivity. }
  rewrite Hp. unfold bind at 1. cbn [display_current_portfolio].
  rewrite st_showing.
  unfold bind at 1. unfold add_stock_to_portfolio. unfold bind at 1.
  rewrite st_showing, showing_showing. rewrite Hpress.
  unfold bind at 1. cbn [app]. rewrite Hagain.
  cbn [dict_get dict_set]. fold new_stock. fold new_quantity.
  unfold bind. unfold holdings in *. rewrite Hsave. reflexivity.
Qed.

End AddThenProcess.

(** A user without a file types AAPL and 5 and presses the button. *)
Lemma added_stock_is_processed_at_once_witness :
  portfolio_management_interface sample_scipy quotes_without_history
    adding_five_aapl stored_user_data no_frame_metrics "alice"
    (fresh_world (fun _ => 0))
  = (Return tt,
     snd (process_portfolio_guarded sample_scipy quotes_without_history
            adding_five_aapl no_frame_metrics [("AAPL", Finite 5)]
            (showing
               {| st_calls :=
                    [st_title "📊 Advanced Portfolio Management";
                     st_info "Your portfolio is empty. Add some stocks to get started!";
                     st_header "Add Stock to Portfolio"];
                  np_random := fun _ => 0;
                  user_files :=
                    [("alice",
                      {| portfolio_entry := Some [("AAPL", Finite 5)];
                         other_entries := [] |})] |}
               [st_success [Text "Added "; Value (Finite 5) "";
                            Text " shares of "; Text "AAPL";
                            Text " to your portfolio."]]))).
Proof.
  apply (added_stock_is_processed_at_once sample_scipy unit
           quotes_without_history adding_five_aapl stored_user_data
           no_frame_metrics "alice"
           (fresh_world (fun _ => 0))
           (showing (fresh_world (fun _ => 0))
              [st_title "📊 Advanced Portfolio Management"])
           (showing (fresh_world (fun _ => 0))
              [st_title "📊 Advanced Portfolio Management";
               st_info "Your portfolio is empty. Add some stocks to get started!";
               st_header "Add Stock to Portfolio"])
           _
           {| portfolio_entry := None; other_entries := [] |}
           {| portfolio_entry := None; other_entries := [] |}).
  - reflexivity.
  - reflexivity.
  - left. reflexivity.
  - reflexivity.
  - reflexivity.
Defined.

